(** * Phobos joint model: constraints, classification and joint metadata

    A shallow embedding of [phobos/model/joints.py].  Blender ([bpy],
    [mathutils]) is the host: the parts of it the module touches are the
    fields of [Object] and [Scene] below and the operations of [Host]. *)

From Stdlib Require Import Floats ZArith Ascii String List Bool.
From stdpp Require Import base option list gmap strings.
Import ListNotations.

Local Open Scope string_scope.
Local Open Scope list_scope.

(** ** Python values *)

(** Python numbers are binary64 floats.  [==] is IEEE equality, [!=] its
    negation, and a number is truthy when it is [!= 0]. *)
Definition py_eq (a b : float) : bool := PrimFloat.eqb a b.
Definition py_ne (a b : float) : bool := negb (PrimFloat.eqb a b).
Definition py_lt (a b : float) : bool := PrimFloat.ltb a b.
Definition truthy (a : float) : bool := py_ne a 0%float.

(** ** Single-precision attributes

    Blender keeps the bounds of a constraint in C [float]s.  An
    assignment [c.min_y = v] converts the Python number to the nearest
    binary32 value (ties to even, infinite beyond the binary32 range); a
    read gives that value back as a Python number.  Zeros, infinities and
    NaN are kept. *)
Definition float32 (x : float) : float :=
  match Prim2SF x with
  | S754_finite s m e => SF2Prim (binary_normalize 24 128 (cond_Zopp s (Zpos m)) e s)
  | _ => x
  end.

(** The range check of a property with hard limits: a value below [lo]
    becomes [lo], one above [hi] becomes [hi]. *)
Definition clamp (lo hi x : float) : float :=
  if PrimFloat.ltb x lo then lo else if PrimFloat.ltb hi x then hi else x.

(** What a bound of a constraint of type [t] holds after [v] is assigned
    to it: the binary32 value of [v], kept within [-1000, 1000] on a
    LIMIT_ROTATION constraint. *)
Definition stored (t : string) (v : float) : float :=
  if String.eqb t "LIMIT_ROTATION" then clamp (-1000)%float 1000%float (float32 v)
  else float32 v.

Arguments float32 : simpl never.
Arguments stored : simpl never.

(** [sum] over a list of Python booleans. *)
Definition py_sum (l : list bool) : nat :=
  fold_left (fun acc (b : bool) => if b then S acc else acc) l 0.

(** [all(...)] over a generator of booleans. *)
Definition py_all (l : list bool) : bool := forallb (fun b => b) l.

Definition Vec3 : Type := float * float * float.

(** Values stored in custom properties and dictionaries. *)
Inductive PyVal :=
| PyFloat (f : float)
| PyStr (s : string)
| PyList (l : list float).

(** A Python [dict] with string keys, in insertion order. *)
Definition PyDict : Type := list (string * PyVal).

Fixpoint dict_get (d : PyDict) (k : string) : option PyVal :=
  match d with
  | [] => None
  | (k', v) :: d' => if String.eqb k' k then Some v else dict_get d' k
  end.

Definition dict_keys (d : PyDict) : list string := map fst d.

(** [elem in [...]] on a list of strings. *)
Definition str_in (s : string) (l : list string) : bool :=
  existsb (String.eqb s) l.

(** ** Pose-bone constraints *)

(** One record for both Blender constraint kinds the module uses: a
    LIMIT_LOCATION constraint reads [use_min_*], [use_max_*], [min_*],
    [max_*]; a LIMIT_ROTATION constraint reads [use_limit_*], [min_*],
    [max_*].  [ctype] is the attribute [type].  A flag or [owner_space]
    holds the value last assigned to it, a bound what [stored] makes of
    it. *)
Record Constraint := mkConstraint {
  ctype : string;
  use_min_x : bool; use_min_y : bool; use_min_z : bool;
  use_max_x : bool; use_max_y : bool; use_max_z : bool;
  use_limit_x : bool; use_limit_y : bool; use_limit_z : bool;
  min_x : float; min_y : float; min_z : float;
  max_x : float; max_y : float; max_z : float;
  owner_space : string
}.

(** What [bpy.ops.pose.constraint_add(type=t)] creates: no axis enabled,
    all bounds zero. *)
Definition new_constraint (t : string) : Constraint :=
  mkConstraint t false false false false false false false false false
    0%float 0%float 0%float 0%float 0%float 0%float "WORLD".

(** Attribute assignments [c.attr = v]; the assignments to bounds store
    in single precision. *)
Definition set_use_min_x (v : bool) (c : Constraint) : Constraint :=
  let 'mkConstraint t a1 a2 a3 b1 b2 b3 l1 l2 l3 n1 n2 n3 m1 m2 m3 o := c in
  mkConstraint t v a2 a3 b1 b2 b3 l1 l2 l3 n1 n2 n3 m1 m2 m3 o.
Definition set_use_min_y (v : bool) (c : Constraint) : Constraint :=
  let 'mkConstraint t a1 a2 a3 b1 b2 b3 l1 l2 l3 n1 n2 n3 m1 m2 m3 o := c in
  mkConstraint t a1 v a3 b1 b2 b3 l1 l2 l3 n1 n2 n3 m1 m2 m3 o.
Definition set_use_min_z (v : bool) (c : Constraint) : Constraint :=
  let 'mkConstraint t a1 a2 a3 b1 b2 b3 l1 l2 l3 n1 n2 n3 m1 m2 m3 o := c in
  mkConstraint t a1 a2 v b1 b2 b3 l1 l2 l3 n1 n2 n3 m1 m2 m3 o.
Definition set_use_max_x (v : bool) (c : Constraint) : Constraint :=
  let 'mkConstraint t a1 a2 a3 b1 b2 b3 l1 l2 l3 n1 n2 n3 m1 m2 m3 o := c in
  mkConstraint t a1 a2 a3 v b2 b3 l1 l2 l3 n1 n2 n3 m1 m2 m3 o.
Definition set_use_max_y (v : bool) (c : Constraint) : Constraint :=
  let 'mkConstraint t a1 a2 a3 b1 b2 b3 l1 l2 l3 n1 n2 n3 m1 m2 m3 o := c in
  mkConstraint t a1 a2 a3 b1 v b3 l1 l2 l3 n1 n2 n3 m1 m2 m3 o.
Definition set_use_max_z (v : bool) (c : Constraint) : Constraint :=
  let 'mkConstraint t a1 a2 a3 b1 b2 b3 l1 l2 l3 n1 n2 n3 m1 m2 m3 o := c in
  mkConstraint t a1 a2 a3 b1 b2 v l1 l2 l3 n1 n2 n3 m1 m2 m3 o.
Definition set_use_limit_x (v : bool) (c : Constraint) : Constraint :=
  let 'mkConstraint t a1 a2 a3 b1 b2 b3 l1 l2 l3 n1 n2 n3 m1 m2 m3 o := c in
  mkConstraint t a1 a2 a3 b1 b2 b3 v l2 l3 n1 n2 n3 m1 m2 m3 o.
Definition set_use_limit_y (v : bool) (c : Constraint) : Constraint :=
  let 'mkConstraint t a1 a2 a3 b1 b2 b3 l1 l2 l3 n1 n2 n3 m1 m2 m3 o := c in
  mkConstraint t a1 a2 a3 b1 b2 b3 l1 v l3 n1 n2 n3 m1 m2 m3 o.
Definition set_use_limit_z (v : bool) (c : Constraint) : Constraint :=
  let 'mkConstraint t a1 a2 a3 b1 b2 b3 l1 l2 l3 n1 n2 n3 m1 m2 m3 o := c in
  mkConstraint t a1 a2 a3 b1 b2 b3 l1 l2 v n1 n2 n3 m1 m2 m3 o.
Definition set_min_x (v : float) (c : Constraint) : Constraint :=
  let 'mkConstraint t a1 a2 a3 b1 b2 b3 l1 l2 l3 n1 n2 n3 m1 m2 m3 o := c in
  mkConstraint t a1 a2 a3 b1 b2 b3 l1 l2 l3 (stored t v) n2 n3 m1 m2 m3 o.
Definition set_min_y (v : float) (c : Constraint) : Constraint :=
  let 'mkConstraint t a1 a2 a3 b1 b2 b3 l1 l2 l3 n1 n2 n3 m1 m2 m3 o := c in
  mkConstraint t a1 a2 a3 b1 b2 b3 l1 l2 l3 n1 (stored t v) n3 m1 m2 m3 o.
Definition set_min_z (v : float) (c : Constraint) : Constraint :=
  let 'mkConstraint t a1 a2 a3 b1 b2 b3 l1 l2 l3 n1 n2 n3 m1 m2 m3 o := c in
  mkConstraint t a1 a2 a3 b1 b2 b3 l1 l2 l3 n1 n2 (stored t v) m1 m2 m3 o.
Definition set_max_x (v : float) (c : Constraint) : Constraint :=
  let 'mkConstraint t a1 a2 a3 b1 b2 b3 l1 l2 l3 n1 n2 n3 m1 m2 m3 o := c in
  mkConstraint t a1 a2 a3 b1 b2 b3 l1 l2 l3 n1 n2 n3 (stored t v) m2 m3 o.
Definition set_max_y (v : float) (c : Constraint) : Constraint :=
  let 'mkConstraint t a1 a2 a3 b1 b2 b3 l1 l2 l3 n1 n2 n3 m1 m2 m3 o := c in
  mkConstraint t a1 a2 a3 b1 b2 b3 l1 l2 l3 n1 n2 n3 m1 (stored t v) m3 o.
Definition set_max_z (v : float) (c : Constraint) : Constraint :=
  let 'mkConstraint t a1 a2 a3 b1 b2 b3 l1 l2 l3 n1 n2 n3 m1 m2 m3 o := c in
  mkConstraint t a1 a2 a3 b1 b2 b3 l1 l2 l3 n1 n2 n3 m1 m2 (stored t v) o.
Definition set_owner_space (v : string) (c : Constraint) : Constraint :=
  let 'mkConstraint t a1 a2 a3 b1 b2 b3 l1 l2 l3 n1 n2 n3 m1 m2 m3 o := c in
  mkConstraint t a1 a2 a3 b1 b2 b3 l1 l2 l3 n1 n2 n3 m1 m2 m3 v.

(** ** Objects, the scene and the effect monad *)

(** The link object: [joint] / [linkobj] in the source, an armature with
    one bone. *)
Record Object := mkObject {
  name : string;
  phobostype : string;
  props : gmap string PyVal;           (* custom properties, obj['key'] *)
  constraints : list Constraint;       (* pose.bones[0].constraints *)
  matrix_basis : list (list float);    (* pose.bones[0].matrix_basis *)
  custom_shape : option string;        (* pose.bones[0].custom_shape *)
  bone_head : Vec3;                    (* data.edit_bones[0].head *)
  bone_tail : Vec3;                    (* data.edit_bones[0].tail *)
  rigid_body_constraint : option (float * float)
    (* the numbers assigned to rigid_body_constraint.spring_stiffness_y
       and .spring_damping_y *)
}.

(** A log record: message and level, as passed to [phoboslog.log]. *)
Definition LogEntry : Type := string * string.

(** The state the module reads and writes.  The [joint] / [linkobj]
    argument of every function is [link]; it is also the active object
    whose first pose bone is the active bone. *)
Record Scene := mkScene {
  link : Object;
  mode : string;                       (* bpy.ops.object.mode_set *)
  logged : list LogEntry;              (* oldest first *)
  rigid_body_world : bool              (* whether the scene has one *)
}.

Inductive Exception :=
| KeyError (key : string)
| AttributeError (attr : string)
| JointTypeError (joint : string)
| RuntimeError (operator : string).

Inductive Outcome (A : Type) :=
| Return (a : A)
| Raise (e : Exception).
Arguments Return {A} a.
Arguments Raise {A} e.

(** Python statements: they may raise; what they wrote before stays. *)
Definition Py (A : Type) : Type := Scene -> Outcome A * Scene.

#[global] Instance Py_ret : MRet Py := fun A a s => (Return a, s).
#[global] Instance Py_bind : MBind Py := fun A B f m s =>
  match m s with
  | (Return a, s') => f a s'
  | (Raise e, s') => (Raise e, s')
  end.

Definition raise {A} (e : Exception) : Py A := fun s => (Raise e, s).
Definition get_link : Py Object := fun s => (Return (link s), s).
Definition modify_link (f : Object -> Object) : Py unit := fun s =>
  (Return tt, mkScene (f (link s)) (mode s) (logged s) (rigid_body_world s)).

(** [log(message, level)] *)
Definition log (message level : string) : Py unit := fun s =>
  (Return tt,
   mkScene (link s) (mode s) (logged s ++ [(message, level)]) (rigid_body_world s)).

(** [bpy.ops.object.mode_set(mode=m)] *)
Definition mode_set (m : string) : Py unit := fun s =>
  (Return tt, mkScene (link s) m (logged s) (rigid_body_world s)).

Definition with_props (f : gmap string PyVal -> gmap string PyVal) (o : Object) : Object :=
  mkObject (name o) (phobostype o) (f (props o)) (constraints o) (matrix_basis o)
    (custom_shape o) (bone_head o) (bone_tail o) (rigid_body_constraint o).
Definition with_constraints (f : list Constraint -> list Constraint) (o : Object) : Object :=
  mkObject (name o) (phobostype o) (props o) (f (constraints o)) (matrix_basis o)
    (custom_shape o) (bone_head o) (bone_tail o) (rigid_body_constraint o).
Definition with_custom_shape (r : option string) (o : Object) : Object :=
  mkObject (name o) (phobostype o) (props o) (constraints o) (matrix_basis o)
    r (bone_head o) (bone_tail o) (rigid_body_constraint o).
Definition with_bone_tail (t : Vec3) (o : Object) : Object :=
  mkObject (name o) (phobostype o) (props o) (constraints o) (matrix_basis o)
    (custom_shape o) (bone_head o) t (rigid_body_constraint o).
Definition with_rigid_body_constraint (r : option (float * float)) (o : Object) : Object :=
  mkObject (name o) (phobostype o) (props o) (constraints o) (matrix_basis o)
    (custom_shape o) (bone_head o) (bone_tail o) r.

(** [joint[key] = value] *)
Definition setitem (key : string) (value : PyVal) : Py unit :=
  modify_link (with_props (fun m => <[key := value]> m)).

(** [bpy.ops.pose.constraint_add(type=t)]: a fresh constraint at the end
    of the active bone's stack.  The operator runs in pose mode only; in
    any other mode the call raises [RuntimeError] and adds nothing. *)
Definition constraint_add (t : string) : Py unit := fun s =>
  if String.eqb (mode s) "POSE" then
    modify_link (with_constraints (fun cs => cs ++ [new_constraint t])) s
  else (Raise (RuntimeError "pose.constraint_add"), s).

(** What Blender gives that the module's text does not fix. *)
Class Host := {
  (* mathutils.Vector: .length, .normalized(), +, -, * *)
  Vector_length : Vec3 -> float;
  Vector_normalized : Vec3 -> Vec3;
  Vector_add : Vec3 -> Vec3 -> Vec3;
  Vector_sub : Vec3 -> Vec3 -> Vec3;
  Vector_mul : Vec3 -> float -> Vec3;
  (* the stack left by [for cons in cs: cs.remove(cons)], a loop that
     removes from the collection it iterates over *)
  remove_each : list Constraint -> list Constraint;
  (* ioUtils.getResource(('joint', jointtype)) *)
  getResource : string -> option string;
  (* str.format of an object *)
  Object_format : Object -> string
}.

(** ** getJointConstraint *)

(** References to constraints are positions in the bone's stack. *)
Definition last_of_type (cs : list Constraint) (t : string) : option nat :=
  fst (fold_left
         (fun '(con, i) c => (if String.eqb (ctype c) t then Some i else con, S i))
         cs (None, 0)).

Definition getJointConstraint (joint : Object) (t : string) : option nat :=
  last_of_type (constraints joint) t.

(** [ref.attr = v] on the constraint [ref] points to. *)
Definition setattr (ref : option nat) (attr : string)
    (assign : Constraint -> Constraint) : Py unit := fun s =>
  match ref with
  | None => (Raise (AttributeError attr), s)
  | Some i =>
      match constraints (link s) !! i with
      | None => (Raise (AttributeError attr), s)
      | Some c => modify_link (with_constraints (fun cs => <[i := assign c]> cs)) s
      end
  end.

(** [for x in l: body(x)] *)
Fixpoint for_each {A} (l : list A) (body : A -> Py unit) : Py unit :=
  match l with
  | [] => mret tt
  | x :: l' => body x;; for_each l' body
  end.

(** ** The builders: set_revolute, set_continuous, set_prismatic,
    set_fixed, set_planar *)

Definition set_revolute (lower upper : float) : Py unit :=
  (* fix location *)
  constraint_add "LIMIT_LOCATION";;
  joint ← get_link;
  let cloc := getJointConstraint joint "LIMIT_LOCATION" in
  setattr cloc "use_min_x" (set_use_min_x true);;
  setattr cloc "use_min_y" (set_use_min_y true);;
  setattr cloc "use_min_z" (set_use_min_z true);;
  setattr cloc "use_max_x" (set_use_max_x true);;
  setattr cloc "use_max_y" (set_use_max_y true);;
  setattr cloc "use_max_z" (set_use_max_z true);;
  setattr cloc "owner_space" (set_owner_space "LOCAL");;
  (* fix rotation x, z and limit y *)
  constraint_add "LIMIT_ROTATION";;
  joint ← get_link;
  let crot := getJointConstraint joint "LIMIT_ROTATION" in
  setattr crot "use_limit_x" (set_use_limit_x true);;
  setattr crot "min_x" (set_min_x 0%float);;
  setattr crot "max_x" (set_max_x 0%float);;
  setattr crot "use_limit_y" (set_use_limit_y true);;
  setattr crot "min_y" (set_min_y lower);;
  setattr crot "max_y" (set_max_y upper);;
  setattr crot "use_limit_z" (set_use_limit_z true);;
  setattr crot "min_z" (set_min_z 0%float);;
  setattr crot "max_z" (set_max_z 0%float);;
  setattr crot "owner_space" (set_owner_space "LOCAL").

Definition set_continuous : Py unit :=
  (* fix location *)
  constraint_add "LIMIT_LOCATION";;
  joint ← get_link;
  let cloc := getJointConstraint joint "LIMIT_LOCATION" in
  setattr cloc "use_min_x" (set_use_min_x true);;
  setattr cloc "use_min_y" (set_use_min_y true);;
  setattr cloc "use_min_z" (set_use_min_z true);;
  setattr cloc "use_max_x" (set_use_max_x true);;
  setattr cloc "use_max_y" (set_use_max_y true);;
  setattr cloc "use_max_z" (set_use_max_z true);;
  setattr cloc "owner_space" (set_owner_space "LOCAL");;
  (* fix rotation x, z *)
  constraint_add "LIMIT_ROTATION";;
  joint ← get_link;
  let crot := getJointConstraint joint "LIMIT_ROTATION" in
  setattr crot "use_limit_x" (set_use_limit_x true);;
  setattr crot "min_x" (set_min_x 0%float);;
  setattr crot "max_x" (set_max_x 0%float);;
  setattr crot "use_limit_z" (set_use_limit_z true);;
  setattr crot "min_z" (set_min_z 0%float);;
  setattr crot "max_z" (set_max_z 0%float);;
  setattr crot "owner_space" (set_owner_space "LOCAL").

Definition set_prismatic (lower upper : float) : Py unit :=
  (* fix location except for y axis *)
  constraint_add "LIMIT_LOCATION";;
  joint ← get_link;
  let cloc := getJointConstraint joint "LIMIT_LOCATION" in
  setattr cloc "use_min_x" (set_use_min_x true);;
  setattr cloc "use_min_y" (set_use_min_y true);;
  setattr cloc "use_min_z" (set_use_min_z true);;
  setattr cloc "use_max_x" (set_use_max_x true);;
  setattr cloc "use_max_y" (set_use_max_y true);;
  setattr cloc "use_max_z" (set_use_max_z true);;
  (if py_eq lower upper then
     setattr cloc "use_min_y" (set_use_min_y false);;
     setattr cloc "use_max_y" (set_use_max_y false)
   else
     setattr cloc "min_y" (set_min_y lower);;
     setattr cloc "max_y" (set_max_y upper));;
  setattr cloc "owner_space" (set_owner_space "LOCAL");;
  (* fix rotation *)
  constraint_add "LIMIT_ROTATION";;
  joint ← get_link;
  let crot := getJointConstraint joint "LIMIT_ROTATION" in
  setattr crot "use_limit_x" (set_use_limit_x true);;
  setattr crot "min_x" (set_min_x 0%float);;
  setattr crot "max_x" (set_max_x 0%float);;
  setattr crot "use_limit_y" (set_use_limit_y true);;
  setattr crot "min_y" (set_min_y 0%float);;
  setattr crot "max_y" (set_max_y 0%float);;
  setattr crot "use_limit_z" (set_use_limit_z true);;
  setattr crot "min_z" (set_min_z 0%float);;
  setattr crot "max_z" (set_max_z 0%float);;
  setattr crot "owner_space" (set_owner_space "LOCAL").

Definition set_fixed : Py unit :=
  (* fix location *)
  constraint_add "LIMIT_LOCATION";;
  joint ← get_link;
  let cloc := getJointConstraint joint "LIMIT_LOCATION" in
  setattr cloc "use_min_x" (set_use_min_x true);;
  setattr cloc "use_min_y" (set_use_min_y true);;
  setattr cloc "use_min_z" (set_use_min_z true);;
  setattr cloc "use_max_x" (set_use_max_x true);;
  setattr cloc "use_max_y" (set_use_max_y true);;
  setattr cloc "use_max_z" (set_use_max_z true);;
  setattr cloc "owner_space" (set_owner_space "LOCAL");;
  (* fix rotation *)
  constraint_add "LIMIT_ROTATION";;
  joint ← get_link;
  let crot := getJointConstraint joint "LIMIT_ROTATION" in
  setattr crot "use_limit_x" (set_use_limit_x true);;
  setattr crot "min_x" (set_min_x 0%float);;
  setattr crot "max_x" (set_max_x 0%float);;
  setattr crot "use_limit_y" (set_use_limit_y true);;
  setattr crot "min_y" (set_min_y 0%float);;
  setattr crot "max_y" (set_max_y 0%float);;
  setattr crot "use_limit_z" (set_use_limit_z true);;
  setattr crot "min_z" (set_min_z 0%float);;
  setattr crot "max_z" (set_max_z 0%float);;
  setattr crot "owner_space" (set_owner_space "LOCAL").

Definition set_planar : Py unit :=
  (* fix location *)
  constraint_add "LIMIT_LOCATION";;
  joint ← get_link;
  let cloc := getJointConstraint joint "LIMIT_LOCATION" in
  setattr cloc "use_min_y" (set_use_min_y true);;
  setattr cloc "use_max_y" (set_use_max_y true);;
  setattr cloc "owner_space" (set_owner_space "LOCAL");;
  (* fix rotation *)
  constraint_add "LIMIT_ROTATION";;
  joint ← get_link;
  let crot := getJointConstraint joint "LIMIT_ROTATION" in
  setattr crot "use_limit_x" (set_use_limit_x true);;
  setattr crot "min_x" (set_min_x 0%float);;
  setattr crot "max_x" (set_max_x 0%float);;
  setattr crot "use_limit_y" (set_use_limit_y true);;
  setattr crot "min_y" (set_min_y 0%float);;
  setattr crot "max_y" (set_max_y 0%float);;
  setattr crot "use_limit_z" (set_use_limit_z true);;
  setattr crot "min_z" (set_min_z 0%float);;
  setattr crot "max_z" (set_max_z 0%float);;
  setattr crot "owner_space" (set_owner_space "LOCAL").

(** ** setJointConstraints *)

(** Truth value of an optional dictionary argument: [None] and the empty
    dictionary are false. *)
Definition dict_truthy (d : option PyDict) : bool :=
  match d with
  | Some (_ :: _) => true
  | _ => false
  end.

(** [d[k]] *)
Definition getitem (d : PyDict) (k : string) : Py PyVal :=
  match dict_get d k with
  | Some v => mret v
  | None => raise (KeyError k)
  end.

(** [bpy.ops.rigidbody.constraint_add(type='GENERIC_SPRING')] followed by
    the two assignments to the new rigid body constraint, inside
    [try: ... except RuntimeError:].  The operator raises when the scene
    has no rigid body world. *)
Definition add_generic_spring (spring damping : float) : Py unit := fun s =>
  if rigid_body_world s then
    modify_link (with_rigid_body_constraint (Some (spring, damping))) s
  else
    log "No Blender Rigid Body World present, only adding custom properties." "ERROR" s.

(** Truth value of an object reference that may be [None]. *)
Definition obj_truthy {A} (o : option A) : bool :=
  match o with
  | Some _ => true
  | None => false
  end.

Section WithHost.
Context `{Host}.

Definition setJointConstraints (jointtype : string) (lower upper spring damping : float)
    (maxeffort_approximation maxspeed_approximation : option PyDict) : Py unit :=
  joint ← get_link;
  if negb (String.eqb (phobostype joint) "link") then
    log ("Cannot set joint constraints. Not a link: " +:+ Object_format joint) "ERROR"
  else
    log ("Setting joint constraints at link " +:+ name joint +:+ ".") "DEBUG";;
    mode_set "POSE";;
    (* remove existing constraints from bone *)
    modify_link (with_constraints remove_each);;
    (* add spring & damping *)
    (if str_in jointtype ["revolute"; "prismatic"] && (truthy spring || truthy damping) then
       add_generic_spring spring damping;;
       setitem "joint/dynamics/springStiffness" (PyFloat spring);;
       setitem "joint/dynamics/springDamping" (PyFloat damping);;
       setitem "joint/dynamics/spring_const_constraint_axis1" (PyFloat spring);;
       setitem "joint/dynamics/damping_const_constraint_axis1" (PyFloat damping)
     else mret tt);;
    (* set constraints accordingly *)
    (if String.eqb jointtype "revolute" then set_revolute lower upper
     else if String.eqb jointtype "continuous" then set_continuous
     else if String.eqb jointtype "prismatic" then set_prismatic lower upper
     else if String.eqb jointtype "fixed" then set_fixed
     else if String.eqb jointtype "floating" then mret tt
     else if String.eqb jointtype "planar" then set_planar
     else log ("Unknown joint type for joint " +:+ name joint +:+ ". Behaviour like floating.")
            "WARNING");;
    setitem "joint/type" (PyStr jointtype);;
    mode_set "OBJECT";;
    (* check for approximation functions of effort and speed *)
    (if str_in jointtype ["revolute"; "continuous"; "prismatic"] then
       (if dict_truthy maxeffort_approximation then
          let d := default [] maxeffort_approximation in
          if py_all (map (fun elem => str_in elem ["function"; "coefficients"]) (dict_keys d))
          then
            v ← getitem d "function";
            setitem "joint/maxeffort_approximation" v;;
            v ← getitem d "coefficients";
            setitem "joint/maxeffort_coefficients" v
          else
            log ("Approximation for max effort ill-defined in joint object "
                   +:+ name joint +:+ ".") "ERROR"
        else mret tt);;
       (if dict_truthy maxspeed_approximation then
          let d := default [] maxspeed_approximation in
          if py_all (map (fun elem => str_in elem ["function"; "coefficients"]) (dict_keys d))
          then
            v ← getitem d "function";
            setitem "joint/maxspeed_approximation" v;;
            v ← getitem d "coefficients";
            setitem "joint/maxspeed_coefficients" v
          else
            log ("Approximation for max speed ill-defined in joint object "
                   +:+ name joint +:+ ".") "ERROR"
        else mret tt)
     else mret tt);;
    (* set link/joint visualization *)
    let resource_obj := getResource jointtype in
    if obj_truthy resource_obj then
      log ("Assigned resource to " +:+ name joint +:+ ".") "DEBUG";;
      modify_link (with_custom_shape resource_obj)
    else mret tt.

(** ** createJoint *)

(** The joint definition dictionary.  [name] and [type] are read
    unconditionally; [extras] are the remaining entries in order, each a
    key with the dictionary stored under it. *)
Record Limits := mkLimits {
  lower : option float;
  upper : option float;
  effort : option float;
  velocity : option float
}.

Record JointDef := mkJointDef {
  jname : string;                      (* joint['name'] *)
  jtype : string;                      (* joint['type'] *)
  axis : option Vec3;                  (* joint['axis'] *)
  limits : option Limits;              (* joint['limits'] *)
  extras : list (string * PyDict)
}.

(** [joint['limits'][param]] for the two parameters the loop visits. *)
Definition limits_get (lim : Limits) (param : string) : option float :=
  if String.eqb param "effort" then effort lim
  else if String.eqb param "velocity" then velocity lim
  else None.

(** -1e-5 and 1e-5 as binary64 *)
Definition default_lower : float := (-0x1.4f8b588e368f1p-17)%float.
Definition default_upper : float := 0x1.4f8b588e368f1p-17%float.

(** [createJoint(joint, linkobj)] with the link object supplied, so that
    the search for the child object is skipped.  The two calls that
    select the link object change the selection only, which [Scene] does
    not record. *)
Definition createJoint (joint : JointDef) : Py unit :=
  linkobj ← get_link;
  (* make sure the proper joint name is kept *)
  (if negb (String.eqb (jname joint) (name linkobj))
   then setitem "joint/name" (PyStr (jname joint)) else mret tt);;
  (* set axis *)
  match axis joint with
  | Some a =>
      if py_eq (Vector_length a) 0%float then
        log ("Axis of joint " +:+ jname joint +:+ " is of zero length: ") "ERROR"
      else
        mode_set "EDIT";;
        modify_link (fun o =>
          let length := Vector_length (Vector_sub (bone_tail o) (bone_head o)) in
          with_bone_tail
            (Vector_add (bone_head o) (Vector_mul (Vector_normalized a) length)) o)
  | None => mret tt
  end;;
  (* add constraints to the joint *)
  '(lower, upper) ←
    match limits joint with
    | Some lim =>
        for_each [("effort", "maxEffort"); ("velocity", "maxSpeed")]
          (fun '(param, newName) =>
             match limits_get lim param with
             | Some v => setitem ("joint/" +:+ newName) (PyFloat v)
             | None =>
                 log ("Joint limits incomplete for joint " +:+ jname joint
                        +:+ ". Missing " +:+ param +:+ ".") "ERROR"
             end);;
        match lower lim, upper lim with
        | Some lo, Some up => mret (lo, up)
        | _, _ =>
            log "Joint limits upper/lower is missing! Defaulted to [-1e-5, 1e-5]." "WARNING";;
            mret (default_lower, default_upper)
        end
    | None =>
        log "Joint limits upper/lower is missing! Defaulted both to [-1e-5, 1e-5]." "WARNING";;
        mret (default_lower, default_upper)
    end;
  setJointConstraints (jtype joint) lower upper 0%float 0%float None None;;
  (* add generic properties *)
  for_each (extras joint)
    (fun '(prop, d) =>
       match prop with
       | String "$"%char rest =>
           for_each d (fun '(tag, v) => setitem ("joint/" +:+ rest +:+ "/" +:+ tag) v)
       | _ => mret tt
       end);;
  linkobj ← get_link;
  log ("Assigned joint information to " +:+ name linkobj +:+ ".") "DEBUG".

End WithHost.

(** ** getJointType *)

(** Truth value of [cloc]: [None] is false, a list is true unless empty. *)
Definition list_truthy (l : option (list bool)) : bool :=
  match l with
  | Some (_ :: _) => true
  | _ => false
  end.

(** [n == k] where [n] may be [None]. *)
Definition count_is (n : option nat) (k : nat) : bool :=
  match n with
  | Some m => Nat.eqb m k
  | None => false
  end.

(** The state of the scan over the bone's constraints: [cloc], [crot],
    [limrot]. *)
Definition scan_constraint
    (st : option (list bool) * option (list bool) * option Constraint) (c : Constraint)
    : option (list bool) * option (list bool) * option Constraint :=
  let '(cloc, crot, limrot) := st in
  if String.eqb (ctype c) "LIMIT_LOCATION" then
    (Some [use_min_x c && py_eq (min_x c) (max_x c);
           use_min_y c && py_eq (min_y c) (max_y c);
           use_min_z c && py_eq (min_z c) (max_z c)], crot, limrot)
  else if String.eqb (ctype c) "LIMIT_ROTATION" then
    (cloc,
     Some [use_limit_x c && (py_ne (min_x c) 0%float || py_ne (max_x c) 0%float);
           use_limit_y c && (py_ne (min_y c) 0%float || py_ne (max_y c) 0%float);
           use_limit_z c && (py_ne (min_z c) 0%float || py_ne (max_z c) 0%float)],
     Some c)
  else st.

Definition scan (joint : Object)
    : option (list bool) * option (list bool) * option Constraint :=
  fold_left scan_constraint (constraints joint) (None, None, None).

(** [ncloc = sum(cloc) if cloc else None] *)
Definition ncloc (joint : Object) : option nat :=
  let '(cloc, _, _) := scan joint in
  if list_truthy cloc then Some (py_sum (default [] cloc)) else None.

(** [ncrot = sum((limrot.use_limit_x, limrot.use_limit_y,
    limrot.use_limit_z)) if limrot else None] *)
Definition ncrot (joint : Object) : option nat :=
  let '(_, _, limrot) := scan joint in
  match limrot with
  | Some c => Some (py_sum [use_limit_x c; use_limit_y c; use_limit_z c])
  | None => None
  end.

Definition getJointType (joint : Object) : string * option (list bool) :=
  let jtype := "floating" in
  (* we pick the first bone in the armature as there is only one *)
  let '(cloc, crot, limrot) := scan joint in
  let ncloc := ncloc joint in
  let ncrot := ncrot joint in
  (* all but floating joints have translational limits *)
  let jtype :=
    if list_truthy cloc then
      (* fixed, revolute or continuous *)
      if count_is ncloc 3 then
        if count_is ncrot 3 then
          (* crot is a list here: it is assigned together with limrot *)
          if Nat.ltb 0 (py_sum (default [] crot)) then "revolute" else "fixed"
        else if count_is ncrot 2 then "continuous"
        else jtype
      else if count_is ncloc 2 then "prismatic"
      else if count_is ncloc 1 then "planar"
      else jtype
    else jtype in
  (jtype, crot).

(** [deriveJointType]: the body under the [validate('joint_type')]
    decorator, which hands the result of the body back to the caller. *)
Definition deriveJointType (joint : Object) : string * option (list bool) :=
  let '(joint_type, crot) := getJointType joint in
  (joint_type, crot).

(** ** getJointConstraints *)

Section Reading.
Context `{Host}.

(** Reading an attribute through a reference returned by
    [getJointConstraint]. *)
Definition deref (joint : Object) (ref : option nat) : Outcome Constraint :=
  match ref with
  | Some i =>
      match constraints joint !! i with
      | Some c => Return c
      | None => Raise (AttributeError "constraint")
      end
  | None => Raise (AttributeError "constraint")
  end.

(** An expression over the attributes of [c]; it raises when [c] is
    not a constraint. *)
Definition read {A} (c : Outcome Constraint) (f : Constraint -> A) : Outcome A :=
  match c with
  | Return c => Return (f c)
  | Raise e => Raise e
  end.

(** [joint.data.bones[0].vector.normalized()] *)
Definition bone_axis (joint : Object) : Vec3 :=
  Vector_normalized (Vector_sub (bone_tail joint) (bone_head joint)).

(** [int(i)] of a boolean, as a vector component. *)
Definition int_of_bool (b : bool) : float := if b then 1%float else 0%float.

Definition getJointConstraints (joint : Object)
    : Outcome (option Vec3 * option (list float)) :=
  let '(jt, crot) := deriveJointType joint in
  if negb (str_in jt ["floating"; "fixed"]) then
    if str_in jt ["revolute"; "continuous"] && list_truthy crot then
      let c := deref joint (getJointConstraint joint "LIMIT_ROTATION") in
      (* vector along axis of bone (Y axis of pose bone) in object space *)
      let axis := Some (bone_axis joint) in
      match default [] crot with
      | true :: _ => read c (fun c => (axis, Some [min_x c; max_x c]))
      | _ :: true :: _ => read c (fun c => (axis, Some [min_y c; max_y c]))
      | _ :: _ :: true :: _ => read c (fun c => (axis, Some [min_z c; max_z c]))
      | _ => Return (axis, None)
      end
    else
      match getJointConstraint joint "LIMIT_LOCATION" with
      | None => Raise (JointTypeError (name joint))
      | Some i =>
          match deref joint (Some i) with
          | Raise e => Raise e
          | Return c =>
              let fx := use_min_x c && use_max_x c && py_eq (min_x c) (max_x c) in
              let fy := use_min_y c && use_max_y c && py_eq (min_y c) (max_y c) in
              let fz := use_min_z c && use_max_z c && py_eq (min_z c) (max_z c) in
              let freeloc := [fx; fy; fz] in
              if String.eqb jt "prismatic" then
                if Nat.eqb (py_sum freeloc) 2 then
                  (* vector along axis of bone (Y axis of pose bone) in object space *)
                  let axis := Some (bone_axis joint) in
                  if negb fx then Return (axis, Some [min_x c; max_x c])
                  else if negb fy then Return (axis, Some [min_y c; max_y c])
                  else if negb fz then Return (axis, Some [min_z c; max_z c])
                  else Return (axis, None)
                else Raise (JointTypeError (name joint))
              else if String.eqb jt "planar" then
                if Nat.eqb (py_sum freeloc) 1 then
                  let axis := (int_of_bool fx, int_of_bool fy, int_of_bool fz) in
                  if truthy (int_of_bool fx) then
                    Return (Some axis, Some [min_y c; max_y c; min_z c; max_z c])
                  else if truthy (int_of_bool fy) then
                    Return (Some axis, Some [min_x c; max_x c; min_z c; max_z c])
                  else if truthy (int_of_bool fz) then
                    Return (Some axis, Some [min_x c; max_x c; min_y c; max_y c])
                  else Return (Some axis, None)
                else Raise (JointTypeError (name joint))
              else Return (None, None)
          end
      end
  else Return (None, None).

End Reading.

(** ** deriveJointState *)

Record JointState := mkJointState {
  st_matrix : list (list float);
  st_translation : list float;
  st_rotation_euler : list float;
  st_rotation_quaternion : list float
}.

Section State.
(** [Matrix.to_translation], [Matrix.to_euler], [Matrix.to_quaternion] *)
Variables to_translation to_euler to_quaternion : list (list float) -> list float.

Definition deriveJointState : Py JointState :=
  joint ← get_link;
  mret {| st_matrix := matrix_basis joint;
          st_translation := to_translation (matrix_basis joint);
          st_rotation_euler := to_euler (matrix_basis joint);
          st_rotation_quaternion := to_quaternion (matrix_basis joint) |}.

End State.

(** ** A reference host and sample data *)

(** Vectors as [mathutils] keeps them: components in single precision.
    The dot product adds the single-precision squares in double
    precision, last component first; a vector whose dot product is not
    above 1e-35 normalizes to the zero vector. *)
Definition vector32 (v : Vec3) : Vec3 :=
  let '(x, y, z) := v in (float32 x, float32 y, float32 z).
Definition dot32 (v : Vec3) : float :=
  let '(x, y, z) := vector32 v in
  (0 + float32 (z * z) + float32 (y * y) + float32 (x * x))%float.
Definition length32 (v : Vec3) : float := PrimFloat.sqrt (dot32 v).
Definition mul32 (a : Vec3) (k : float) : Vec3 :=
  let '(x, y, z) := vector32 a in
  let k := float32 k in
  (float32 (x * k), float32 (y * k), float32 (z * k))%float.
Definition normalized32 (v : Vec3) : Vec3 :=
  let d := dot32 v in
  if PrimFloat.ltb 0x1.a95a5b7f87a0fp-117%float d
  then mul32 v (1 / float32 (PrimFloat.sqrt d))%float
  else (0, 0, 0)%float.
Definition add32 (a b : Vec3) : Vec3 :=
  let '(x, y, z) := vector32 a in let '(x', y', z') := vector32 b in
  (float32 (x + x'), float32 (y + y'), float32 (z + z'))%float.
Definition sub32 (a b : Vec3) : Vec3 :=
  let '(x, y, z) := vector32 a in let '(x', y', z') := vector32 b in
  (float32 (x - x'), float32 (y - y'), float32 (z - z'))%float.

(** A host that empties the stack on removal and has no resource
    objects. *)
Definition reference_host : Host :=
  {| Vector_length := length32;
     Vector_normalized := normalized32;
     Vector_add := add32;
     Vector_sub := sub32;
     Vector_mul := mul32;
     remove_each := fun _ => [];
     getResource := fun _ => None;
     Object_format := fun o => "bpy.data.objects['" +:+ name o +:+ "']" |}.

Definition identity_matrix : list (list float) :=
  [[1; 0; 0; 0]; [0; 1; 0; 0]; [0; 0; 1; 0]; [0; 0; 0; 1]]%float.

(** A link named "arm" with one bone along Y, no constraint and no
    custom property. *)
Definition sample_link : Object :=
  mkObject "arm" "link" ∅ [] identity_matrix None
    (0, 0, 0)%float (0, 1, 0)%float None.

(** The same object tagged as a visual. *)
Definition sample_visual : Object :=
  mkObject "arm" "visual" ∅ [] identity_matrix None
    (0, 0, 0)%float (0, 1, 0)%float None.

Definition scene_of (o : Object) : Scene := mkScene o "OBJECT" [] false.

(** The same scene in pose mode. *)
Definition pose_scene_of (o : Object) : Scene := mkScene o "POSE" [] false.

(** ** The constraint records the builders leave *)

(** A LIMIT_LOCATION constraint with the given enable flags (min and max
    alike) holding the given bounds on Y. *)
Definition loc_constraint (x y z : bool) (lo up : float) : Constraint :=
  mkConstraint "LIMIT_LOCATION" x y z x y z false false false
    0%float lo 0%float 0%float up 0%float "LOCAL".

(** A LIMIT_ROTATION constraint with the given limit flags holding the
    given bounds on Y. *)
Definition rot_constraint (x y z : bool) (lo up : float) : Constraint :=
  mkConstraint "LIMIT_ROTATION" false false false false false false x y z
    0%float lo 0%float 0%float up 0%float "LOCAL".

(** The pair of constraints each builder leaves in pose mode.  The
    bounds of a revolute and of a prismatic joint are there as stored. *)
Definition built_constraints (jointtype : string) (lower upper : float) : list Constraint :=
  if String.eqb jointtype "revolute" then
    [loc_constraint true true true 0%float 0%float;
     rot_constraint true true true
       (stored "LIMIT_ROTATION" lower) (stored "LIMIT_ROTATION" upper)]
  else if String.eqb jointtype "continuous" then
    [loc_constraint true true true 0%float 0%float; rot_constraint true false true 0%float 0%float]
  else if String.eqb jointtype "prismatic" then
    [if py_eq lower upper then loc_constraint true false true 0%float 0%float
     else loc_constraint true true true
            (stored "LIMIT_LOCATION" lower) (stored "LIMIT_LOCATION" upper);
     rot_constraint true true true 0%float 0%float]
  else if String.eqb jointtype "fixed" then
    [loc_constraint true true true 0%float 0%float; rot_constraint true true true 0%float 0%float]
  else if String.eqb jointtype "floating" then []
  else if String.eqb jointtype "planar" then
    [loc_constraint false true false 0%float 0%float; rot_constraint true true true 0%float 0%float]
  else [].

(** The scene with the link's constraint stack replaced by [l]. *)
Definition put_constraints (l : list Constraint) (s : Scene) : Scene :=
  mkScene (with_constraints (fun _ => l) (link s)) (mode s) (logged s) (rigid_body_world s).

(** The joint types [setJointConstraints] has a branch for. *)
Definition known_type (t : string) : bool :=
  str_in t ["revolute"; "continuous"; "prismatic"; "fixed"; "floating"; "planar"].

(** The scene [setJointConstraints] leaves on a link when called without
    spring, damping and approximations. *)
Definition built_scene `{Host} (t : string) (lo up : float) (s : Scene) : Scene :=
  let o := link s in
  let o1 :=
    with_props (fun m => <["joint/type" := PyStr t]> m)
      (with_constraints (fun cs => remove_each cs ++ built_constraints t lo up) o) in
  let lg1 :=
    (logged s ++ [("Setting joint constraints at link " +:+ name o +:+ ".", "DEBUG")])
      ++ (if known_type t then []
          else [("Unknown joint type for joint " +:+ name o +:+ ". Behaviour like floating.",
                 "WARNING")]) in
  match getResource t with
  | Some r =>
      mkScene (with_custom_shape (Some r) o1) "OBJECT"
        (lg1 ++ [("Assigned resource to " +:+ name o +:+ ".", "DEBUG")]) (rigid_body_world s)
  | None => mkScene o1 "OBJECT" lg1 (rigid_body_world s)
  end.

(** Whether a joint built with [lower] and [upper] can still be told
    from a fixed one by the records the builder leaves: a revolute joint
    needs a rotation bound that is stored as something other than zero,
    a prismatic joint bounds that are equal (its Y axis is then disabled)
    or stored as two different values. *)
Definition bounds_kept (t : string) (lower upper : float) : bool :=
  if String.eqb t "revolute" then
    py_ne (stored "LIMIT_ROTATION" lower) 0%float
    || py_ne (stored "LIMIT_ROTATION" upper) 0%float
  else if String.eqb t "prismatic" then
    py_eq lower upper
    || negb (py_eq (stored "LIMIT_LOCATION" lower) (stored "LIMIT_LOCATION" upper))
  else true.

(** ** Sample inputs *)

(** The link [o] with the constraint stack [cs]. *)
Definition with_stack (cs : list Constraint) (o : Object) : Object :=
  with_constraints (fun _ => cs) o.

(** 1.0000000001 as binary64; in single precision it is 1.0. *)
Definition just_above_one : float := 0x1.000000006df38p+0%float.

(** 0.1 and 1.57 as binary64, and the binary32 values next to them,
    0.10000000149011612 and 1.5700000524520874. *)
Definition tenth : float := 0x1.999999999999ap-4%float.
Definition tenth32 : float := 0x1.99999ap-4%float.
Definition quarter_turn : float := 0x1.91eb851eb851fp+0%float.
Definition quarter_turn32 : float := 0x1.91eb86p+0%float.

(** 1e-50 and 1e-46 as binary64; in single precision both are 0.0. *)
Definition tiny_lower : float := 0x1.dee7a4ad4b81fp-167%float.
Definition tiny_upper : float := 0x1.244ce242c5561p-153%float.

(** An approximation dictionary without 'coefficients'. *)
Definition poly_without_coefficients : PyDict := [("function", PyStr "poly")].

(** A location constraint whose X axis has [use_min_x] set, [use_max_x]
    clear and equal bounds. *)
Definition half_enabled_x : Constraint :=
  set_use_min_x true (new_constraint "LIMIT_LOCATION").

(** Three locked translation axes and a single limited rotation axis. *)
Definition locked_with_one_rotation : list Constraint :=
  [loc_constraint true true true 0%float 0%float;
   rot_constraint true false false 0%float 0%float].

Definition half_enabled_link : Object := with_stack [half_enabled_x] sample_link.
Definition one_rotation_link : Object := with_stack locked_with_one_rotation sample_link.
Definition unlocked_link : Object :=
  with_stack [new_constraint "LIMIT_LOCATION"] sample_link.

(** The five combinations of [ncloc] and [ncrot] that [getJointType]
    gives a type other than its initial one. *)
Definition well_defined_pattern (ncloc ncrot : option nat) : bool :=
  (count_is ncloc 3 && (count_is ncrot 3 || count_is ncrot 2))
  || count_is ncloc 2 || count_is ncloc 1.

(** ** The stages of createJoint as scene transformers *)

Definition put_props (f : gmap string PyVal -> gmap string PyVal) (s : Scene) : Scene :=
  mkScene (with_props f (link s)) (mode s) (logged s) (rigid_body_world s).

Definition put_logged (l : list LogEntry) (s : Scene) : Scene :=
  mkScene (link s) (mode s) (logged s ++ l) (rigid_body_world s).

(** The custom properties after the loop over the tags of one entry. *)
Fixpoint tags_props (rest : string) (d : PyDict) (m : gmap string PyVal)
    : gmap string PyVal :=
  match d with
  | [] => m
  | (tag, v) :: d' => tags_props rest d' (<["joint/" +:+ rest +:+ "/" +:+ tag := v]> m)
  end.

(** The custom properties after the loop over the generic entries. *)
Fixpoint extras_props (ex : list (string * PyDict)) (m : gmap string PyVal)
    : gmap string PyVal :=
  match ex with
  | [] => m
  | (prop, d) :: ex' =>
      extras_props ex'
        match prop with
        | String "$"%char rest => tags_props rest d m
        | _ => m
        end
  end.

(** The limits handed to [setJointConstraints]. *)
Definition chosen_limits (j : JointDef) : float * float :=
  match limits j with
  | Some lim =>
      match lower lim, upper lim with
      | Some lo, Some up => (lo, up)
      | _, _ => (default_lower, default_upper)
      end
  | None => (default_lower, default_upper)
  end.

Section Stages.
Context `{Host}.

Definition named (j : JointDef) (s : Scene) : Scene :=
  if negb (String.eqb (jname j) (name (link s)))
  then put_props (fun m => <["joint/name" := PyStr (jname j)]> m) s
  else s.

Definition oriented (j : JointDef) (s : Scene) : Scene :=
  match axis j with
  | Some a =>
      if py_eq (Vector_length a) 0%float then
        put_logged [("Axis of joint " +:+ jname j +:+ " is of zero length: ", "ERROR")] s
      else
        let o := link s in
        let length := Vector_length (Vector_sub (bone_tail o) (bone_head o)) in
        mkScene
          (with_bone_tail
             (Vector_add (bone_head o) (Vector_mul (Vector_normalized a) length)) o)
          "EDIT" (logged s) (rigid_body_world s)
  | None => s
  end.

Definition limit_stored (j : JointDef) (param newName : string) (v : option float)
    (s : Scene) : Scene :=
  match v with
  | Some v => put_props (fun m => <["joint/" +:+ newName := PyFloat v]> m) s
  | None =>
      put_logged [("Joint limits incomplete for joint " +:+ jname j
                     +:+ ". Missing " +:+ param +:+ ".", "ERROR")] s
  end.

Definition limited (j : JointDef) (s : Scene) : Scene :=
  match limits j with
  | Some lim =>
      let s' :=
        limit_stored j "velocity" "maxSpeed" (velocity lim)
          (limit_stored j "effort" "maxEffort" (effort lim) s) in
      match lower lim, upper lim with
      | Some _, Some _ => s'
      | _, _ =>
          put_logged
            [("Joint limits upper/lower is missing! Defaulted to [-1e-5, 1e-5].", "WARNING")] s'
      end
  | None =>
      put_logged
        [("Joint limits upper/lower is missing! Defaulted both to [-1e-5, 1e-5].", "WARNING")] s
  end.

Definition constrained (t : string) (lo up : float) (s : Scene) : Scene :=
  if String.eqb (phobostype (link s)) "link" then built_scene t lo up s
  else
    put_logged [("Cannot set joint constraints. Not a link: " +:+ Object_format (link s),
                 "ERROR")] s.

Definition created (j : JointDef) (s : Scene) : Scene :=
  let s3 := limited j (oriented j (named j s)) in
  let s4 := constrained (jtype j) (fst (chosen_limits j)) (snd (chosen_limits j)) s3 in
  let s5 := put_props (extras_props (extras j)) s4 in
  put_logged [("Assigned joint information to " +:+ name (link s5) +:+ ".", "DEBUG")] s5.

End Stages.

(** Keys without a slash. *)
Fixpoint no_slash (k : string) : bool :=
  match k with
  | EmptyString => true
  | String c k' => negb (Ascii.eqb c "/"%char) && no_slash k'
  end.


(** Whether [createJoint] falls back to the default bounds. *)
Definition lacks_bounds (j : JointDef) : bool :=
  match limits j with
  | Some lim => negb (obj_truthy (lower lim) && obj_truthy (upper lim))
  | None => true
  end.

(** Joint definitions: a revolute joint with a zero axis, one without
    limits, and one with bounds and effort but no velocity. *)
Definition zero_axis_joint : JointDef :=
  mkJointDef "elbow" "revolute" (Some (0, 0, 0)%float) None [].
Definition revolute_without_limits : JointDef :=
  mkJointDef "elbow" "revolute" (Some (0, 0, 1)%float) None [].
Definition revolute_with_effort : JointDef :=
  mkJointDef "elbow" "revolute" None
    (Some (mkLimits (Some (-1.5)%float) (Some 1.5%float) (Some 50%float) None))
    [("$motor", [("type", PyStr "DC")])].

(** ** The stages of setJointConstraints on a link *)

(** Whether the spring and damping block runs. *)
Definition wants_dynamics (t : string) (spring damping : float) : bool :=
  str_in t ["revolute"; "prismatic"] && (truthy spring || truthy damping).

(** The four custom properties the spring and damping block writes. *)
Definition dynamics_props (spring damping : float) (m : gmap string PyVal)
    : gmap string PyVal :=
  <["joint/dynamics/damping_const_constraint_axis1" := PyFloat damping]>
    (<["joint/dynamics/spring_const_constraint_axis1" := PyFloat spring]>
       (<["joint/dynamics/springDamping" := PyFloat damping]>
          (<["joint/dynamics/springStiffness" := PyFloat spring]> m))).

(** One of the two blocks that check and store an approximation:
    [kind] is 'maxeffort' or 'maxspeed', [label] the words of the log
    message. *)
Definition store_approximation (kind label jointname : string) (d : option PyDict)
    : Py unit :=
  if dict_truthy d then
    let d := default [] d in
    if py_all (map (fun elem => str_in elem ["function"; "coefficients"]) (dict_keys d))
    then
      v ← getitem d "function";
      setitem ("joint/" +:+ kind +:+ "_approximation") v;;
      v ← getitem d "coefficients";
      setitem ("joint/" +:+ kind +:+ "_coefficients") v
    else
      log ("Approximation for " +:+ label +:+ " ill-defined in joint object "
             +:+ jointname +:+ ".") "ERROR"
  else mret tt.

Section LinkStages.
Context `{Host}.

(** The scene when [setJointConstraints] reaches the check of the
    approximations. *)
Definition typed_scene (t : string) (lo up spring damping : float) (s : Scene) : Scene :=
  let o := link s in
  let dyn := wants_dynamics t spring damping in
  let o1 := with_constraints (fun cs => remove_each cs ++ built_constraints t lo up) o in
  let o2 :=
    if dyn then
      with_props (dynamics_props spring damping)
        (if rigid_body_world s
         then with_rigid_body_constraint (Some (spring, damping)) o1 else o1)
    else o1 in
  mkScene (with_props (fun m => <["joint/type" := PyStr t]> m) o2) "OBJECT"
    (((logged s ++ [("Setting joint constraints at link " +:+ name o +:+ ".", "DEBUG")])
        ++ (if dyn && negb (rigid_body_world s)
            then [("No Blender Rigid Body World present, only adding custom properties.",
                   "ERROR")]
            else []))
       ++ (if known_type t then []
           else [("Unknown joint type for joint " +:+ name o +:+ ". Behaviour like floating.",
                  "WARNING")]))
    (rigid_body_world s).

(** The rest of [setJointConstraints]: the approximations and the
    resource object. *)
Definition finish_joint (t jointname : string)
    (maxeffort_approximation maxspeed_approximation : option PyDict) : Py unit :=
  (if str_in t ["revolute"; "continuous"; "prismatic"] then
     store_approximation "maxeffort" "max effort" jointname maxeffort_approximation;;
     store_approximation "maxspeed" "max speed" jointname maxspeed_approximation
   else mret tt);;
  let resource_obj := getResource t in
  if obj_truthy resource_obj then
    log ("Assigned resource to " +:+ jointname +:+ ".") "DEBUG";;
    modify_link (with_custom_shape resource_obj)
  else mret tt.

End LinkStages.

(** ** Definitions for the further properties *)

(** The custom properties an approximation block may write. *)
Definition approximation_keys_of (kind : string) : list string :=
  ["joint/" +:+ kind +:+ "_approximation"; "joint/" +:+ kind +:+ "_coefficients"].

Definition approximation_keys : list string :=
  approximation_keys_of "maxeffort" ++ approximation_keys_of "maxspeed".

(** [s'] differs from [s] at most in the custom properties [keys], the
    custom shape and new log records. *)
Definition frame_except (keys : list string) (s s' : Scene) : Prop :=
  mode s' = mode s
  /\ rigid_body_world s' = rigid_body_world s
  /\ (exists l, logged s' = logged s ++ l)
  /\ (name (link s'), phobostype (link s'), constraints (link s'), matrix_basis (link s'),
      bone_head (link s'), bone_tail (link s'), rigid_body_constraint (link s'))
     = (name (link s), phobostype (link s), constraints (link s), matrix_basis (link s),
        bone_head (link s), bone_tail (link s), rigid_body_constraint (link s))
  /\ forall k, ~ In k keys -> props (link s') !! k = props (link s) !! k.

(** The constraint [getJointConstraint] refers to. *)
Definition last_constraint (joint : Object) (t : string) : option Constraint :=
  match getJointConstraint joint t with
  | Some i => constraints joint !! i
  | None => None
  end.

(** [cloc] and [crot] as [getJointType] computes them from a constraint. *)
Definition locked_flags (c : Constraint) : list bool :=
  [use_min_x c && py_eq (min_x c) (max_x c);
   use_min_y c && py_eq (min_y c) (max_y c);
   use_min_z c && py_eq (min_z c) (max_z c)].
Definition limited_flags (c : Constraint) : list bool :=
  [use_limit_x c && (py_ne (min_x c) 0%float || py_ne (max_x c) 0%float);
   use_limit_y c && (py_ne (min_y c) 0%float || py_ne (max_y c) 0%float);
   use_limit_z c && (py_ne (min_z c) 0%float || py_ne (max_z c) 0%float)].

(** [freeloc] as [getJointConstraints] computes it. *)
Definition strict_flags (c : Constraint) : list bool :=
  [use_min_x c && use_max_x c && py_eq (min_x c) (max_x c);
   use_min_y c && use_max_y c && py_eq (min_y c) (max_y c);
   use_min_z c && use_max_z c && py_eq (min_z c) (max_z c)].

(** The number of translation axes locked in the sense of the
    specification (both enable flags set, equal bounds) on the location
    constraint [getJointConstraint] returns; [None] without one. *)
Definition locked_count (joint : Object) : option nat :=
  (fun c => py_sum (strict_flags c)) <$> last_constraint joint "LIMIT_LOCATION".

Definition dynamics_keys : list string :=
  ["joint/dynamics/springStiffness"; "joint/dynamics/springDamping";
   "joint/dynamics/spring_const_constraint_axis1";
   "joint/dynamics/damping_const_constraint_axis1"].

(** The test both approximation blocks make: every key of the dictionary
    is 'function' or 'coefficients'. *)
Definition allowed_keys (d : PyDict) : bool :=
  py_all (map (fun elem => str_in elem ["function"; "coefficients"]) (dict_keys d)).

(** An approximation with both entries, and one with a third entry
    besides. *)
Definition complete_approximation : PyDict :=
  [("function", PyStr "poly"); ("coefficients", PyList [1; 2]%float)].
Definition commented_approximation : PyDict :=
  [("function", PyStr "poly"); ("coefficients", PyList [1; 2]%float);
   ("comment", PyStr "fitted")].

(** A link with a stale location constraint below the pair a revolute
    joint has, and a link with a rotation constraint only. *)
Definition shadowed_link : Object :=
  with_stack (half_enabled_x :: built_constraints "revolute" (-1.5)%float 1.5%float)
    sample_link.
Definition revolute_link : Object :=
  with_stack (built_constraints "revolute" (-1.5)%float 1.5%float) sample_link.
Definition rotation_only_link : Object :=
  with_stack [rot_constraint true true true (-1.5)%float 1.5%float] sample_link.

(** [prop.startswith('$')] *)
Definition starts_with_dollar (prop : string) : bool :=
  match prop with
  | String "$"%char _ => true
  | _ => false
  end.

(** The joint definition with other generic entries. *)
Definition with_extras (ex : list (string * PyDict)) (j : JointDef) : JointDef :=
  mkJointDef (jname j) (jtype j) (axis j) (limits j) ex.

(** [getJointsFromHeaders(headers)], with [bpy.data.objects] as a map
    from names to objects.  [dict] is the dictionary built so far. *)
Fixpoint joints_from (objects : gmap string Object) (headers : list string)
    (dict : gmap string Object) : Outcome (gmap string Object) :=
  match headers with
  | [] => Return dict
  | name :: headers' =>
      if String.eqb name "time" then joints_from objects headers' dict
      else
        match objects !! name with
        | Some o => joints_from objects headers' (<[name := o]> dict)
        | None => Raise (KeyError name)
        end
  end.

Definition getJointsFromHeaders (objects : gmap string Object) (headers : list string)
    : Outcome (gmap string Object) :=
  joints_from objects headers ∅.

(** The objects of a scene with two joints. *)
Definition two_joints : gmap string Object :=
  <["j1" := sample_visual]> (<["j0" := sample_link]> ∅).

(** * Properties *)

(** ** Floats *)

Lemma py_lt_not_eq a b : py_lt a b = true -> py_eq a b = false.
Proof.
  unfold py_lt, py_eq. rewrite FloatAxioms.ltb_spec, FloatAxioms.eqb_spec. unfold SFltb, SFeqb.
  destruct (SFcompare (Prim2SF a) (Prim2SF b)) as [[]|]; congruence.
Qed.

(** ** References into the constraint stack *)

Lemma last_of_type_fold cs t con i :
  snd (fold_left
         (fun '(con, i) c => (if String.eqb (ctype c) t then Some i else con, S i))
         cs (con, i)) = i + length cs.
Proof.
  revert con i. induction cs as [|c cs IH]; intros con i; simpl.
  - lia.
  - rewrite IH. lia.
Qed.

Lemma last_of_type_snoc cs c t :
  ctype c = t -> last_of_type (cs ++ [c]) t = Some (length cs).
Proof.
  intros Ht. unfold last_of_type. rewrite fold_left_app.
  pose proof (last_of_type_fold cs t None 0) as Hi.
  destruct (fold_left _ cs (None, 0)) as [con i]. simpl in *.
  rewrite Ht, String.eqb_refl. simpl. congruence.
Qed.

Lemma lookup_snoc (cs : list Constraint) c : (cs ++ [c]) !! length cs = Some c.
Proof. by apply list_lookup_middle. Qed.

Lemma insert_snoc (cs : list Constraint) c c' : <[length cs := c']> (cs ++ [c]) = cs ++ [c'].
Proof. induction cs as [|x cs IH]; simpl; [done|]. by rewrite IH. Qed.

(** Running the primitive statements on a scene whose stack is known. *)

Lemma put_constraints_id s : put_constraints (constraints (link s)) s = s.
Proof. by destruct s as [[] ? ? ?]. Qed.

Lemma bind_run {A B} (m : Py A) (k : A -> Py B) s a s' :
  m s = (Return a, s') -> (m ≫= k) s = k a s'.
Proof. intros Hm. unfold mbind, Py_bind. by rewrite Hm. Qed.

Lemma bind_assoc {A B C} (m : Py A) (f : A -> Py B) (g : B -> Py C) s :
  ((m ≫= f) ≫= g) s = (m ≫= (fun a => f a ≫= g)) s.
Proof. unfold mbind, Py_bind. by destruct (m s) as [[a|e] s']. Qed.

Lemma constraint_add_run t l s :
  mode s = "POSE" ->
  constraint_add t (put_constraints l s)
  = (Return tt, put_constraints (l ++ [new_constraint t]) s).
Proof. intros Hm. unfold constraint_add. cbn [mode put_constraints]. by rewrite Hm. Qed.

Lemma constraint_add_refused t s :
  mode s <> "POSE" -> constraint_add t s = (Raise (RuntimeError "pose.constraint_add"), s).
Proof. intros Hm. apply String.eqb_neq in Hm. unfold constraint_add. by rewrite Hm. Qed.

Lemma getJointConstraint_newest l c t s :
  ctype c = t ->
  getJointConstraint (link (put_constraints (l ++ [c]) s)) t = Some (length l).
Proof. intros Ht. unfold getJointConstraint. simpl. by apply last_of_type_snoc. Qed.

(** Assigning an attribute of the newest constraint. *)
Lemma setattr_newest l c attr assign s :
  setattr (Some (length l)) attr assign (put_constraints (l ++ [c]) s)
  = (Return tt, put_constraints (l ++ [assign c]) s).
Proof.
  unfold setattr. simpl. rewrite lookup_snoc.
  unfold modify_link, put_constraints, with_constraints. simpl.
  by rewrite insert_snoc.
Qed.

Ltac py_step :=
  lazymatch goal with
  | |- ((_ ≫= _) ≫= _) _ = _ => rewrite bind_assoc
  | |- (constraint_add ?t ≫= _) (put_constraints ?l ?s) = _ =>
      rewrite (bind_run _ _ _ _ _ (constraint_add_run t l s ltac:(assumption))); cbv beta
  | |- (get_link ≫= _) ?s = _ =>
      rewrite (bind_run get_link _ s (link s) s eq_refl); cbv beta zeta;
      rewrite ?getJointConstraint_newest by reflexivity
  | |- (setattr (Some (length ?l)) ?a ?f ≫= _) (put_constraints (?l ++ [?c]) ?s) = _ =>
      rewrite (bind_run _ _ _ _ _ (setattr_newest l c a f s)); cbv beta
  | |- setattr (Some (length ?l)) ?a ?f (put_constraints (?l ++ [?c]) ?s) = _ =>
      rewrite (setattr_newest l c a f s)
  end.

Ltac run_builder s :=
  rewrite <- (put_constraints_id s) at 1;
  repeat py_step;
  rewrite <- app_assoc; reflexivity.

(** ** What each builder leaves on the stack *)

Lemma set_fixed_run s :
  mode s = "POSE" ->
  set_fixed s
  = (Return tt,
     put_constraints (constraints (link s) ++ built_constraints "fixed" 0%float 0%float) s).
Proof. intros Hm. unfold set_fixed. run_builder s. Qed.

Lemma set_revolute_run lower upper s :
  mode s = "POSE" ->
  set_revolute lower upper s
  = (Return tt,
     put_constraints (constraints (link s) ++ built_constraints "revolute" lower upper) s).
Proof. intros Hm. unfold set_revolute. run_builder s. Qed.

Lemma set_continuous_run s :
  mode s = "POSE" ->
  set_continuous s
  = (Return tt,
     put_constraints (constraints (link s) ++ built_constraints "continuous" 0%float 0%float) s).
Proof. intros Hm. unfold set_continuous. run_builder s. Qed.

Lemma set_prismatic_run lower upper s :
  mode s = "POSE" ->
  set_prismatic lower upper s
  = (Return tt,
     put_constraints (constraints (link s) ++ built_constraints "prismatic" lower upper) s).
Proof.
  intros Hm. unfold set_prismatic, built_constraints. simpl String.eqb. cbv iota.
  destruct (py_eq lower upper); run_builder s.
Qed.

(** Outside pose mode a builder stops at its first statement. *)
Lemma builder_refused (rest : unit -> Py unit) t s :
  mode s <> "POSE" ->
  (constraint_add t ≫= rest) s = (Raise (RuntimeError "pose.constraint_add"), s).
Proof. intros Hm. unfold mbind, Py_bind. by rewrite constraint_add_refused. Qed.

Lemma set_planar_run s :
  mode s = "POSE" ->
  set_planar s
  = (Return tt,
     put_constraints (constraints (link s) ++ built_constraints "planar" 0%float 0%float) s).
Proof. intros Hm. unfold set_planar. run_builder s. Qed.

(** ** Running setJointConstraints *)

Lemma log_run msg lvl s :
  log msg lvl s
  = (Return tt, mkScene (link s) (mode s) (logged s ++ [(msg, lvl)]) (rigid_body_world s)).
Proof. reflexivity. Qed.

Lemma mode_set_run m s :
  mode_set m s = (Return tt, mkScene (link s) m (logged s) (rigid_body_world s)).
Proof. reflexivity. Qed.

Lemma modify_link_run f s :
  modify_link f s = (Return tt, mkScene (f (link s)) (mode s) (logged s) (rigid_body_world s)).
Proof. reflexivity. Qed.

Lemma setitem_run k v s :
  setitem k v s
  = (Return tt,
     mkScene (with_props (fun m => <[k := v]> m) (link s)) (mode s) (logged s)
       (rigid_body_world s)).
Proof. reflexivity. Qed.

Lemma mret_run {A} (a : A) (s : Scene) : (mret a : Py A) s = (Return a, s).
Proof. reflexivity. Qed.

Ltac py_prim1 :=
  lazymatch goal with
  | |- ((_ ≫= _) ≫= _) _ = _ => rewrite bind_assoc
  | |- (get_link ≫= _) ?s = _ =>
      rewrite (bind_run get_link _ s (link s) s eq_refl); cbv beta zeta
  | |- (log ?m ?l ≫= _) ?s = _ => rewrite (bind_run _ _ _ _ _ (log_run m l s)); cbv beta
  | |- (mode_set ?m ≫= _) ?s = _ => rewrite (bind_run _ _ _ _ _ (mode_set_run m s)); cbv beta
  | |- (modify_link ?f ≫= _) ?s = _ =>
      rewrite (bind_run _ _ _ _ _ (modify_link_run f s)); cbv beta
  | |- (setitem ?k ?v ≫= _) ?s = _ =>
      rewrite (bind_run _ _ _ _ _ (setitem_run k v s)); cbv beta
  | |- (mret ?a ≫= _) ?s = _ => rewrite (bind_run _ _ _ _ _ (mret_run a s)); cbv beta
  | |- (set_revolute ?a ?b ≫= _) ?s = _ =>
      rewrite (bind_run _ _ _ _ _ (set_revolute_run a b s eq_refl)); cbv beta
  | |- (set_prismatic ?a ?b ≫= _) ?s = _ =>
      rewrite (bind_run _ _ _ _ _ (set_prismatic_run a b s eq_refl)); cbv beta
  | |- (set_continuous ≫= _) ?s = _ =>
      rewrite (bind_run _ _ _ _ _ (set_continuous_run s eq_refl)); cbv beta
  | |- (set_fixed ≫= _) ?s = _ =>
      rewrite (bind_run _ _ _ _ _ (set_fixed_run s eq_refl)); cbv beta
  | |- (set_planar ≫= _) ?s = _ =>
      rewrite (bind_run _ _ _ _ _ (set_planar_run s eq_refl)); cbv beta
  | |- log ?m ?l ?s = _ => rewrite (log_run m l s)
  | |- modify_link ?f ?s = _ => rewrite (modify_link_run f s)
  | |- setitem ?k ?v ?s = _ => rewrite (setitem_run k v s)
  | |- mret ?a ?s = _ => rewrite (mret_run a s)
  end.

Ltac py_prim :=
  py_prim1; cbn [link mode logged rigid_body_world put_constraints].

Ltac decide_strings :=
  cbn [str_in existsb String.eqb Ascii.eqb Bool.eqb orb andb negb obj_truthy].

Ltac py_run := repeat (py_prim || decide_strings).

Ltac same_scene :=
  unfold with_custom_shape, with_props, with_constraints;
  cbn [name phobostype props constraints matrix_basis custom_shape bone_head bone_tail
       rigid_body_constraint];
  rewrite ?app_nil_r; reflexivity.

Lemma setJointConstraints_link_run `{Host} t lo up s :
  phobostype (link s) = "link" ->
  setJointConstraints t lo up 0%float 0%float None None s = (Return tt, built_scene t lo up s).
Proof.
  intros Hp.
  unfold setJointConstraints, built_scene, known_type.
  py_prim. rewrite Hp. decide_strings.
  do 3 py_prim.
  replace (truthy 0 || truthy 0) with false by reflexivity. rewrite andb_false_r.
  py_prim.
  cbn [dict_truthy].
  destruct (String.eqb t "revolute") eqn:E1;
    [|destruct (String.eqb t "continuous") eqn:E2;
      [|destruct (String.eqb t "prismatic") eqn:E3;
        [|destruct (String.eqb t "fixed") eqn:E4;
          [|destruct (String.eqb t "floating") eqn:E5;
            [|destruct (String.eqb t "planar") eqn:E6]]]]];
    try match goal with E : String.eqb t _ = true |- _ => apply String.eqb_eq in E; subst t end;
    unfold built_constraints; rewrite ?E1, ?E2, ?E3, ?E4, ?E5, ?E6;
    py_run;
    destruct (getResource _); decide_strings; py_run.
  all: same_scene.
Qed.

Lemma setJointConstraints_not_link_run `{Host} t lo up spring damping eff spd s :
  phobostype (link s) <> "link" ->
  setJointConstraints t lo up spring damping eff spd s
  = (Return tt,
     mkScene (link s) (mode s)
       (logged s ++ [("Cannot set joint constraints. Not a link: "
                        +:+ Object_format (link s), "ERROR")])
       (rigid_body_world s)).
Proof.
  intros Hp. apply String.eqb_neq in Hp.
  unfold setJointConstraints. py_prim. rewrite Hp. cbn [negb]. by py_prim.
Qed.

(** ** Running createJoint *)

Lemma put_props_id s : put_props (fun m => m) s = s.
Proof. by destruct s as [[] ? ? ?]. Qed.

Lemma tags_run rest d s :
  for_each d (fun '(tag, v) => setitem ("joint/" +:+ rest +:+ "/" +:+ tag) v) s
  = (Return tt, put_props (tags_props rest d) s).
Proof.
  revert s. induction d as [|[tag v] d IH]; intros s.
  - cbn [for_each tags_props]. by rewrite put_props_id.
  - cbn [for_each tags_props]. py_prim. by rewrite IH.
Qed.

Lemma extras_run ex s :
  for_each ex
    (fun '(prop, d) =>
       match prop with
       | String "$"%char rest =>
           for_each d (fun '(tag, v) => setitem ("joint/" +:+ rest +:+ "/" +:+ tag) v)
       | _ => mret tt
       end) s
  = (Return tt, put_props (extras_props ex) s).
Proof.
  revert s. induction ex as [|[prop d] ex IH]; intros s.
  - cbn [for_each extras_props]. by rewrite put_props_id.
  - cbn [for_each extras_props].
    assert (Hhead : forall s0 : Scene,
      match prop with
      | String "$"%char rest =>
          for_each d (fun '(tag, v) => setitem ("joint/" +:+ rest +:+ "/" +:+ tag) v)
      | _ => mret tt
      end s0
      = (Return tt,
         put_props (fun m =>
           match prop with
           | String "$"%char rest => tags_props rest d m
           | _ => m
           end) s0)).
    { intros s0. destruct prop as [|a rest]; [by rewrite put_props_id|].
      destruct a as [[] [] [] [] [] [] [] []];
        first [apply tags_run | by rewrite put_props_id]. }
    rewrite (bind_run _ _ _ _ _ (Hhead s)). cbv beta. by rewrite IH.
Qed.

Lemma named_run `{Host} j s :
  (if negb (String.eqb (jname j) (name (link s)))
   then setitem "joint/name" (PyStr (jname j)) else mret tt) s
  = (Return tt, named j s).
Proof. unfold named. by destruct (negb _). Qed.

Lemma oriented_run `{Host} j s :
  match axis j with
  | Some a =>
      if py_eq (Vector_length a) 0%float then
        log ("Axis of joint " +:+ jname j +:+ " is of zero length: ") "ERROR"
      else
        mode_set "EDIT";;
        modify_link (fun o =>
          let length := Vector_length (Vector_sub (bone_tail o) (bone_head o)) in
          with_bone_tail
            (Vector_add (bone_head o) (Vector_mul (Vector_normalized a) length)) o)
  | None => mret tt
  end s
  = (Return tt, oriented j s).
Proof.
  unfold oriented. destruct (axis j) as [a|]; [|reflexivity].
  by destruct (py_eq _ _).
Qed.

Lemma limited_run `{Host} j s :
  match limits j with
  | Some lim =>
      for_each [("effort", "maxEffort"); ("velocity", "maxSpeed")]
        (fun '(param, newName) =>
           match limits_get lim param with
           | Some v => setitem ("joint/" +:+ newName) (PyFloat v)
           | None =>
               log ("Joint limits incomplete for joint " +:+ jname j
                      +:+ ". Missing " +:+ param +:+ ".") "ERROR"
           end);;
      match lower lim, upper lim with
      | Some lo, Some up => mret (lo, up)
      | _, _ =>
          log "Joint limits upper/lower is missing! Defaulted to [-1e-5, 1e-5]." "WARNING";;
          mret (default_lower, default_upper)
      end
  | None =>
      log "Joint limits upper/lower is missing! Defaulted both to [-1e-5, 1e-5]." "WARNING";;
      mret (default_lower, default_upper)
  end s
  = (Return (chosen_limits j), limited j s).
Proof.
  unfold limited, chosen_limits. destruct (limits j) as [[lo up ef ve]|]; [|reflexivity].
  cbn [for_each lower upper effort velocity limits_get String.eqb Ascii.eqb Bool.eqb].
  by destruct ef, ve, lo, up.
Qed.

Lemma constrained_run `{Host} t lo up s :
  setJointConstraints t lo up 0%float 0%float None None s = (Return tt, constrained t lo up s).
Proof.
  unfold constrained. destruct (String.eqb_spec (phobostype (link s)) "link") as [Hp|Hp].
  - by apply setJointConstraints_link_run.
  - by apply setJointConstraints_not_link_run.
Qed.

Lemma createJoint_run `{Host} j s : createJoint j s = (Return tt, created j s).
Proof.
  unfold createJoint, created.
  py_prim.
  rewrite (bind_run _ _ _ _ _ (named_run j s)). cbv beta.
  rewrite (bind_run _ _ _ _ _ (oriented_run j _)). cbv beta.
  rewrite (bind_run _ _ _ _ _ (limited_run j _)). cbv beta.
  destruct (chosen_limits j) as [lo up]. cbn [fst snd].
  rewrite (bind_run _ _ _ _ _ (constrained_run _ _ _ _)). cbv beta.
  rewrite (bind_run _ _ _ _ _ (extras_run _ _)). cbv beta.
  py_prim. reflexivity.
Qed.

(** ** What the stages leave alone *)

Ltac stage_cases :=
  unfold limited, limit_stored, oriented, named, put_props, put_logged;
  repeat case_match; reflexivity.

Lemma limited_link_frame `{Host} j s :
  let o := link s in
  let o' := link (limited j s) in
  (name o', phobostype o', constraints o', bone_head o', bone_tail o')
  = (name o, phobostype o, constraints o, bone_head o, bone_tail o).
Proof. stage_cases. Qed.

Lemma named_link_frame `{Host} j s :
  let o := link s in
  let o' := link (named j s) in
  (name o', phobostype o', constraints o', bone_head o', bone_tail o')
  = (name o, phobostype o, constraints o, bone_head o, bone_tail o)
  /\ logged (named j s) = logged s.
Proof. split; stage_cases. Qed.

Lemma oriented_link_frame `{Host} j s :
  let o := link s in
  let o' := link (oriented j s) in
  (name o', phobostype o', constraints o', bone_head o', props o')
  = (name o, phobostype o, constraints o, bone_head o, props o).
Proof. stage_cases. Qed.

Lemma prepared_frame `{Host} j s :
  let o := link s in
  let o' := link (limited j (oriented j (named j s))) in
  (name o', phobostype o', constraints o') = (name o, phobostype o, constraints o).
Proof.
  intros o o'. subst o o'.
  pose proof (limited_link_frame j (oriented j (named j s))) as H1.
  pose proof (oriented_link_frame j (named j s)) as H2.
  pose proof (named_link_frame j s) as [H3 _].
  cbv zeta in *. congruence.
Qed.

Lemma constrained_constraints `{Host} t lo up s :
  constraints (link (constrained t lo up s))
  = if String.eqb (phobostype (link s)) "link"
    then remove_each (constraints (link s)) ++ built_constraints t lo up
    else constraints (link s).
Proof.
  unfold constrained, built_scene.
  destruct (String.eqb _ _); [|reflexivity]. by destruct (getResource t).
Qed.

Lemma constrained_bone `{Host} t lo up s :
  bone_tail (link (constrained t lo up s)) = bone_tail (link s).
Proof.
  unfold constrained, built_scene.
  destruct (String.eqb _ _); [|reflexivity]. by destruct (getResource t).
Qed.

Lemma constrained_props `{Host} t lo up s k :
  k <> "joint/type" ->
  props (link (constrained t lo up s)) !! k = props (link s) !! k.
Proof.
  intros Hk. unfold constrained, built_scene.
  destruct (String.eqb _ _); [|reflexivity].
  destruct (getResource t); cbn; by rewrite lookup_insert_ne.
Qed.

Lemma constrained_type `{Host} t lo up s :
  phobostype (link s) = "link" ->
  props (link (constrained t lo up s)) !! "joint/type" = Some (PyStr t).
Proof.
  intros Hp. unfold constrained, built_scene. rewrite Hp. cbn [String.eqb Ascii.eqb Bool.eqb].
  destruct (getResource t); cbn; by rewrite lookup_insert_eq.
Qed.

Lemma constrained_logged `{Host} t lo up s :
  exists l, logged (constrained t lo up s) = logged s ++ l.
Proof.
  unfold constrained, built_scene.
  destruct (String.eqb _ _); [|by eexists].
  destruct (getResource t); cbn; rewrite <- ?app_assoc; by eexists.
Qed.

(** ** Keys written by the loop over the generic entries *)

Lemma append_cons c a b : String c a +:+ b = String c (a +:+ b).
Proof. reflexivity. Qed.

Lemma append_nil b : "" +:+ b = b.
Proof. reflexivity. Qed.

Lemma no_slash_append rest tag : no_slash (rest +:+ "/" +:+ tag) = false.
Proof.
  rewrite append_cons, append_nil.
  induction rest as [|c rest IH]; [reflexivity|].
  rewrite append_cons. cbn [no_slash]. rewrite IH. apply andb_false_r.
Qed.

Lemma generic_key_fresh rest tag k :
  no_slash k = true -> "joint/" +:+ rest +:+ "/" +:+ tag <> "joint/" +:+ k.
Proof.
  intros Hk Heq. rewrite !append_cons, !append_nil in Heq. injection Heq as Heq.
  rewrite <- (append_nil tag), <- append_cons in Heq.
  pose proof (no_slash_append rest tag) as Hs. rewrite Heq in Hs. congruence.
Qed.

Lemma tags_props_frame rest d m k :
  no_slash k = true -> tags_props rest d m !! ("joint/" +:+ k) = m !! ("joint/" +:+ k).
Proof.
  intros Hk. revert m. induction d as [|[tag v] d IH]; intros m; [reflexivity|].
  cbn [tags_props]. rewrite IH. apply lookup_insert_ne. by apply generic_key_fresh.
Qed.

Lemma extras_props_frame ex m k :
  no_slash k = true -> extras_props ex m !! ("joint/" +:+ k) = m !! ("joint/" +:+ k).
Proof.
  intros Hk. revert m. induction ex as [|[prop d] ex IH]; intros m; [reflexivity|].
  cbn [extras_props]. rewrite IH.
  destruct prop as [|a rest]; [reflexivity|].
  destruct a as [[] [] [] [] [] [] [] []]; first [by apply tags_props_frame | reflexivity].
Qed.

Lemma created_props `{Host} j s k :
  no_slash k = true -> "joint/" +:+ k <> "joint/type" ->
  props (link (created j s)) !! ("joint/" +:+ k)
  = props (link (limited j (oriented j (named j s)))) !! ("joint/" +:+ k).
Proof.
  intros Hk Hne. unfold created. cbn [put_logged put_props link with_props props].
  rewrite (extras_props_frame _ _ _ Hk). by apply constrained_props.
Qed.

Lemma created_type `{Host} j s :
  phobostype (link s) = "link" ->
  props (link (created j s)) !! "joint/type" = Some (PyStr (jtype j)).
Proof.
  intros Hp. unfold created. cbn [put_logged put_props link with_props props].
  rewrite (extras_props_frame _ _ "type" eq_refl). apply constrained_type.
  pose proof (prepared_frame j s) as Hf. cbv zeta in Hf. congruence.
Qed.

Lemma created_constraints `{Host} j s :
  constraints (link (created j s))
  = if String.eqb (phobostype (link s)) "link"
    then remove_each (constraints (link s))
           ++ built_constraints (jtype j) (fst (chosen_limits j)) (snd (chosen_limits j))
    else constraints (link s).
Proof.
  unfold created. cbn [put_logged put_props link with_props constraints].
  rewrite constrained_constraints.
  pose proof (prepared_frame j s) as Hf. cbv zeta in Hf.
  injection Hf as _ -> ->. reflexivity.
Qed.

Lemma created_logged `{Host} j s e :
  In e (logged (limited j (oriented j (named j s)))) -> In e (logged (created j s)).
Proof.
  intros He. unfold created. cbn [put_logged put_props logged].
  destruct (constrained_logged (jtype j) (fst (chosen_limits j)) (snd (chosen_limits j))
              (limited j (oriented j (named j s)))) as [l ->].
  rewrite !in_app_iff. auto.
Qed.

Lemma limited_logged `{Host} j s e : In e (logged s) -> In e (logged (limited j s)).
Proof.
  intros He. unfold limited, limit_stored, put_props, put_logged.
  repeat case_match; cbn [logged]; rewrite ?in_app_iff; auto.
Qed.

Lemma limited_stores `{Host} j lim s :
  limits j = Some lim ->
  match effort lim with
  | Some v => props (link (limited j s)) !! "joint/maxEffort" = Some (PyFloat v)
  | None =>
      In ("Joint limits incomplete for joint " +:+ jname j +:+ ". Missing effort.", "ERROR")
        (logged (limited j s))
  end
  /\ match velocity lim with
     | Some v => props (link (limited j s)) !! "joint/maxSpeed" = Some (PyFloat v)
     | None =>
         In ("Joint limits incomplete for joint " +:+ jname j +:+ ". Missing velocity.", "ERROR")
           (logged (limited j s))
     end.
Proof.
  intros Hlim. unfold limited, limit_stored, put_props, put_logged. rewrite Hlim.
  destruct lim as [lo up ef ve]. cbn [lower upper effort velocity].
  destruct ef, ve, lo, up; cbn [link logged props with_props]; split;
    rewrite ?in_app_iff; cbn [In];
    first [ by apply lookup_insert_eq
          | by (rewrite lookup_insert_ne by discriminate; apply lookup_insert_eq)
          | by auto 10 ].
Qed.

Lemma limited_warns `{Host} j s :
  match limits j with
  | Some lim =>
      match lower lim, upper lim with
      | Some _, Some _ => True
      | _, _ =>
          In ("Joint limits upper/lower is missing! Defaulted to [-1e-5, 1e-5].", "WARNING")
            (logged (limited j s))
      end
  | None =>
      In ("Joint limits upper/lower is missing! Defaulted both to [-1e-5, 1e-5].", "WARNING")
        (logged (limited j s))
  end.
Proof.
  unfold limited, put_logged.
  destruct (limits j) as [[lo up ef ve]|]; cbn [lower upper logged];
    [destruct lo, up|]; cbv zeta; cbn [logged]; rewrite ?in_app_iff; cbn [In]; auto.
Qed.

(** ** setJointConstraints on a link, in general *)

Lemma add_generic_spring_run spring damping s :
  add_generic_spring spring damping s
  = (Return tt,
     if rigid_body_world s
     then mkScene (with_rigid_body_constraint (Some (spring, damping)) (link s))
            (mode s) (logged s) (rigid_body_world s)
     else mkScene (link s) (mode s)
            (logged s ++ [("No Blender Rigid Body World present, only adding custom properties.",
                           "ERROR")])
            (rigid_body_world s)).
Proof. by destruct s as [o m l [|]]. Qed.

Ltac py_prim_spring :=
  lazymatch goal with
  | |- (add_generic_spring ?a ?b ≫= _) ?s = _ =>
      rewrite (bind_run _ _ _ _ _ (add_generic_spring_run a b s)); cbv beta;
      cbn [link mode logged rigid_body_world]
  | _ => py_prim
  end.

Ltac same_scene_full :=
  unfold with_custom_shape, with_props, with_constraints, with_rigid_body_constraint,
    dynamics_props, put_constraints;
  cbn [link mode logged rigid_body_world
       name phobostype props constraints matrix_basis custom_shape bone_head bone_tail
       rigid_body_constraint];
  rewrite ?app_nil_r; reflexivity.

(** The spring and damping block. *)
Lemma dynamics_run t spring damping s :
  (if str_in t ["revolute"; "prismatic"] && (truthy spring || truthy damping) then
     add_generic_spring spring damping;;
     setitem "joint/dynamics/springStiffness" (PyFloat spring);;
     setitem "joint/dynamics/springDamping" (PyFloat damping);;
     setitem "joint/dynamics/spring_const_constraint_axis1" (PyFloat spring);;
     setitem "joint/dynamics/damping_const_constraint_axis1" (PyFloat damping)
   else mret tt) s
  = (Return tt,
     if wants_dynamics t spring damping then
       mkScene
         (with_props (dynamics_props spring damping)
            (if rigid_body_world s
             then with_rigid_body_constraint (Some (spring, damping)) (link s)
             else link s))
         (mode s)
         (logged s
            ++ (if rigid_body_world s then []
                else [("No Blender Rigid Body World present, only adding custom properties.",
                       "ERROR")]))
         (rigid_body_world s)
     else s).
Proof.
  unfold wants_dynamics.
  destruct (str_in t ["revolute"; "prismatic"] && (truthy spring || truthy damping));
    [|reflexivity].
  repeat py_prim_spring.
  destruct s as [o m l [|]]; same_scene_full.
Qed.

(** The branch on the joint type. *)
Lemma dispatch_run t lo up n s :
  mode s = "POSE" ->
  (if String.eqb t "revolute" then set_revolute lo up
   else if String.eqb t "continuous" then set_continuous
   else if String.eqb t "prismatic" then set_prismatic lo up
   else if String.eqb t "fixed" then set_fixed
   else if String.eqb t "floating" then mret tt
   else if String.eqb t "planar" then set_planar
   else log ("Unknown joint type for joint " +:+ n +:+ ". Behaviour like floating.")
          "WARNING") s
  = (Return tt,
     mkScene (with_constraints (fun cs => cs ++ built_constraints t lo up) (link s))
       (mode s)
       (logged s
          ++ (if known_type t then []
              else [("Unknown joint type for joint " +:+ n +:+ ". Behaviour like floating.",
                     "WARNING")]))
       (rigid_body_world s)).
Proof.
  intros Hm. unfold known_type.
  destruct (String.eqb t "revolute") eqn:E1;
    [|destruct (String.eqb t "continuous") eqn:E2;
      [|destruct (String.eqb t "prismatic") eqn:E3;
        [|destruct (String.eqb t "fixed") eqn:E4;
          [|destruct (String.eqb t "floating") eqn:E5;
            [|destruct (String.eqb t "planar") eqn:E6]]]]];
    try match goal with E : String.eqb t _ = true |- _ => apply String.eqb_eq in E; subst t end;
    rewrite ?set_revolute_run, ?set_continuous_run, ?set_prismatic_run, ?set_fixed_run,
      ?set_planar_run by exact Hm;
    unfold built_constraints, put_constraints; decide_strings;
    rewrite ?E1, ?E2, ?E3, ?E4, ?E5, ?E6;
    decide_strings; rewrite ?mret_run, ?log_run; destruct s as [[] ? ? ?]; same_scene_full.
Qed.

Lemma setJointConstraints_link_general `{Host} t lo up spring damping eff spd s :
  phobostype (link s) = "link" ->
  setJointConstraints t lo up spring damping eff spd s
  = finish_joint t (name (link s)) eff spd (typed_scene t lo up spring damping s).
Proof.
  intros Hp.
  unfold setJointConstraints.
  py_prim. rewrite Hp. cbn [String.eqb Ascii.eqb Bool.eqb negb].
  do 3 py_prim.
  rewrite (bind_run _ _ _ _ _ (dynamics_run _ _ _ _)). cbv beta.
  match goal with
  | |- (_ ≫= _) ?S = _ =>
      assert (Hm : mode S = "POSE")
        by (destruct (wants_dynamics t spring damping); reflexivity);
      rewrite (bind_run _ _ _ _ _ (dispatch_run t lo up (name (link s)) S Hm))
  end.
  cbv beta.
  do 2 py_prim.
  assert (Hs : forall S S' : Scene, S = S' ->
            forall F : Py unit, F S = F S') by (intros ? ? ->; reflexivity).
  apply Hs.
  unfold typed_scene, wants_dynamics.
  destruct (str_in t ["revolute"; "prismatic"] && (truthy spring || truthy damping)),
    (rigid_body_world s), (known_type t); cbn [andb negb]; same_scene_full.
Qed.

(** ** The approximation blocks *)

Lemma getitem_run d k s :
  getitem d k s
  = match dict_get d k with
    | Some v => (Return v, s)
    | None => (Raise (KeyError k), s)
    end.
Proof. unfold getitem. by destruct (dict_get d k). Qed.

Lemma store_approximation_run kind label n d s :
  store_approximation kind label n d s
  = if dict_truthy d then
      if py_all (map (fun elem => str_in elem ["function"; "coefficients"])
                   (dict_keys (default [] d)))
      then
        match dict_get (default [] d) "function" with
        | None => (Raise (KeyError "function"), s)
        | Some f =>
            let s1 := put_props (fun m => <["joint/" +:+ kind +:+ "_approximation" := f]> m) s in
            match dict_get (default [] d) "coefficients" with
            | None => (Raise (KeyError "coefficients"), s1)
            | Some c =>
                (Return tt,
                 put_props (fun m => <["joint/" +:+ kind +:+ "_coefficients" := c]> m) s1)
            end
        end
      else
        (Return tt,
         put_logged [("Approximation for " +:+ label +:+ " ill-defined in joint object "
                        +:+ n +:+ ".", "ERROR")] s)
    else (Return tt, s).
Proof.
  unfold store_approximation.
  destruct (dict_truthy d); [|reflexivity].
  destruct (py_all _); [|reflexivity].
  unfold mbind, Py_bind. rewrite getitem_run.
  destruct (dict_get (default [] d) "function") as [f|]; [|reflexivity].
  cbn. rewrite getitem_run.
  by destruct (dict_get (default [] d) "coefficients").
Qed.

Lemma frame_except_refl keys s : frame_except keys s s.
Proof. repeat split. exists []. by rewrite app_nil_r. Qed.

Lemma frame_except_trans keys s1 s2 s3 :
  frame_except keys s1 s2 -> frame_except keys s2 s3 -> frame_except keys s1 s3.
Proof.
  intros (Hm & Hr & [l Hl] & Hf & Hp) (Hm' & Hr' & [l' Hl'] & Hf' & Hp').
  repeat split; try congruence.
  - exists (l ++ l'). by rewrite Hl', Hl, app_assoc.
  - intros k Hk. by rewrite Hp', Hp.
Qed.

Lemma frame_except_weaken keys keys' s s' :
  (forall k, In k keys -> In k keys') -> frame_except keys s s' -> frame_except keys' s s'.
Proof.
  intros Hsub (Hm & Hr & Hl & Hf & Hp). repeat split; try assumption.
  intros k Hk. apply Hp. auto.
Qed.

Lemma frame_except_logged keys s l : frame_except keys s (put_logged l s).
Proof. repeat split. by exists l. Qed.

Lemma frame_except_logged_in keys s s' e :
  frame_except keys s s' -> In e (logged s) -> In e (logged s').
Proof. intros (_ & _ & [l ->] & _) He. apply in_or_app. by left. Qed.

Lemma frame_except_props keys s k v :
  In k keys -> frame_except keys s (put_props (fun m => <[k := v]> m) s).
Proof.
  intros Hk. repeat split; [exists []; cbn; by rewrite app_nil_r|].
  intros k' Hk'. cbn. apply lookup_insert_ne. congruence.
Qed.

Lemma store_approximation_frame kind label n d s :
  frame_except (approximation_keys_of kind) s (snd (store_approximation kind label n d s)).
Proof.
  rewrite store_approximation_run.
  destruct (dict_truthy d); [|apply frame_except_refl].
  destruct (py_all _); [|apply frame_except_logged].
  destruct (dict_get (default [] d) "function") as [f|]; [|apply frame_except_refl].
  cbv zeta.
  destruct (dict_get (default [] d) "coefficients") as [c|]; cbn [snd].
  - eapply frame_except_trans; apply frame_except_props; cbn; auto.
  - apply frame_except_props; cbn; auto.
Qed.

Lemma bind_snd {A B} (m : Py A) (k : A -> Py B) s :
  (m ≫= k) s
  = match fst (m s) with
    | Return a => k a (snd (m s))
    | Raise e => (Raise e, snd (m s))
    end.
Proof. unfold mbind, Py_bind. by destruct (m s) as [[a|e] s']. Qed.

(** The resource object step. *)
Lemma resource_frame `{Host} t n s :
  frame_except []
    s (snd ((let resource_obj := getResource t in
             if obj_truthy resource_obj then
               log ("Assigned resource to " +:+ n +:+ ".") "DEBUG";;
               modify_link (with_custom_shape resource_obj)
             else mret tt) s)).
Proof.
  cbv zeta. destruct (getResource t) as [r|]; cbn [obj_truthy]; [|apply frame_except_refl].
  repeat split. by eexists.
Qed.

(** After the effort block, only the speed properties can change. *)
Lemma finish_joint_after_effort `{Host} t n eff spd s :
  str_in t ["revolute"; "continuous"; "prismatic"] = true ->
  let r := store_approximation "maxeffort" "max effort" n eff s in
  frame_except (approximation_keys_of "maxspeed") (snd r) (snd (finish_joint t n eff spd s))
  /\ (forall e, fst r = Raise e -> finish_joint t n eff spd s = (Raise e, snd r)).
Proof.
  intros Ht r. unfold finish_joint. rewrite Ht. rewrite bind_assoc, bind_snd. fold r.
  destruct (fst r) as [[]|e]; [|split; [apply frame_except_refl|by intros ? [= <-]]].
  split; [|discriminate].
  rewrite bind_snd.
  pose proof (store_approximation_frame "maxspeed" "max speed" n spd (snd r)) as H1.
  destruct (fst (store_approximation "maxspeed" "max speed" n spd (snd r))); [|exact H1].
  eapply frame_except_trans; [exact H1|].
  eapply frame_except_weaken; [|apply resource_frame]. intros k [].
Qed.

Lemma finish_joint_frame `{Host} t n eff spd s :
  frame_except approximation_keys s (snd (finish_joint t n eff spd s)).
Proof.
  destruct (str_in t ["revolute"; "continuous"; "prismatic"]) eqn:Ht.
  - destruct (finish_joint_after_effort t n eff spd s Ht) as [Hf _]. cbv zeta in Hf.
    eapply frame_except_trans.
    + eapply frame_except_weaken; [|apply store_approximation_frame].
      unfold approximation_keys. intros k Hk. apply in_or_app. by left.
    + eapply frame_except_weaken; [|exact Hf].
      unfold approximation_keys. intros k Hk. apply in_or_app. by right.
  - unfold finish_joint. rewrite Ht. rewrite bind_snd. cbn [fst snd mret Py_ret].
    eapply frame_except_weaken; [|apply resource_frame]. intros k [].
Qed.

(** Outside the three joint types with approximations, the rest of
    [setJointConstraints] does not look at them. *)
Lemma finish_joint_ignores `{Host} t n eff spd s :
  str_in t ["revolute"; "continuous"; "prismatic"] = false ->
  finish_joint t n eff spd s = finish_joint t n None None s.
Proof. intros Ht. unfold finish_joint. by rewrite Ht. Qed.

(** ** getJointConstraint and the scan of getJointType *)

Lemma last_of_type_snoc_other cs c t :
  ctype c <> t -> last_of_type (cs ++ [c]) t = last_of_type cs t.
Proof.
  intros Ht. unfold last_of_type. rewrite fold_left_app.
  destruct (fold_left _ cs (None, 0)) as [con i]. cbn.
  apply String.eqb_neq in Ht. by rewrite Ht.
Qed.

Lemma last_of_type_lt cs t i : last_of_type cs t = Some i -> i < length cs.
Proof.
  revert i. induction cs as [|c cs IH] using rev_ind; intros i; [discriminate|].
  rewrite length_app. cbn [length].
  destruct (String.eqb_spec (ctype c) t) as [Ht|Ht].
  - rewrite (last_of_type_snoc _ _ _ Ht). intros [= <-]. lia.
  - rewrite (last_of_type_snoc_other _ _ _ Ht). intros Hi. apply IH in Hi. lia.
Qed.

Lemma last_constraint_snoc o o' c t :
  constraints o' = constraints o ++ [c] ->
  last_constraint o' t = if String.eqb (ctype c) t then Some c else last_constraint o t.
Proof.
  intros Hcs. unfold last_constraint, getJointConstraint. rewrite Hcs.
  destruct (String.eqb_spec (ctype c) t) as [Ht|Ht].
  - rewrite (last_of_type_snoc _ _ _ Ht). apply lookup_snoc.
  - rewrite (last_of_type_snoc_other _ _ _ Ht).
    destruct (last_of_type (constraints o) t) as [i|] eqn:Hi; [|reflexivity].
    apply last_of_type_lt in Hi. by apply lookup_app_l.
Qed.

Lemma last_of_type_spec cs t :
  match last_of_type cs t with
  | Some i =>
      exists c, cs !! i = Some c /\ ctype c = t
        /\ forall j c', i < j -> cs !! j = Some c' -> ctype c' <> t
  | None => forall c, In c cs -> ctype c <> t
  end.
Proof.
  induction cs as [|c cs IH] using rev_ind; [intros c []|].
  destruct (String.eqb_spec (ctype c) t) as [Ht|Ht].
  - rewrite (last_of_type_snoc _ _ _ Ht). exists c. split; [apply lookup_snoc|].
    split; [exact Ht|]. intros j c' Hj Hc'.
    apply lookup_lt_Some in Hc'. rewrite length_app in Hc'. cbn in Hc'. lia.
  - rewrite (last_of_type_snoc_other _ _ _ Ht).
    destruct (last_of_type cs t) as [i|] eqn:Hi.
    + destruct IH as (c0 & Hc0 & Ht0 & Hlater).
      exists c0. split; [by apply lookup_app_l_Some|]. split; [exact Ht0|].
      intros j c' Hj Hc'.
      destruct (decide (j < length cs)) as [Hlt|Hge].
      * rewrite lookup_app_l in Hc' by exact Hlt. by apply (Hlater j).
      * apply lookup_lt_Some in Hc' as Hlen. rewrite length_app in Hlen. cbn in Hlen.
        assert (j = length cs) as -> by lia.
        rewrite lookup_snoc in Hc'. by injection Hc' as <-.
    + intros c' Hc'. apply in_app_or in Hc' as [Hc'|[<-|[]]]; [by apply IH|exact Ht].
Qed.

Lemma scan_agrees joint :
  scan joint
  = (locked_flags <$> last_constraint joint "LIMIT_LOCATION",
     limited_flags <$> last_constraint joint "LIMIT_ROTATION",
     last_constraint joint "LIMIT_ROTATION").
Proof.
  unfold scan. destruct joint as [n p pr cs mb sh h tl rb]. cbn [constraints].
  induction cs as [|c cs IH] using rev_ind; [reflexivity|].
  rewrite fold_left_app, IH. cbn [fold_left].
  rewrite !(last_constraint_snoc (mkObject n p pr cs mb sh h tl rb)
              (mkObject n p pr (cs ++ [c]) mb sh h tl rb) c) by reflexivity.
  unfold scan_constraint.
  destruct (String.eqb_spec (ctype c) "LIMIT_LOCATION") as [Hl|Hl].
  - rewrite Hl. reflexivity.
  - destruct (String.eqb (ctype c) "LIMIT_ROTATION"); reflexivity.
Qed.

Lemma deref_last `{Host} joint t :
  deref joint (getJointConstraint joint t)
  = match last_constraint joint t with
    | Some c => Return c
    | None => Raise (AttributeError "constraint")
    end.
Proof.
  unfold deref, last_constraint.
  destruct (getJointConstraint joint t) as [i|]; [|reflexivity].
  by destruct (constraints joint !! i).
Qed.

Lemma getJointConstraint_last_constraint joint t :
  getJointConstraint joint t = None <-> last_constraint joint t = None.
Proof.
  unfold last_constraint. destruct (getJointConstraint joint t) as [i|] eqn:Hi; [|done].
  split; [discriminate|]. intros Hc. apply last_of_type_lt in Hi.
  apply lookup_ge_None in Hc. lia.
Qed.

Lemma getJointType_last joint :
  getJointType joint
  = let cloc := locked_flags <$> last_constraint joint "LIMIT_LOCATION" in
    let limrot := last_constraint joint "LIMIT_ROTATION" in
    let crot := limited_flags <$> limrot in
    let ncloc := py_sum <$> cloc in
    let ncrot := (fun c => py_sum [use_limit_x c; use_limit_y c; use_limit_z c]) <$> limrot in
    (if count_is ncloc 3 then
       if count_is ncrot 3 then
         if Nat.ltb 0 (py_sum (default [] crot)) then "revolute" else "fixed"
       else if count_is ncrot 2 then "continuous" else "floating"
     else if count_is ncloc 2 then "prismatic"
     else if count_is ncloc 1 then "planar"
     else "floating",
     crot).
Proof.
  unfold getJointType, ncloc, ncrot. rewrite scan_agrees.
  destruct (last_constraint joint "LIMIT_LOCATION") as [loc|],
    (last_constraint joint "LIMIT_ROTATION") as [rot|]; reflexivity.
Qed.

Lemma getJointConstraints_raises `{Host} joint e :
  getJointConstraints joint = Raise e ->
  e = JointTypeError (name joint)
  /\ exists c,
       last_constraint joint "LIMIT_LOCATION" = Some c
       /\ ((fst (getJointType joint) = "prismatic" /\ py_sum (strict_flags c) <> 2)
           \/ (fst (getJointType joint) = "planar" /\ py_sum (strict_flags c) <> 1)).
Proof.
  unfold getJointConstraints, deriveJointType.
  rewrite deref_last, getJointType_last. cbv zeta.
  destruct (getJointConstraint joint "LIMIT_LOCATION") as [i|] eqn:Hi.
  - destruct (lookup_lt_is_Some_2 (constraints joint) i (last_of_type_lt _ _ _ Hi))
      as [loc Hl].
    assert (Hloc : last_constraint joint "LIMIT_LOCATION" = Some loc)
      by (unfold last_constraint; by rewrite Hi).
    unfold deref. rewrite Hl, Hloc.
    destruct (last_constraint joint "LIMIT_ROTATION") as [rot|] eqn:Hrot;
      cbn [fmap option_fmap option_map default count_is fst snd list_truthy limited_flags read];
      unfold strict_flags;
      repeat case_match; simplify_eq/=; try discriminate;
      intros; simplify_eq; (split; [reflexivity|]); exists loc; (split; [reflexivity|]);
      first [ left; split; [reflexivity|]; by apply Nat.eqb_neq
            | right; split; [reflexivity|]; by apply Nat.eqb_neq ].
  - apply getJointConstraint_last_constraint in Hi. rewrite Hi.
    destruct (last_constraint joint "LIMIT_ROTATION") as [rot|] eqn:Hrot;
      cbn [fmap option_fmap option_map default count_is fst snd list_truthy limited_flags read];
      repeat case_match; simplify_eq/=; discriminate.
Qed.

(** ** The link after setJointConstraints, whatever the arguments *)

Lemma typed_scene_link `{Host} t lo up spring damping s :
  let o := link s in
  let o' := link (typed_scene t lo up spring damping s) in
  (name o', phobostype o', matrix_basis o', bone_head o', bone_tail o', custom_shape o')
  = (name o, phobostype o, matrix_basis o, bone_head o, bone_tail o, custom_shape o)
  /\ constraints o' = remove_each (constraints o) ++ built_constraints t lo up
  /\ props o' !! "joint/type" = Some (PyStr t).
Proof.
  unfold typed_scene. cbv zeta.
  destruct (wants_dynamics t spring damping), (rigid_body_world s);
    cbn; rewrite lookup_insert_eq; repeat split.
Qed.

Lemma setJointConstraints_link_frame `{Host} t lo up spring damping eff spd s :
  phobostype (link s) = "link" ->
  frame_except approximation_keys (typed_scene t lo up spring damping s)
    (snd (setJointConstraints t lo up spring damping eff spd s)).
Proof.
  intros Hp. rewrite (setJointConstraints_link_general _ _ _ _ _ _ _ _ Hp).
  apply finish_joint_frame.
Qed.

Lemma built_stack `{Host} t lo up spring damping eff spd s :
  phobostype (link s) = "link" ->
  constraints (link (snd (setJointConstraints t lo up spring damping eff spd s)))
  = remove_each (constraints (link s)) ++ built_constraints t lo up.
Proof.
  intros Hp.
  destruct (setJointConstraints_link_frame t lo up spring damping eff spd s Hp)
    as (_ & _ & _ & Hf & _).
  destruct (typed_scene_link t lo up spring damping s) as (_ & Hc & _).
  cbv zeta in Hc. rewrite <- Hc. congruence.
Qed.

Lemma pair_last o l loc rot :
  constraints o = l ++ [loc; rot] ->
  ctype loc = "LIMIT_LOCATION" -> ctype rot = "LIMIT_ROTATION" ->
  getJointConstraint o "LIMIT_LOCATION" = Some (length l)
  /\ constraints o !! length l = Some loc
  /\ last_constraint o "LIMIT_LOCATION" = Some loc
  /\ last_constraint o "LIMIT_ROTATION" = Some rot.
Proof.
  intros Hcs Hloc Hrot.
  assert (H1 : getJointConstraint o "LIMIT_LOCATION" = Some (length l)).
  { unfold getJointConstraint. rewrite Hcs.
    change (l ++ [loc; rot]) with (l ++ [loc] ++ [rot]). rewrite app_assoc.
    rewrite last_of_type_snoc_other by (rewrite Hrot; discriminate).
    by apply last_of_type_snoc. }
  assert (H2 : constraints o !! length l = Some loc)
    by (rewrite Hcs; by apply list_lookup_middle).
  split; [exact H1|]. split; [exact H2|]. split.
  - unfold last_constraint. by rewrite H1.
  - unfold last_constraint, getJointConstraint. rewrite Hcs.
    change (l ++ [loc; rot]) with (l ++ [loc] ++ [rot]). rewrite app_assoc.
    rewrite (last_of_type_snoc _ _ _ Hrot). apply lookup_snoc.
Qed.

Lemma getJointType_revolute o l lo up :
  constraints o = l ++ built_constraints "revolute" lo up ->
  getJointType o
  = (if bounds_kept "revolute" lo up then "revolute" else "fixed",
     Some [false; bounds_kept "revolute" lo up; false]).
Proof.
  intros Hcs. destruct (pair_last o l _ _ Hcs eq_refl eq_refl) as (_ & _ & Hl & Hr).
  rewrite getJointType_last, Hl, Hr. unfold limited_flags, locked_flags, bounds_kept.
  cbn -[py_ne].
  change (py_ne 0 0) with false. cbn -[py_ne].
  destruct (py_ne (stored "LIMIT_ROTATION" lo) 0 || py_ne (stored "LIMIT_ROTATION" up) 0);
    reflexivity.
Qed.

Lemma getJointType_built_any o l t lo up :
  In t ["fixed"; "continuous"; "prismatic"; "planar"] ->
  constraints o = l ++ built_constraints t lo up ->
  fst (getJointType o) = if bounds_kept t lo up then t else "fixed".
Proof.
  intros Ht Hcs. cbn [In] in Ht.
  destruct Ht as [<-|[<-|[<-|[<-|[]]]]];
    unfold built_constraints in Hcs; cbn [String.eqb Ascii.eqb Bool.eqb] in Hcs;
    unfold bounds_kept; cbn [String.eqb Ascii.eqb Bool.eqb];
    try (destruct (py_eq lo up) eqn:Heq);
    destruct (pair_last o l _ _ Hcs eq_refl eq_refl) as (_ & _ & Hl & Hr);
    rewrite getJointType_last, Hl, Hr; cbn -[py_eq];
    try (destruct (py_eq (stored "LIMIT_LOCATION" lo) (stored "LIMIT_LOCATION" up)));
    reflexivity.
Qed.

Lemma getJointType_built o l t lo up :
  In t ["fixed"; "revolute"; "continuous"; "prismatic"; "planar"] ->
  constraints o = l ++ built_constraints t lo up ->
  fst (getJointType o) = if bounds_kept t lo up then t else "fixed".
Proof.
  intros Ht Hcs. cbn [In] in Ht.
  destruct Ht as [<-|[<-|Ht]].
  - apply (getJointType_built_any o l); [cbn; auto|exact Hcs].
  - by rewrite (getJointType_revolute o l lo up Hcs).
  - apply (getJointType_built_any o l); [|exact Hcs].
    cbn [In]. destruct Ht as [<-|[<-|[<-|[]]]]; auto.
Qed.

Lemma getJointConstraints_built `{Host} o l t lo up :
  constraints o = l ++ built_constraints t lo up ->
  (t = "revolute" ->
   getJointConstraints o
   = if bounds_kept "revolute" lo up
     then Return (Some (bone_axis o),
                  Some [stored "LIMIT_ROTATION" lo; stored "LIMIT_ROTATION" up])
     else Return (None, None))
  /\ (t = "continuous" -> getJointConstraints o = Return (Some (bone_axis o), None))
  /\ (t = "prismatic" ->
      getJointConstraints o
      = if bounds_kept "prismatic" lo up
        then Return (Some (bone_axis o),
                     Some (if py_eq lo up then [0%float; 0%float]
                           else [stored "LIMIT_LOCATION" lo; stored "LIMIT_LOCATION" up]))
        else Return (None, None))
  /\ (t = "fixed" -> getJointConstraints o = Return (None, None))
  /\ (t = "planar" ->
      getJointConstraints o
      = Return (Some (0%float, 1%float, 0%float),
                Some [0%float; 0%float; 0%float; 0%float])).
Proof.
  intros Hcs.
  repeat split; intros ->;
    unfold built_constraints in Hcs; cbn [String.eqb Ascii.eqb Bool.eqb] in Hcs;
    unfold bounds_kept; cbn [String.eqb Ascii.eqb Bool.eqb];
    try (destruct (py_eq lo up) eqn:Heq);
    destruct (pair_last o l _ _ Hcs eq_refl eq_refl) as (Hi & Hlk & Hl & Hr);
    unfold getJointConstraints, deriveJointType;
    rewrite deref_last, getJointType_last, Hl, Hr, Hi; unfold deref; rewrite Hlk;
    unfold limited_flags, locked_flags;
    cbn -[py_eq py_ne bone_axis];
    change (py_ne 0 0) with false; change (py_eq 0 0) with true;
    cbn -[py_eq py_ne bone_axis];
    try (destruct (py_ne (stored "LIMIT_ROTATION" lo) 0
                   || py_ne (stored "LIMIT_ROTATION" up) 0));
    try (destruct (py_eq (stored "LIMIT_LOCATION" lo) (stored "LIMIT_LOCATION" up)));
    reflexivity.
Qed.

(** ** Single precision at sample values *)

Lemma float32_samples :
  float32 quarter_turn = quarter_turn32
  /\ float32 tenth = tenth32
  /\ float32 just_above_one = 1%float
  /\ (float32 tiny_lower, float32 tiny_upper) = (0%float, 0%float)
  /\ (float32 default_lower, float32 default_upper)
     = ((-0x1.4f8b58p-17)%float, 0x1.4f8b58p-17%float)
  /\ (stored "LIMIT_ROTATION" (-2000)%float, stored "LIMIT_ROTATION" 2000%float)
     = ((-1000)%float, 1000%float)
  /\ (stored "LIMIT_LOCATION" (-2000)%float, stored "LIMIT_LOCATION" 2000%float)
     = ((-2000)%float, 2000%float).
Proof. repeat split. Qed.

(** * The claims *)

(** ** Shared facts on classification *)

(** With the classifier's own count off every pattern the type stays
    'floating'. *)
Lemma unmatched_own_count `{Host} joint :
  well_defined_pattern (ncloc joint) (ncrot joint) = false ->
  fst (getJointType joint) = "floating"
  /\ getJointConstraints joint = Return (None, None).
Proof.
  intros Hpat.
  assert (Hty : fst (getJointType joint) = "floating").
  { unfold getJointType. unfold well_defined_pattern in Hpat.
    destruct (scan joint) as [[cloc crot] limrot].
    destruct (list_truthy cloc); [|reflexivity].
    destruct (count_is (ncloc joint) 3), (count_is (ncloc joint) 2),
      (count_is (ncloc joint) 1), (count_is (ncrot joint) 3), (count_is (ncrot joint) 2);
      try discriminate; reflexivity. }
  split; [exact Hty|].
  unfold getJointConstraints, deriveJointType.
  destruct (getJointType joint) as [jt crot]. simpl in Hty. subst jt. reflexivity.
Qed.

(** A link classified prismatic or planar whose location constraint does
    not have the two, or the one, axis locked with both flags. *)
Lemma getJointConstraints_guessed `{Host} joint :
  fst (getJointType joint) = "prismatic" \/ fst (getJointType joint) = "planar" ->
  well_defined_pattern (locked_count joint) (ncrot joint) = false ->
  getJointConstraints joint = Raise (JointTypeError (name joint)).
Proof.
  intros Hty Hpat.
  destruct (last_constraint joint "LIMIT_LOCATION") as [c|] eqn:HL.
  2: { rewrite getJointType_last, HL in Hty. cbn in Hty. by destruct Hty. }
  unfold well_defined_pattern, locked_count in Hpat. rewrite HL in Hpat.
  cbn [fmap option_fmap option_map count_is] in Hpat.
  apply orb_false_elim in Hpat as [Hpat H1]. apply orb_false_elim in Hpat as [_ H2].
  unfold last_constraint in HL.
  unfold getJointConstraints, deriveJointType.
  destruct (getJointConstraint joint "LIMIT_LOCATION") as [i|]; [|discriminate].
  unfold deref. rewrite HL.
  destruct (getJointType joint) as [jt crot]. cbn [fst] in Hty.
  unfold strict_flags in H1, H2.
  destruct Hty as [-> | ->]; cbn [str_in existsb String.eqb Ascii.eqb Bool.eqb negb andb orb];
    cbv zeta; by rewrite ?H1, ?H2.
Qed.

(** ** The round trip *)

(** C1, counterexample. A prismatic joint with the limits 1.0 and
    1.0000000001 and a revolute joint with the limits 1e-50 and 1e-46
    have [lower < upper], yet both are classified fixed: the location
    constraint holds 1.0 for both bounds, the rotation constraint 0.0. *)
Lemma close_bounds_classified_fixed :
  py_lt 1%float just_above_one = true
  /\ (exists s',
        @setJointConstraints reference_host "prismatic" 1%float just_above_one
          0%float 0%float None None (scene_of sample_link) = (Return tt, s')
        /\ constraints (link s')
           = [loc_constraint true true true 1%float 1%float;
              rot_constraint true true true 0%float 0%float]
        /\ fst (getJointType (link s')) = "fixed")
  /\ py_lt tiny_lower tiny_upper = true
  /\ exists s',
       @setJointConstraints reference_host "revolute" tiny_lower tiny_upper
         0%float 0%float None None (scene_of sample_link) = (Return tt, s')
       /\ constraints (link s')
          = [loc_constraint true true true 0%float 0%float;
             rot_constraint true true true 0%float 0%float]
       /\ fst (getJointType (link s')) = "fixed".
Proof.
  split; [reflexivity|]. split.
  - eexists. split; [vm_compute; reflexivity|]. split; reflexivity.
  - split; [reflexivity|].
    eexists. split; [vm_compute; reflexivity|]. split; reflexivity.
Qed.

(** C1, as amended. For each of the five well-defined joint types and
    all limits with [lower < upper], building the joint on a link with
    zero spring and damping and then classifying the link's constraints
    gives the type back when the limits survive storage: a rotation
    bound of a revolute joint is stored as something other than zero, the
    bounds of a prismatic joint are stored as two different values.
    Otherwise the joint is classified fixed. *)
Theorem classify_build_roundtrip `{Host} (t : string) (lower upper : float) (s : Scene) :
  In t ["fixed"; "revolute"; "continuous"; "prismatic"; "planar"] ->
  py_lt lower upper = true ->
  phobostype (link s) = "link" ->
  exists s',
    setJointConstraints t lower upper 0%float 0%float None None s = (Return tt, s')
    /\ fst (getJointType (link s'))
       = if (if String.eqb t "revolute" then
               py_ne (stored "LIMIT_ROTATION" lower) 0%float
               || py_ne (stored "LIMIT_ROTATION" upper) 0%float
             else if String.eqb t "prismatic" then
               py_ne (stored "LIMIT_LOCATION" lower) (stored "LIMIT_LOCATION" upper)
             else true)
         then t else "fixed".
Proof.
  intros Ht Hlt Hp. eexists. split; [by apply setJointConstraints_link_run|].
  rewrite (getJointType_built _ (remove_each (constraints (link s))) t lower upper Ht)
    by (unfold built_scene; by destruct (getResource t)).
  unfold bounds_kept. by rewrite (py_lt_not_eq _ _ Hlt).
Qed.

(** C1 as amended, at a prismatic joint with limits -1.5 and 1.5 on the
    sample link. *)
Lemma classify_build_roundtrip_witness :
  In "prismatic" ["fixed"; "revolute"; "continuous"; "prismatic"; "planar"]
  /\ py_lt (-1.5)%float 1.5%float = true
  /\ phobostype (link (scene_of sample_link)) = "link"
  /\ exists s',
       @setJointConstraints reference_host "prismatic" (-1.5)%float 1.5%float
         0%float 0%float None None (scene_of sample_link) = (Return tt, s')
       /\ fst (getJointType (link s')) = "prismatic".
Proof.
  assert (H1 : In "prismatic" ["fixed"; "revolute"; "continuous"; "prismatic"; "planar"])
    by (simpl; auto).
  assert (H2 : py_lt (-1.5)%float 1.5%float = true) by reflexivity.
  assert (H3 : phobostype (link (scene_of sample_link)) = "link") by reflexivity.
  split; [exact H1|]. split; [exact H2|]. split; [exact H3|].
  exact (@classify_build_roundtrip reference_host _ _ _ _ H1 H2 H3).
Defined.

(** ** The prismatic builder *)

(** C6, counterexample. [set_prismatic] with the bounds 1.0 and
    1.0000000001, which are not equal, leaves the Y translation axis
    enabled with the range (1.0, 1.0): equal bounds, and not the upper
    bound that was passed.  Called in object mode with the bounds 5 and
    5, it raises and leaves the bone without a constraint. *)
Lemma close_bounds_enabled_degenerate :
  py_eq 1%float just_above_one = false
  /\ (exists cloc crot,
        set_prismatic 1%float just_above_one (pose_scene_of sample_link)
        = (Return tt, put_constraints [cloc; crot] (pose_scene_of sample_link))
        /\ (use_min_y cloc, use_max_y cloc) = (true, true)
        /\ (min_y cloc, max_y cloc) = (1%float, 1%float)
        /\ py_eq (max_y cloc) just_above_one = false)
  /\ set_prismatic 5%float 5%float (scene_of sample_link)
     = (Raise (RuntimeError "pose.constraint_add"), scene_of sample_link).
Proof.
  split; [reflexivity|]. split; [|reflexivity].
  do 2 eexists. split; [vm_compute; reflexivity|]. repeat split.
Qed.

(** C6, as amended. In pose mode [set_prismatic] with [lower == upper]
    leaves the Y translation axis with both enable flags cleared and its
    bounds unwritten; with [lower != upper] it leaves Y enabled with the
    range [(lower, upper)] in single precision.  In both cases X and Z
    are enabled with equal bounds. *)
Theorem set_prismatic_y_axis (lower upper : float) (s : Scene) :
  mode s = "POSE" ->
  exists cloc crot,
    set_prismatic lower upper s
    = (Return tt, put_constraints (constraints (link s) ++ [cloc; crot]) s)
    /\ ctype cloc = "LIMIT_LOCATION"
    /\ (use_min_x cloc, use_max_x cloc, use_min_z cloc, use_max_z cloc)
       = (true, true, true, true)
    /\ (py_eq (min_x cloc) (max_x cloc), py_eq (min_z cloc) (max_z cloc)) = (true, true)
    /\ if py_eq lower upper
       then (use_min_y cloc, use_max_y cloc) = (false, false)
            /\ (min_y cloc, max_y cloc) = (0%float, 0%float)
       else (use_min_y cloc, use_max_y cloc) = (true, true)
            /\ (min_y cloc, max_y cloc) = (float32 lower, float32 upper).
Proof.
  intros Hm. rewrite set_prismatic_run by exact Hm.
  unfold built_constraints. cbn [String.eqb Ascii.eqb Bool.eqb].
  do 2 eexists. split; [reflexivity|].
  destruct (py_eq lower upper); repeat split.
Qed.

(** C6 as amended, at the bounds -1.5 and 1.5 on the sample link in pose
    mode. *)
Lemma set_prismatic_y_axis_witness :
  mode (pose_scene_of sample_link) = "POSE"
  /\ exists cloc crot,
       set_prismatic (-1.5)%float 1.5%float (pose_scene_of sample_link)
       = (Return tt,
          put_constraints (constraints (link (pose_scene_of sample_link)) ++ [cloc; crot])
            (pose_scene_of sample_link))
       /\ ctype cloc = "LIMIT_LOCATION"
       /\ (use_min_x cloc, use_max_x cloc, use_min_z cloc, use_max_z cloc)
          = (true, true, true, true)
       /\ (py_eq (min_x cloc) (max_x cloc), py_eq (min_z cloc) (max_z cloc)) = (true, true)
       /\ (use_min_y cloc, use_max_y cloc) = (true, true)
          /\ (min_y cloc, max_y cloc) = ((-1.5)%float, 1.5%float).
Proof.
  assert (H1 : mode (pose_scene_of sample_link) = "POSE") by reflexivity.
  split; [exact H1|].
  exact (set_prismatic_y_axis (-1.5)%float 1.5%float (pose_scene_of sample_link) H1).
Defined.

(** ** Purity, guards and the defects *)

(** C9. [deriveJointState] only reads: a call returns a state and leaves
    the scene as it was, and a second call on the scene left by the first
    returns the same state, again without changing the scene. *)
Theorem deriveJointState_pure
    (to_translation to_euler to_quaternion : list (list float) -> list float) (s : Scene) :
  let derive := deriveJointState to_translation to_euler to_quaternion in
  exists st,
    derive s = (Return st, s)
    /\ derive (snd (derive s)) = (Return st, s)
    /\ st_matrix st = matrix_basis (link s).
Proof. eexists. repeat split. Qed.

(** C10. On an object whose phobostype is not 'link',
    [setJointConstraints] logs one error and returns: the object (its
    constraints, custom properties and every other field) and the mode
    are unchanged, whatever the other arguments. *)
Theorem not_a_link_rejected `{Host} (t : string) (lower upper spring damping : float)
    (maxeffort_approximation maxspeed_approximation : option PyDict) (s : Scene) :
  phobostype (link s) <> "link" ->
  exists s' msg,
    setJointConstraints t lower upper spring damping
      maxeffort_approximation maxspeed_approximation s = (Return tt, s')
    /\ link s' = link s
    /\ mode s' = mode s
    /\ logged s' = logged s ++ [(msg, "ERROR")].
Proof.
  intros Hp. do 2 eexists. split; [by apply setJointConstraints_not_link_run|].
  repeat split.
Qed.

(** C10 at the sample visual object, with spring, damping and an
    approximation given. *)
Lemma not_a_link_rejected_witness :
  phobostype (link (scene_of sample_visual)) <> "link"
  /\ exists s' msg,
       @setJointConstraints reference_host "revolute" (-1.5)%float 1.5%float 2%float 1%float
         (Some [("function", PyStr "poly"); ("coefficients", PyList [1%float])]) None
         (scene_of sample_visual) = (Return tt, s')
       /\ link s' = link (scene_of sample_visual)
       /\ mode s' = mode (scene_of sample_visual)
       /\ logged s' = logged (scene_of sample_visual) ++ [(msg, "ERROR")].
Proof.
  assert (H1 : phobostype (link (scene_of sample_visual)) <> "link") by discriminate.
  split; [exact H1|].
  exact (@not_a_link_rejected reference_host _ _ _ _ _ _ _ _ H1).
Defined.

(** C3 (the code departs from the claim). With
    [maxeffort_approximation = {'function': 'poly'}] on a revolute joint,
    [setJointConstraints] stores 'poly' under
    joint/maxeffort_approximation and then raises [KeyError] on
    'coefficients'; no error is logged. *)
Theorem malformed_approximation_partial_write :
  exists s',
    @setJointConstraints reference_host "revolute" (-1.5)%float 1.5%float 0%float 0%float
      (Some poly_without_coefficients) None (scene_of sample_link)
    = (Raise (KeyError "coefficients"), s')
    /\ props (link s') !! "joint/maxeffort_approximation" = Some (PyStr "poly")
    /\ props (link s') !! "joint/maxeffort_coefficients" = None
    /\ forallb (fun e => negb (String.eqb (snd e) "ERROR")) (logged s') = true.
Proof. eexists. split; [vm_compute; reflexivity|]. repeat split. Qed.

(** C5 (the code departs from the claim). [getJointType] counts the X
    axis of [half_enabled_x] as locked although [use_max_x] is clear, and
    calls the joint planar; [getJointConstraints], which asks for both
    flags, finds no locked axis on the same stack and raises. *)
Theorem min_flag_alone_counts_as_locked :
  (use_min_x half_enabled_x, use_max_x half_enabled_x) = (true, false)
  /\ fst (fst (scan half_enabled_link)) = Some [true; false; false]
  /\ ncloc half_enabled_link = Some 1
  /\ getJointType half_enabled_link = ("planar", None)
  /\ @getJointConstraints reference_host half_enabled_link = Raise (JointTypeError "arm").
Proof. repeat split. Qed.

(** ** Constraint sets off every pattern *)

(** C4, counterexample. Three translation axes locked with both flags
    and one limited rotation axis, and a location constraint that locks
    no axis, match none of the five patterns, yet for both
    [getJointType] answers 'floating' and [getJointConstraints] returns
    normally. *)
Lemma unmatched_pattern_no_error :
  (locked_count one_rotation_link, ncrot one_rotation_link) = (Some 3, Some 1)
  /\ well_defined_pattern (locked_count one_rotation_link) (ncrot one_rotation_link) = false
  /\ fst (getJointType one_rotation_link) = "floating"
  /\ @getJointConstraints reference_host one_rotation_link = Return (None, None)
  /\ (locked_count unlocked_link, ncrot unlocked_link) = (Some 0, None)
  /\ well_defined_pattern (locked_count unlocked_link) (ncrot unlocked_link) = false
  /\ fst (getJointType unlocked_link) = "floating"
  /\ @getJointConstraints reference_host unlocked_link = Return (None, None).
Proof. repeat split. Qed.

(** C4, as amended. Take a constraint set whose count of translation
    axes locked with both flags and whose count of limited rotation axes
    match none of the five patterns.  [getJointType] reports no error
    for it.  When no axis is counted by [getJointType] on its min flag
    alone, the type it returns is its initial 'floating' and
    [getJointConstraints] returns no axis and no limits.  In every case
    the only error is the under-defined error of [getJointConstraints],
    raised exactly when [getJointType] answered 'prismatic' or
    'planar'. *)
Theorem unmatched_pattern_is_floating `{Host} (joint : Object) :
  well_defined_pattern (locked_count joint) (ncrot joint) = false ->
  (ncloc joint = locked_count joint ->
   fst (getJointType joint) = "floating"
   /\ getJointConstraints joint = Return (None, None))
  /\ (forall e,
        getJointConstraints joint = Raise e
        <-> e = JointTypeError (name joint)
            /\ (fst (getJointType joint) = "prismatic"
                \/ fst (getJointType joint) = "planar")).
Proof.
  intros Hpat. split.
  - intros Hsame. apply unmatched_own_count. by rewrite Hsame.
  - intros e. split.
    + intros Hr. destruct (getJointConstraints_raises joint e Hr) as (He & c & _ & Hty).
      split; [exact He|]. destruct Hty as [[Hty _]|[Hty _]]; auto.
    + intros [-> Hty]. by apply getJointConstraints_guessed.
Qed.

(** C4 as amended, at a link whose location constraint has the min flag
    of X alone (no axis is locked with both flags, [getJointType]
    answers 'planar' and [getJointConstraints] raises), and at the link
    with three locked translation axes and one limited rotation axis. *)
Lemma unmatched_pattern_is_floating_witness :
  well_defined_pattern (locked_count half_enabled_link) (ncrot half_enabled_link) = false
  /\ fst (getJointType half_enabled_link) = "planar"
  /\ (forall e,
        @getJointConstraints reference_host half_enabled_link = Raise e
        <-> e = JointTypeError (name half_enabled_link)
            /\ (fst (getJointType half_enabled_link) = "prismatic"
                \/ fst (getJointType half_enabled_link) = "planar"))
  /\ well_defined_pattern (locked_count one_rotation_link) (ncrot one_rotation_link) = false
  /\ ncloc one_rotation_link = locked_count one_rotation_link
  /\ fst (getJointType one_rotation_link) = "floating"
  /\ @getJointConstraints reference_host one_rotation_link = Return (None, None).
Proof.
  assert (H1 : well_defined_pattern (locked_count half_enabled_link)
                 (ncrot half_enabled_link) = false) by reflexivity.
  assert (H2 : well_defined_pattern (locked_count one_rotation_link)
                 (ncrot one_rotation_link) = false) by reflexivity.
  assert (H3 : ncloc one_rotation_link = locked_count one_rotation_link) by reflexivity.
  split; [exact H1|]. split; [reflexivity|].
  split; [exact (proj2 (@unmatched_pattern_is_floating reference_host half_enabled_link H1))|].
  split; [exact H2|]. split; [exact H3|].
  exact (proj1 (@unmatched_pattern_is_floating reference_host one_rotation_link H2) H3).
Defined.

(** ** createJoint *)

Lemma zero_axis_frame `{Host} j a s :
  axis j = Some a -> py_eq (Vector_length a) 0%float = true ->
  bone_tail (link (created j s)) = bone_tail (link s)
  /\ In ("Axis of joint " +:+ jname j +:+ " is of zero length: ", "ERROR")
       (logged (created j s)).
Proof.
  intros Ha Hz. split.
  - unfold created. cbn [put_logged put_props link with_props bone_tail].
    rewrite constrained_bone.
    pose proof (limited_link_frame j (oriented j (named j s))) as H1.
    pose proof (named_link_frame j s) as [H3 _]. cbv zeta in H1, H3.
    injection H1 as _ _ _ _ ->. injection H3 as _ _ _ _ <-.
    unfold oriented. by rewrite Ha, Hz.
  - apply created_logged, limited_logged. unfold oriented. rewrite Ha, Hz.
    cbn [put_logged logged]. rewrite in_app_iff. cbn [In]. auto.
Qed.

(** The default bounds on a revolute joint: the rotation constraint holds
    the binary32 values next to -1e-5 and 1e-5. *)
Lemma default_revolute_stack :
  built_constraints "revolute" default_lower default_upper
  = [loc_constraint true true true 0%float 0%float;
     rot_constraint true true true (-0x1.4f8b58p-17)%float 0x1.4f8b58p-17%float].
Proof. reflexivity. Qed.

(** C2, counterexample. A revolute joint with axis (0, 0, 0) applied to
    a link: [createJoint] returns normally and the link has two new
    constraints, the rotation constraint holding the default bounds in
    single precision (-9.999999747378752e-06 and 9.999999747378752e-06),
    and the custom property joint/type. *)
Lemma zero_axis_still_applied :
  py_eq (@Vector_length reference_host (0, 0, 0)%float) 0%float = true
  /\ exists s',
       @createJoint reference_host zero_axis_joint (scene_of sample_link) = (Return tt, s')
       /\ link s' <> link (scene_of sample_link)
       /\ constraints (link s')
          = [loc_constraint true true true 0%float 0%float;
             rot_constraint true true true (-0x1.4f8b58p-17)%float 0x1.4f8b58p-17%float]
       /\ props (link s') !! "joint/type" = Some (PyStr "revolute").
Proof.
  split; [reflexivity|]. eexists. split; [vm_compute; reflexivity|].
  split; [|split; reflexivity].
  intros Heq. apply (f_equal constraints) in Heq. discriminate Heq.
Qed.

(** C2, as amended. For a joint definition whose axis has zero length,
    [createJoint] logs an error for the axis and leaves the bone's tail
    where it was, and it returns normally: the constraints of the link
    are those [setJointConstraints] builds for the joint's type and
    limits, and on a link joint/type is written. *)
Theorem zero_axis_logged_not_fatal `{Host} (j : JointDef) (a : Vec3) (s : Scene) :
  axis j = Some a ->
  py_eq (Vector_length a) 0%float = true ->
  exists s',
    createJoint j s = (Return tt, s')
    /\ In ("Axis of joint " +:+ jname j +:+ " is of zero length: ", "ERROR") (logged s')
    /\ bone_tail (link s') = bone_tail (link s)
    /\ constraints (link s')
       = constraints (link (snd (setJointConstraints (jtype j)
           (fst (chosen_limits j)) (snd (chosen_limits j)) 0%float 0%float None None s)))
    /\ (phobostype (link s) = "link" ->
        props (link s') !! "joint/type" = Some (PyStr (jtype j))
        /\ constraints (link s')
           = remove_each (constraints (link s))
               ++ built_constraints (jtype j) (fst (chosen_limits j)) (snd (chosen_limits j))).
Proof.
  intros Ha Hz. exists (created j s). split; [apply createJoint_run|].
  destruct (zero_axis_frame j a s Ha Hz) as [Htail Hlog].
  split; [exact Hlog|]. split; [exact Htail|]. split.
  - rewrite constrained_run. cbn [snd]. by rewrite created_constraints, constrained_constraints.
  - intros Hp. split; [by apply created_type|].
    rewrite created_constraints. by rewrite Hp.
Qed.

(** C2 as amended, at the revolute joint with axis (0, 0, 0) on the
    sample link. *)
Lemma zero_axis_logged_not_fatal_witness :
  axis zero_axis_joint = Some (0, 0, 0)%float
  /\ py_eq (@Vector_length reference_host (0, 0, 0)%float) 0%float = true
  /\ exists s',
       @createJoint reference_host zero_axis_joint (scene_of sample_link) = (Return tt, s')
       /\ In ("Axis of joint elbow is of zero length: ", "ERROR") (logged s')
       /\ bone_tail (link s') = (0, 1, 0)%float
       /\ constraints (link s')
          = constraints (link (snd (@setJointConstraints reference_host "revolute"
              default_lower default_upper 0%float 0%float None None (scene_of sample_link))))
       /\ (phobostype sample_link = "link" ->
           props (link s') !! "joint/type" = Some (PyStr "revolute")
           /\ constraints (link s')
              = [] ++ [loc_constraint true true true 0%float 0%float;
                       rot_constraint true true true (-0x1.4f8b58p-17)%float 0x1.4f8b58p-17%float]).
Proof.
  assert (H1 : axis zero_axis_joint = Some (0, 0, 0)%float) by reflexivity.
  assert (H2 : py_eq (@Vector_length reference_host (0, 0, 0)%float) 0%float = true)
    by reflexivity.
  split; [exact H1|]. split; [exact H2|].
  exact (@zero_axis_logged_not_fatal reference_host zero_axis_joint _
           (scene_of sample_link) H1 H2).
Defined.

(** C7. When the joint definition has no limits, or limits without
    'lower' or 'upper', [createJoint] logs a warning and goes on with the
    bounds -1e-5 and 1e-5: the link's constraints are those
    [setJointConstraints] builds from these bounds.  For a revolute joint
    on a link that is a location constraint locking X, Y and Z and a
    rotation constraint locking X and Z and limiting Y to the default
    bounds, held in single precision as -9.999999747378752e-06 and
    9.999999747378752e-06, which [getJointType] reads as revolute. *)
Theorem defaults_when_bounds_missing `{Host} (j : JointDef) (s : Scene) :
  lacks_bounds j = true ->
  exists s',
    createJoint j s = (Return tt, s')
    /\ In (if obj_truthy (limits j)
           then "Joint limits upper/lower is missing! Defaulted to [-1e-5, 1e-5]."
           else "Joint limits upper/lower is missing! Defaulted both to [-1e-5, 1e-5].",
           "WARNING") (logged s')
    /\ constraints (link s')
       = constraints (link (snd (setJointConstraints (jtype j)
           default_lower default_upper 0%float 0%float None None s)))
    /\ (phobostype (link s) = "link" ->
        constraints (link s')
        = remove_each (constraints (link s))
            ++ built_constraints (jtype j) default_lower default_upper)
    /\ (jtype j = "revolute" -> phobostype (link s) = "link" ->
        constraints (link s')
        = remove_each (constraints (link s))
            ++ [loc_constraint true true true 0%float 0%float;
                rot_constraint true true true (-0x1.4f8b58p-17)%float 0x1.4f8b58p-17%float]
        /\ fst (getJointType (link s')) = "revolute").
Proof.
  intros Hlack. exists (created j s). split; [apply createJoint_run|].
  assert (Hch : chosen_limits j = (default_lower, default_upper)).
  { unfold lacks_bounds in Hlack. unfold chosen_limits.
    destruct (limits j) as [[[lo|] [up|] ef ve]|]; try reflexivity; discriminate. }
  assert (Hcs : constraints (link (created j s))
                = constraints (link (constrained (jtype j) default_lower default_upper s))).
  { by rewrite created_constraints, constrained_constraints, Hch. }
  split; [|split; [by rewrite constrained_run|]].
  - apply created_logged.
    pose proof (limited_warns j (oriented j (named j s))) as Hw.
    unfold lacks_bounds in Hlack.
    destruct (limits j) as [[[lo|] [up|] ef ve]|]; try discriminate; exact Hw.
  - split.
    + intros Hp. by rewrite Hcs, constrained_constraints, Hp.
    + intros Hty Hp.
      assert (Hrev : constraints (link (created j s))
                     = remove_each (constraints (link s))
                         ++ built_constraints "revolute" default_lower default_upper).
      { by rewrite Hcs, constrained_constraints, Hp, Hty. }
      split; [by rewrite Hrev, default_revolute_stack|].
      by rewrite (getJointType_built _ (remove_each (constraints (link s))) "revolute"
                    default_lower default_upper (or_intror (or_introl eq_refl)) Hrev).
Qed.

(** C7 at a revolute joint without limits on the sample link. *)
Lemma defaults_when_bounds_missing_witness :
  lacks_bounds revolute_without_limits = true
  /\ exists s',
       @createJoint reference_host revolute_without_limits (scene_of sample_link)
       = (Return tt, s')
       /\ In ("Joint limits upper/lower is missing! Defaulted both to [-1e-5, 1e-5].",
              "WARNING") (logged s')
       /\ constraints (link s')
          = constraints (link (snd (@setJointConstraints reference_host "revolute"
              default_lower default_upper 0%float 0%float None None (scene_of sample_link))))
       /\ (phobostype sample_link = "link" ->
           constraints (link s')
           = [] ++ built_constraints "revolute" default_lower default_upper)
       /\ ("revolute" = "revolute" -> phobostype sample_link = "link" ->
           constraints (link s')
           = [] ++ [loc_constraint true true true 0%float 0%float;
                    rot_constraint true true true (-0x1.4f8b58p-17)%float 0x1.4f8b58p-17%float]
           /\ fst (getJointType (link s')) = "revolute").
Proof.
  assert (H1 : lacks_bounds revolute_without_limits = true) by reflexivity.
  split; [exact H1|].
  exact (@defaults_when_bounds_missing reference_host revolute_without_limits
           (scene_of sample_link) H1).
Defined.

(** C8. When the joint definition has a limits block, [createJoint]
    stores a given effort under joint/maxEffort and a given velocity
    under joint/maxSpeed, logs an error for each of the two that is
    missing, and goes on to [setJointConstraints] with the given bounds,
    or with the default bounds when 'lower' or 'upper' is missing: on a
    link the removal loop runs and the pair of constraints of the joint's
    type is put on the stack, with these bounds as stored. *)
Theorem limits_metadata_and_constraints `{Host} (j : JointDef) (lim : Limits) (s : Scene) :
  limits j = Some lim ->
  exists s',
    createJoint j s = (Return tt, s')
    /\ match effort lim with
       | Some v => props (link s') !! "joint/maxEffort" = Some (PyFloat v)
       | None =>
           In ("Joint limits incomplete for joint " +:+ jname j +:+ ". Missing effort.",
               "ERROR") (logged s')
       end
    /\ match velocity lim with
       | Some v => props (link s') !! "joint/maxSpeed" = Some (PyFloat v)
       | None =>
           In ("Joint limits incomplete for joint " +:+ jname j +:+ ". Missing velocity.",
               "ERROR") (logged s')
       end
    /\ let '(lo, up) :=
         match lower lim, upper lim with
         | Some lo, Some up => (lo, up)
         | _, _ => (default_lower, default_upper)
         end in
       constraints (link s')
       = constraints (link (snd (setJointConstraints (jtype j) lo up
           0%float 0%float None None s)))
       /\ (phobostype (link s) = "link" ->
           constraints (link s')
           = remove_each (constraints (link s)) ++ built_constraints (jtype j) lo up
           /\ props (link s') !! "joint/type" = Some (PyStr (jtype j))).
Proof.
  intros Hlim. exists (created j s). split; [apply createJoint_run|].
  destruct (limited_stores j lim (oriented j (named j s)) Hlim) as [Hef Hve].
  split; [|split].
  - destruct (effort lim) as [v|]; [|by apply created_logged].
    rewrite <- Hef. by apply (created_props j s "maxEffort").
  - destruct (velocity lim) as [v|]; [|by apply created_logged].
    rewrite <- Hve. by apply (created_props j s "maxSpeed").
  - assert (Hch : chosen_limits j
                  = match lower lim, upper lim with
                    | Some lo, Some up => (lo, up)
                    | _, _ => (default_lower, default_upper)
                    end).
    { unfold chosen_limits. by rewrite Hlim. }
    rewrite <- Hch. destruct (chosen_limits j) as [lo up] eqn:Hc.
    rewrite constrained_run. cbn [snd]. split.
    + by rewrite created_constraints, constrained_constraints, Hc.
    + intros Hp. split; [|by apply created_type].
      by rewrite created_constraints, Hp, Hc.
Qed.

(** C8 at a revolute joint with bounds and effort but no velocity. *)
Lemma limits_metadata_and_constraints_witness :
  limits revolute_with_effort
  = Some (mkLimits (Some (-1.5)%float) (Some 1.5%float) (Some 50%float) None)
  /\ exists s',
       @createJoint reference_host revolute_with_effort (scene_of sample_link)
       = (Return tt, s')
       /\ props (link s') !! "joint/maxEffort" = Some (PyFloat 50%float)
       /\ In ("Joint limits incomplete for joint elbow. Missing velocity.", "ERROR")
            (logged s')
       /\ constraints (link s')
          = constraints (link (snd (@setJointConstraints reference_host "revolute"
              (-1.5)%float 1.5%float 0%float 0%float None None (scene_of sample_link))))
          /\ (phobostype sample_link = "link" ->
              constraints (link s')
              = [] ++ [loc_constraint true true true 0%float 0%float;
                       rot_constraint true true true (-1.5)%float 1.5%float]
              /\ props (link s') !! "joint/type" = Some (PyStr "revolute")).
Proof.
  assert (H1 : limits revolute_with_effort
               = Some (mkLimits (Some (-1.5)%float) (Some 1.5%float) (Some 50%float) None))
    by reflexivity.
  split; [exact H1|].
  exact (@limits_metadata_and_constraints reference_host revolute_with_effort _
           (scene_of sample_link) H1).
Defined.

(** * Further properties of setJointConstraints *)

(** X1. The constraint stack [setJointConstraints] leaves depends on the
    joint type and the bounds only: spring, damping and the
    approximations do not change it, not even when an approximation
    makes the call raise. *)
Theorem constraints_ignore_dynamics_and_approximations `{Host} (t : string)
    (lo up spring damping : float) (eff spd : option PyDict) (s : Scene) :
  constraints (link (snd (setJointConstraints t lo up spring damping eff spd s)))
  = constraints (link (snd (setJointConstraints t lo up 0%float 0%float None None s))).
Proof.
  destruct (String.eqb_spec (phobostype (link s)) "link") as [Hp|Hp].
  - by rewrite !built_stack.
  - by rewrite !setJointConstraints_not_link_run.
Qed.

(** X2. Fixed, continuous and planar joints are classified as built for
    all bounds and whatever spring, damping and approximations are
    passed.  A prismatic joint is classified prismatic when its bounds
    are equal or are stored as two different values; built with
    different bounds that single precision does not keep apart it is
    classified fixed. *)
Theorem roundtrip_for_all_bounds `{Host} (t : string)
    (lo up spring damping : float) (eff spd : option PyDict) (s : Scene) :
  In t ["fixed"; "continuous"; "prismatic"; "planar"] ->
  phobostype (link s) = "link" ->
  fst (getJointType (link (snd (setJointConstraints t lo up spring damping eff spd s))))
  = if String.eqb t "prismatic" && negb (py_eq lo up)
       && py_eq (stored "LIMIT_LOCATION" lo) (stored "LIMIT_LOCATION" up)
    then "fixed" else t.
Proof.
  intros Ht Hp.
  rewrite (getJointType_built_any _ (remove_each (constraints (link s))) t lo up Ht)
    by (by apply built_stack).
  unfold bounds_kept. cbn [In] in Ht.
  destruct Ht as [<-|[<-|[<-|[<-|[]]]]]; cbn [String.eqb Ascii.eqb Bool.eqb andb];
    try reflexivity.
  by destruct (py_eq lo up),
    (py_eq (stored "LIMIT_LOCATION" lo) (stored "LIMIT_LOCATION" up)).
Qed.

(** X2 at a prismatic joint with both bounds 5, and with the bounds 1.0
    and 1.0000000001. *)
Lemma roundtrip_for_all_bounds_witness :
  In "prismatic" ["fixed"; "continuous"; "prismatic"; "planar"]
  /\ phobostype (link (scene_of sample_link)) = "link"
  /\ fst (getJointType (link (snd (@setJointConstraints reference_host "prismatic"
       5%float 5%float 0%float 0%float None None (scene_of sample_link))))) = "prismatic"
  /\ fst (getJointType (link (snd (@setJointConstraints reference_host "prismatic"
       1%float just_above_one 2%float 0%float None None (scene_of sample_link))))) = "fixed".
Proof.
  assert (H1 : In "prismatic" ["fixed"; "continuous"; "prismatic"; "planar"])
    by (cbn; auto).
  assert (H2 : phobostype (link (scene_of sample_link)) = "link") by reflexivity.
  split; [exact H1|]. split; [exact H2|]. split.
  - exact (@roundtrip_for_all_bounds reference_host "prismatic" 5%float 5%float
             0%float 0%float None None _ H1 H2).
  - exact (@roundtrip_for_all_bounds reference_host "prismatic" 1%float just_above_one
             2%float 0%float None None _ H1 H2).
Defined.

(** X3. A revolute joint is classified revolute exactly when one of its
    bounds is stored as something other than zero; otherwise, as when
    both bounds are zero or too small for single precision, it is
    classified fixed.  The second component marks Y as the limited
    axis. *)
Theorem revolute_needs_nonzero_bound `{Host} (lo up spring damping : float)
    (eff spd : option PyDict) (s : Scene) :
  phobostype (link s) = "link" ->
  let kept :=
    py_ne (stored "LIMIT_ROTATION" lo) 0%float
    || py_ne (stored "LIMIT_ROTATION" up) 0%float in
  getJointType (link (snd (setJointConstraints "revolute" lo up spring damping eff spd s)))
  = (if kept then "revolute" else "fixed", Some [false; kept; false]).
Proof. intros Hp. eapply getJointType_revolute. by apply built_stack. Qed.

(** X3 at the bounds 0 and 0, and at the bounds -1.5 and 1e-46. *)
Lemma revolute_needs_nonzero_bound_witness :
  phobostype (link (scene_of sample_link)) = "link"
  /\ getJointType (link (snd (@setJointConstraints reference_host "revolute"
       0%float 0%float 0%float 0%float None None (scene_of sample_link))))
     = ("fixed", Some [false; false; false])
  /\ getJointType (link (snd (@setJointConstraints reference_host "revolute"
       (-1.5)%float tiny_upper 0%float 0%float None None (scene_of sample_link))))
     = ("revolute", Some [false; true; false]).
Proof.
  assert (H1 : phobostype (link (scene_of sample_link)) = "link") by reflexivity.
  split; [exact H1|]. split.
  - exact (@revolute_needs_nonzero_bound reference_host 0%float 0%float 0%float 0%float
             None None (scene_of sample_link) H1).
  - exact (@revolute_needs_nonzero_bound reference_host (-1.5)%float tiny_upper
             0%float 0%float None None (scene_of sample_link) H1).
Defined.

(** X4. [getJointConstraints] on a revolute joint gives the bone's axis
    and the bounds as the rotation constraint holds them: in single
    precision and within [-1000, 1000].  When both are held as zero it
    gives no axis and no limits. *)
Theorem revolute_limits_read_back `{Host} (lo up spring damping : float)
    (eff spd : option PyDict) (s : Scene) :
  phobostype (link s) = "link" ->
  getJointConstraints
    (link (snd (setJointConstraints "revolute" lo up spring damping eff spd s)))
  = if py_ne (stored "LIMIT_ROTATION" lo) 0%float
       || py_ne (stored "LIMIT_ROTATION" up) 0%float
    then Return (Some (bone_axis (link s)),
                 Some [clamp (-1000)%float 1000%float (float32 lo);
                       clamp (-1000)%float 1000%float (float32 up)])
    else Return (None, None).
Proof.
  intros Hp.
  pose proof (built_stack "revolute" lo up spring damping eff spd s Hp) as Hcs.
  destruct (getJointConstraints_built _ _ _ _ _ Hcs) as (Hrev & _).
  rewrite (Hrev eq_refl).
  destruct (setJointConstraints_link_frame "revolute" lo up spring damping eff spd s Hp)
    as (_ & _ & _ & Hf & _).
  destruct (typed_scene_link "revolute" lo up spring damping s) as (Hl & _).
  cbv zeta in Hl. unfold bone_axis.
  replace (bone_tail (link (snd (setJointConstraints "revolute" lo up spring damping eff spd s))))
    with (bone_tail (link s)) by congruence.
  replace (bone_head (link (snd (setJointConstraints "revolute" lo up spring damping eff spd s))))
    with (bone_head (link s)) by congruence.
  reflexivity.
Qed.

Lemma built_link_fields `{Host} t lo up spring damping eff spd s :
  phobostype (link s) = "link" ->
  let o' := link (snd (setJointConstraints t lo up spring damping eff spd s)) in
  (name o', phobostype o', matrix_basis o', bone_head o', bone_tail o')
  = (name (link s), phobostype (link s), matrix_basis (link s), bone_head (link s),
     bone_tail (link s)).
Proof.
  intros Hp o'. subst o'.
  destruct (setJointConstraints_link_frame t lo up spring damping eff spd s Hp)
    as (_ & _ & _ & Hf & _).
  destruct (typed_scene_link t lo up spring damping s) as (Hl & _).
  cbv zeta in Hl. congruence.
Qed.

Lemma built_bone_axis `{Host} t lo up spring damping eff spd s :
  phobostype (link s) = "link" ->
  bone_axis (link (snd (setJointConstraints t lo up spring damping eff spd s)))
  = bone_axis (link s).
Proof.
  intros Hp. pose proof (built_link_fields t lo up spring damping eff spd s Hp) as Hf.
  cbv zeta in Hf. unfold bone_axis. congruence.
Qed.

(** X5. [getJointConstraints] on a prismatic joint gives the bone's axis
    and the bounds as the location constraint holds them, in single
    precision; a joint built with equal bounds reads back as the bounds
    (0, 0), and one whose different bounds are held as the same value is
    read as fixed, without axis and limits. *)
Theorem prismatic_limits_read_back `{Host} (lo up spring damping : float)
    (eff spd : option PyDict) (s : Scene) :
  phobostype (link s) = "link" ->
  getJointConstraints
    (link (snd (setJointConstraints "prismatic" lo up spring damping eff spd s)))
  = if py_eq lo up then Return (Some (bone_axis (link s)), Some [0%float; 0%float])
    else if py_eq (float32 lo) (float32 up) then Return (None, None)
    else Return (Some (bone_axis (link s)), Some [float32 lo; float32 up]).
Proof.
  intros Hp.
  pose proof (built_stack "prismatic" lo up spring damping eff spd s Hp) as Hcs.
  destruct (getJointConstraints_built _ _ _ _ _ Hcs) as (_ & _ & Hpri & _).
  rewrite (Hpri eq_refl), built_bone_axis by exact Hp.
  unfold bounds_kept. cbn [String.eqb Ascii.eqb Bool.eqb].
  change (stored "LIMIT_LOCATION" lo) with (float32 lo).
  change (stored "LIMIT_LOCATION" up) with (float32 up).
  by destruct (py_eq lo up), (py_eq (float32 lo) (float32 up)).
Qed.

(** X5 at the bounds 5 and 5, at 0.1 and 2.5, and at 1.0 and
    1.0000000001. *)
Lemma prismatic_limits_read_back_witness :
  phobostype (link (scene_of sample_link)) = "link"
  /\ @getJointConstraints reference_host
       (link (snd (@setJointConstraints reference_host "prismatic" 5%float 5%float
          0%float 0%float None None (scene_of sample_link))))
     = Return (Some (0, 1, 0)%float, Some [0%float; 0%float])
  /\ @getJointConstraints reference_host
       (link (snd (@setJointConstraints reference_host "prismatic" tenth 2.5%float
          0%float 0%float None None (scene_of sample_link))))
     = Return (Some (0, 1, 0)%float, Some [tenth32; 2.5%float])
  /\ @getJointConstraints reference_host
       (link (snd (@setJointConstraints reference_host "prismatic" 1%float just_above_one
          0%float 0%float None None (scene_of sample_link))))
     = Return (None, None).
Proof.
  assert (H1 : phobostype (link (scene_of sample_link)) = "link") by reflexivity.
  split; [exact H1|]. split; [|split].
  - exact (@prismatic_limits_read_back reference_host 5%float 5%float 0%float 0%float
             None None (scene_of sample_link) H1).
  - exact (@prismatic_limits_read_back reference_host tenth 2.5%float 0%float 0%float
             None None (scene_of sample_link) H1).
  - exact (@prismatic_limits_read_back reference_host 1%float just_above_one
             0%float 0%float None None (scene_of sample_link) H1).
Defined.

(** X4 at the bounds -1.57 and 2000: they read back as
    -1.5700000524520874 and 1000. *)
Lemma revolute_limits_read_back_witness :
  phobostype (link (scene_of sample_link)) = "link"
  /\ @getJointConstraints reference_host
       (link (snd (@setJointConstraints reference_host "revolute" (- quarter_turn)%float
          2000%float 0%float 0%float None None (scene_of sample_link))))
     = Return (Some (0, 1, 0)%float, Some [(- quarter_turn32)%float; 1000%float]).
Proof.
  assert (H1 : phobostype (link (scene_of sample_link)) = "link") by reflexivity.
  split; [exact H1|].
  exact (@revolute_limits_read_back reference_host (- quarter_turn)%float 2000%float
           0%float 0%float None None (scene_of sample_link) H1).
Defined.

(** X6. [getJointConstraints] gives a continuous joint the bone's axis
    and no limits, a fixed joint neither axis nor limits, and a planar
    joint the axis (0, 1, 0) with the four bounds of X and Z, all zero. *)
Theorem unlimited_types_read_back `{Host} (t : string) (lo up spring damping : float)
    (eff spd : option PyDict) (s : Scene) :
  In t ["continuous"; "fixed"; "planar"] ->
  phobostype (link s) = "link" ->
  getJointConstraints (link (snd (setJointConstraints t lo up spring damping eff spd s)))
  = if String.eqb t "continuous" then Return (Some (bone_axis (link s)), None)
    else if String.eqb t "fixed" then Return (None, None)
    else Return (Some (0%float, 1%float, 0%float),
                 Some [0%float; 0%float; 0%float; 0%float]).
Proof.
  intros Ht Hp.
  pose proof (built_stack t lo up spring damping eff spd s Hp) as Hcs.
  destruct (getJointConstraints_built _ _ _ _ _ Hcs) as (_ & Hcon & _ & Hfix & Hpla).
  cbn [In] in Ht. destruct Ht as [<-|[<-|[<-|[]]]]; cbn [String.eqb Ascii.eqb Bool.eqb].
  - rewrite (Hcon eq_refl). by rewrite built_bone_axis.
  - exact (Hfix eq_refl).
  - exact (Hpla eq_refl).
Qed.

Lemma unlimited_types_read_back_witness :
  In "planar" ["continuous"; "fixed"; "planar"]
  /\ phobostype (link (scene_of sample_link)) = "link"
  /\ @getJointConstraints reference_host
       (link (snd (@setJointConstraints reference_host "planar" (-1.5)%float 1.5%float
          0%float 0%float None None (scene_of sample_link))))
     = Return (Some (0%float, 1%float, 0%float),
               Some [0%float; 0%float; 0%float; 0%float]).
Proof.
  assert (H1 : In "planar" ["continuous"; "fixed"; "planar"]) by (cbn; auto).
  assert (H2 : phobostype (link (scene_of sample_link)) = "link") by reflexivity.
  split; [exact H1|]. split; [exact H2|].
  exact (@unlimited_types_read_back reference_host "planar" (-1.5)%float 1.5%float
           0%float 0%float None None (scene_of sample_link) H1 H2).
Defined.

(** ** Spring and damping *)

Lemma not_approximation_key k :
  In k ("joint/type" :: dynamics_keys) -> ~ In k approximation_keys.
Proof.
  intros Hk Ha. cbn in Hk, Ha.
  repeat (destruct Hk as [<-|Hk]; [repeat (destruct Ha as [Ha|Ha]; [discriminate Ha|]); exact Ha|]).
  exact Hk.
Qed.

(** X7. For a revolute or prismatic joint with a nonzero spring or
    damping, the four dynamics properties are written.  With a rigid
    body world the spring constraint gets the two values; without one an
    error is logged, the rigid body constraint stays as it was, and the
    properties are written all the same. *)
Theorem dynamics_metadata_written `{Host} (t : string) (lo up spring damping : float)
    (eff spd : option PyDict) (s : Scene) :
  phobostype (link s) = "link" ->
  In t ["revolute"; "prismatic"] ->
  truthy spring || truthy damping = true ->
  let s' := snd (setJointConstraints t lo up spring damping eff spd s) in
  props (link s') !! "joint/dynamics/springStiffness" = Some (PyFloat spring)
  /\ props (link s') !! "joint/dynamics/springDamping" = Some (PyFloat damping)
  /\ props (link s') !! "joint/dynamics/spring_const_constraint_axis1" = Some (PyFloat spring)
  /\ props (link s') !! "joint/dynamics/damping_const_constraint_axis1"
     = Some (PyFloat damping)
  /\ if rigid_body_world s
     then rigid_body_constraint (link s') = Some (spring, damping)
     else rigid_body_constraint (link s') = rigid_body_constraint (link s)
          /\ In ("No Blender Rigid Body World present, only adding custom properties.",
                 "ERROR") (logged s').
Proof.
  intros Hp Ht Hdyn s'. subst s'.
  pose proof (setJointConstraints_link_frame t lo up spring damping eff spd s Hp) as Hfr.
  destruct Hfr as (_ & _ & Hlog & Hf & Hpr).
  assert (Hw : wants_dynamics t spring damping = true).
  { unfold wants_dynamics. rewrite Hdyn.
    cbn [In] in Ht. by destruct Ht as [<-|[<-|[]]]. }
  rewrite !Hpr by (apply not_approximation_key; cbn; auto 10).
  unfold typed_scene in *. rewrite Hw in *. cbn [andb] in *.
  destruct (rigid_body_world s); cbn [negb] in *.
  - repeat split; try (cbn; by (rewrite lookup_insert_ne by discriminate; unfold dynamics_props;
        repeat (first [rewrite lookup_insert_eq | rewrite lookup_insert_ne by discriminate]))).
    cbn in Hf. congruence.
  - repeat split; try (cbn; by (rewrite lookup_insert_ne by discriminate; unfold dynamics_props;
        repeat (first [rewrite lookup_insert_eq | rewrite lookup_insert_ne by discriminate]))).
    + cbn in Hf. congruence.
    + destruct Hlog as [l ->]. cbn [logged]. rewrite !in_app_iff. cbn [In]. auto 10.
Qed.

Lemma dynamics_metadata_written_witness :
  phobostype (link (scene_of sample_link)) = "link"
  /\ In "prismatic" ["revolute"; "prismatic"]
  /\ truthy 0%float || truthy 2%float = true
  /\ (props (link (snd (@setJointConstraints reference_host "prismatic" 0%float 1%float
        0%float 2%float None None (scene_of sample_link))))
        !! "joint/dynamics/springStiffness" = Some (PyFloat 0%float)
      /\ props (link (snd (@setJointConstraints reference_host "prismatic" 0%float 1%float
           0%float 2%float None None (scene_of sample_link))))
           !! "joint/dynamics/springDamping" = Some (PyFloat 2%float)
      /\ props (link (snd (@setJointConstraints reference_host "prismatic" 0%float 1%float
           0%float 2%float None None (scene_of sample_link))))
           !! "joint/dynamics/spring_const_constraint_axis1" = Some (PyFloat 0%float)
      /\ props (link (snd (@setJointConstraints reference_host "prismatic" 0%float 1%float
           0%float 2%float None None (scene_of sample_link))))
           !! "joint/dynamics/damping_const_constraint_axis1" = Some (PyFloat 2%float)
      /\ rigid_body_constraint
           (link (snd (@setJointConstraints reference_host "prismatic" 0%float 1%float
              0%float 2%float None None (scene_of sample_link)))) = None
         /\ In ("No Blender Rigid Body World present, only adding custom properties.",
                "ERROR")
              (logged (snd (@setJointConstraints reference_host "prismatic" 0%float 1%float
                 0%float 2%float None None (scene_of sample_link))))).
Proof.
  assert (H1 : phobostype (link (scene_of sample_link)) = "link") by reflexivity.
  assert (H2 : In "prismatic" ["revolute"; "prismatic"]) by (cbn; auto).
  assert (H3 : truthy 0%float || truthy 2%float = true) by reflexivity.
  split; [exact H1|]. split; [exact H2|]. split; [exact H3|].
  exact (@dynamics_metadata_written reference_host "prismatic" 0%float 1%float
           0%float 2%float None None (scene_of sample_link) H1 H2 H3).
Defined.

(** X8. For any other joint type, or with spring and damping both zero,
    [setJointConstraints] leaves the four dynamics properties and the
    rigid body constraint as they were, and logs nothing about a rigid
    body world. *)
Theorem dynamics_untouched `{Host} (t : string) (lo up spring damping : float)
    (eff spd : option PyDict) (s : Scene) :
  str_in t ["revolute"; "prismatic"] && (truthy spring || truthy damping) = false ->
  let s' := snd (setJointConstraints t lo up spring damping eff spd s) in
  (forall k, In k dynamics_keys -> props (link s') !! k = props (link s) !! k)
  /\ rigid_body_constraint (link s') = rigid_body_constraint (link s).
Proof.
  intros Hw s'. subst s'.
  destruct (String.eqb_spec (phobostype (link s)) "link") as [Hp|Hp];
    [|by rewrite setJointConstraints_not_link_run].
  pose proof (setJointConstraints_link_frame t lo up spring damping eff spd s Hp) as Hfr.
  destruct Hfr as (_ & _ & _ & Hf & Hpr).
  unfold typed_scene, wants_dynamics in *. rewrite Hw in *. cbn in Hf. split.
  - intros k Hk. rewrite Hpr by (apply not_approximation_key; cbn; auto).
    cbn. apply lookup_insert_ne. cbn in Hk.
    repeat (destruct Hk as [<-|Hk]; [discriminate|]). destruct Hk.
  - congruence.
Qed.

Lemma dynamics_untouched_witness :
  str_in "continuous" ["revolute"; "prismatic"] && (truthy 3%float || truthy 2%float) = false
  /\ (forall k, In k dynamics_keys ->
        props (link (snd (@setJointConstraints reference_host "continuous" 0%float 1%float
          3%float 2%float None None (scene_of sample_link)))) !! k
        = props (link (scene_of sample_link)) !! k)
     /\ rigid_body_constraint
          (link (snd (@setJointConstraints reference_host "continuous" 0%float 1%float
             3%float 2%float None None (scene_of sample_link))))
        = rigid_body_constraint (link (scene_of sample_link)).
Proof.
  assert (H1 : str_in "continuous" ["revolute"; "prismatic"]
               && (truthy 3%float || truthy 2%float) = false) by reflexivity.
  split; [exact H1|].
  exact (@dynamics_untouched reference_host "continuous" 0%float 1%float
           3%float 2%float None None (scene_of sample_link) H1).
Defined.

(** ** Floating and unknown joint types *)

(** X9. A joint type that has no builder (floating, or any name the
    function does not know) gets no constraint: the stack is what the
    removal loop left.  The type is stored under joint/type as given,
    and a name other than 'floating' is reported by a warning. *)
Theorem no_builder_no_constraint `{Host} (t : string) (lo up spring damping : float)
    (eff spd : option PyDict) (s : Scene) :
  phobostype (link s) = "link" ->
  ~ In t ["revolute"; "continuous"; "prismatic"; "fixed"; "planar"] ->
  let s' := snd (setJointConstraints t lo up spring damping eff spd s) in
  constraints (link s') = remove_each (constraints (link s))
  /\ props (link s') !! "joint/type" = Some (PyStr t)
  /\ (t <> "floating" ->
      In ("Unknown joint type for joint " +:+ name (link s) +:+ ". Behaviour like floating.",
          "WARNING") (logged s')).
Proof.
  intros Hp Ht s'. subst s'.
  assert (Hb : built_constraints t lo up = []).
  { unfold built_constraints. cbn [In] in Ht.
    repeat match goal with
           | |- context [String.eqb t ?n] =>
               destruct (String.eqb_spec t n) as [Heq|?];
               [try (exfalso; apply Ht; rewrite Heq; solve [auto 10])|]
           end; reflexivity. }
  split; [by rewrite built_stack, Hb, app_nil_r|].
  pose proof (setJointConstraints_link_frame t lo up spring damping eff spd s Hp) as Hfr.
  destruct (typed_scene_link t lo up spring damping s) as (_ & _ & Hty).
  cbv zeta in Hty. split.
  - destruct Hfr as (_ & _ & _ & _ & Hpr).
    rewrite Hpr by (apply not_approximation_key; cbn; auto). exact Hty.
  - intros Hfl. eapply frame_except_logged_in; [exact Hfr|].
    unfold typed_scene. cbn [logged].
    assert (Hk : known_type t = false).
    { unfold known_type. cbn [str_in existsb In] in *.
      repeat match goal with
             | |- context [String.eqb t ?n] =>
                 destruct (String.eqb_spec t n) as [Heq|?];
                 [exfalso; first [by apply Hfl | apply Ht; rewrite Heq; solve [auto 10]]|]
             end; reflexivity. }
    rewrite Hk, !in_app_iff. cbn [In]. auto.
Qed.

Lemma no_builder_no_constraint_witness :
  phobostype (link (scene_of sample_link)) = "link"
  /\ ~ In "ball" ["revolute"; "continuous"; "prismatic"; "fixed"; "planar"]
  /\ constraints (link (snd (@setJointConstraints reference_host "ball" 0%float 1%float
       0%float 0%float None None (scene_of sample_link))))
     = @remove_each reference_host (constraints (link (scene_of sample_link)))
     /\ props (link (snd (@setJointConstraints reference_host "ball" 0%float 1%float
          0%float 0%float None None (scene_of sample_link)))) !! "joint/type"
        = Some (PyStr "ball")
     /\ ("ball" <> "floating" ->
         In ("Unknown joint type for joint " +:+ name (link (scene_of sample_link))
               +:+ ". Behaviour like floating.", "WARNING")
           (logged (snd (@setJointConstraints reference_host "ball" 0%float 1%float
              0%float 0%float None None (scene_of sample_link))))).
Proof.
  assert (H1 : phobostype (link (scene_of sample_link)) = "link") by reflexivity.
  assert (H2 : ~ In "ball" ["revolute"; "continuous"; "prismatic"; "fixed"; "planar"]).
  { cbn. intros Hin. repeat (destruct Hin as [Hin|Hin]; [discriminate Hin|]). exact Hin. }
  split; [exact H1|]. split; [exact H2|].
  exact (@no_builder_no_constraint reference_host "ball" 0%float 1%float
           0%float 0%float None None (scene_of sample_link) H1 H2).
Defined.

(** ** Approximations *)

Lemma in_three t :
  In t ["revolute"; "continuous"; "prismatic"] ->
  str_in t ["revolute"; "continuous"; "prismatic"] = true.
Proof. cbn [In]. by intros [<-|[<-|[<-|[]]]]. Qed.

Lemma not_in_three t :
  ~ In t ["revolute"; "continuous"; "prismatic"] ->
  str_in t ["revolute"; "continuous"; "prismatic"] = false.
Proof.
  intros Ht. cbn [str_in existsb In] in *.
  repeat match goal with
         | |- context [String.eqb t ?n] =>
             destruct (String.eqb_spec t n) as [Heq|?];
             [exfalso; apply Ht; rewrite Heq; solve [auto 10]|]
         end; reflexivity.
Qed.

(** X10. For fixed, floating, planar and unknown joint types the
    approximations are not looked at: the call does what it does without
    them, also when a dictionary is incomplete. *)
Theorem approximations_ignored `{Host} (t : string) (lo up spring damping : float)
    (eff spd : option PyDict) (s : Scene) :
  ~ In t ["revolute"; "continuous"; "prismatic"] ->
  setJointConstraints t lo up spring damping eff spd s
  = setJointConstraints t lo up spring damping None None s.
Proof.
  intros Ht. apply not_in_three in Ht.
  destruct (String.eqb_spec (phobostype (link s)) "link") as [Hp|Hp].
  - rewrite !setJointConstraints_link_general by exact Hp. by apply finish_joint_ignores.
  - by rewrite !setJointConstraints_not_link_run.
Qed.

Lemma approximations_ignored_witness :
  ~ In "fixed" ["revolute"; "continuous"; "prismatic"]
  /\ @setJointConstraints reference_host "fixed" 0%float 1%float 0%float 0%float
       (Some poly_without_coefficients) (Some commented_approximation)
       (scene_of sample_link)
     = @setJointConstraints reference_host "fixed" 0%float 1%float 0%float 0%float
         None None (scene_of sample_link).
Proof.
  assert (H1 : ~ In "fixed" ["revolute"; "continuous"; "prismatic"]).
  { cbn. intros Hin. repeat (destruct Hin as [Hin|Hin]; [discriminate Hin|]). exact Hin. }
  split; [exact H1|].
  exact (@approximations_ignored reference_host "fixed" 0%float 1%float 0%float 0%float
           _ _ (scene_of sample_link) H1).
Defined.

Lemma dict_get_truthy d k v : dict_get d k = Some v -> dict_truthy (Some d) = true.
Proof. by destruct d. Qed.

Lemma effort_props_before `{Host} t lo up spring damping s k :
  In k approximation_keys ->
  props (link (typed_scene t lo up spring damping s)) !! k = props (link s) !! k.
Proof.
  intros Hk. unfold typed_scene. cbn in Hk.
  destruct (wants_dynamics t spring damping), (rigid_body_world s); cbn;
    unfold dynamics_props;
    repeat (destruct Hk as [<-|Hk]; [by rewrite !lookup_insert_ne by discriminate|]);
    destruct Hk.
Qed.

(** X11. A dictionary for the maximum effort with exactly the entries
    'function' and 'coefficients' is stored under
    joint/maxeffort_approximation and joint/maxeffort_coefficients,
    whatever is passed for the maximum speed. *)
Theorem effort_approximation_stored `{Host} (t : string) (lo up spring damping : float)
    (d : PyDict) (f c : PyVal) (spd : option PyDict) (s : Scene) :
  phobostype (link s) = "link" ->
  In t ["revolute"; "continuous"; "prismatic"] ->
  allowed_keys d = true ->
  dict_get d "function" = Some f ->
  dict_get d "coefficients" = Some c ->
  let s' := snd (setJointConstraints t lo up spring damping (Some d) spd s) in
  props (link s') !! "joint/maxeffort_approximation" = Some f
  /\ props (link s') !! "joint/maxeffort_coefficients" = Some c.
Proof.
  intros Hp Ht Hall Hf Hc s'. subst s'.
  rewrite setJointConstraints_link_general by exact Hp.
  destruct (finish_joint_after_effort t (name (link s)) (Some d) spd
              (typed_scene t lo up spring damping s) (in_three t Ht)) as [Hfr _].
  cbv zeta in Hfr. destruct Hfr as (_ & _ & _ & _ & Hpr).
  rewrite !Hpr by (cbn; intros [Hk|[Hk|[]]]; discriminate Hk).
  rewrite store_approximation_run, (dict_get_truthy _ _ _ Hf).
  change (default [] (Some d)) with d. unfold allowed_keys in Hall. rewrite Hall, Hf, Hc. cbn.
  split; [by rewrite lookup_insert_ne, lookup_insert_eq by discriminate|
          by rewrite lookup_insert_eq].
Qed.

Lemma effort_approximation_stored_witness :
  phobostype (link (scene_of sample_link)) = "link"
  /\ In "revolute" ["revolute"; "continuous"; "prismatic"]
  /\ allowed_keys complete_approximation = true
  /\ dict_get complete_approximation "function" = Some (PyStr "poly")
  /\ dict_get complete_approximation "coefficients" = Some (PyList [1; 2]%float)
  /\ props (link (snd (@setJointConstraints reference_host "revolute" 0%float 1%float
       0%float 0%float (Some complete_approximation) (Some poly_without_coefficients)
       (scene_of sample_link)))) !! "joint/maxeffort_approximation" = Some (PyStr "poly")
     /\ props (link (snd (@setJointConstraints reference_host "revolute" 0%float 1%float
          0%float 0%float (Some complete_approximation) (Some poly_without_coefficients)
          (scene_of sample_link)))) !! "joint/maxeffort_coefficients"
        = Some (PyList [1; 2]%float).
Proof.
  assert (H1 : phobostype (link (scene_of sample_link)) = "link") by reflexivity.
  assert (H2 : In "revolute" ["revolute"; "continuous"; "prismatic"]) by (cbn; auto).
  assert (H3 : allowed_keys complete_approximation = true) by reflexivity.
  assert (H4 : dict_get complete_approximation "function" = Some (PyStr "poly"))
    by reflexivity.
  assert (H5 : dict_get complete_approximation "coefficients" = Some (PyList [1; 2]%float))
    by reflexivity.
  split; [exact H1|]. split; [exact H2|]. split; [exact H3|].
  split; [exact H4|]. split; [exact H5|].
  exact (@effort_approximation_stored reference_host "revolute" 0%float 1%float
           0%float 0%float _ _ _ (Some poly_without_coefficients)
           (scene_of sample_link) H1 H2 H3 H4 H5).
Defined.

(** X12. A dictionary for the maximum effort with a key other than
    'function' and 'coefficients' is reported as ill-defined and none of
    it is stored, even when both entries are present. *)
Theorem foreign_key_rejected `{Host} (t : string) (lo up spring damping : float)
    (d : PyDict) (spd : option PyDict) (s : Scene) :
  phobostype (link s) = "link" ->
  In t ["revolute"; "continuous"; "prismatic"] ->
  allowed_keys d = false ->
  let s' := snd (setJointConstraints t lo up spring damping (Some d) spd s) in
  In ("Approximation for max effort ill-defined in joint object " +:+ name (link s) +:+ ".",
      "ERROR") (logged s')
  /\ props (link s') !! "joint/maxeffort_approximation"
     = props (link s) !! "joint/maxeffort_approximation"
  /\ props (link s') !! "joint/maxeffort_coefficients"
     = props (link s) !! "joint/maxeffort_coefficients".
Proof.
  intros Hp Ht Hall s'. subst s'.
  rewrite setJointConstraints_link_general by exact Hp.
  destruct (finish_joint_after_effort t (name (link s)) (Some d) spd
              (typed_scene t lo up spring damping s) (in_three t Ht)) as [Hfr _].
  cbv zeta in Hfr.
  assert (Hd : dict_truthy (Some d) = true) by (destruct d; [discriminate Hall|reflexivity]).
  rewrite store_approximation_run, Hd in Hfr. change (default [] (Some d)) with d in Hfr.
  unfold allowed_keys in Hall. rewrite Hall in Hfr. cbn [snd] in Hfr.
  split.
  - eapply frame_except_logged_in; [exact Hfr|].
    unfold put_logged. cbn [logged]. rewrite in_app_iff. right. by left.
  - destruct Hfr as (_ & _ & _ & _ & Hpr).
    rewrite !Hpr by (cbn; intros [Hk|[Hk|[]]]; discriminate Hk).
    cbn [put_logged link]. split; apply effort_props_before; cbn; auto.
Qed.

Lemma foreign_key_rejected_witness :
  phobostype (link (scene_of sample_link)) = "link"
  /\ In "revolute" ["revolute"; "continuous"; "prismatic"]
  /\ allowed_keys commented_approximation = false
  /\ In ("Approximation for max effort ill-defined in joint object "
           +:+ name (link (scene_of sample_link)) +:+ ".", "ERROR")
       (logged (snd (@setJointConstraints reference_host "revolute" 0%float 1%float
          0%float 0%float (Some commented_approximation) None (scene_of sample_link))))
     /\ props (link (snd (@setJointConstraints reference_host "revolute" 0%float 1%float
          0%float 0%float (Some commented_approximation) None (scene_of sample_link))))
          !! "joint/maxeffort_approximation"
        = props (link (scene_of sample_link)) !! "joint/maxeffort_approximation"
     /\ props (link (snd (@setJointConstraints reference_host "revolute" 0%float 1%float
          0%float 0%float (Some commented_approximation) None (scene_of sample_link))))
          !! "joint/maxeffort_coefficients"
        = props (link (scene_of sample_link)) !! "joint/maxeffort_coefficients".
Proof.
  assert (H1 : phobostype (link (scene_of sample_link)) = "link") by reflexivity.
  assert (H2 : In "revolute" ["revolute"; "continuous"; "prismatic"]) by (cbn; auto).
  assert (H3 : allowed_keys commented_approximation = false) by reflexivity.
  split; [exact H1|]. split; [exact H2|]. split; [exact H3|].
  exact (@foreign_key_rejected reference_host "revolute" 0%float 1%float
           0%float 0%float _ None (scene_of sample_link) H1 H2 H3).
Defined.

(** X13. A dictionary for the maximum effort that passes the key test but
    lacks an entry makes [setJointConstraints] raise [KeyError] for the
    first missing entry.  The constraints and joint/type are written by
    then, and 'function' is stored if it is the entry present; the
    maximum speed is not looked at and no resource object is assigned. *)
Theorem incomplete_effort_raises `{Host} (t : string) (lo up spring damping : float)
    (d : PyDict) (spd : option PyDict) (s : Scene) :
  phobostype (link s) = "link" ->
  In t ["revolute"; "continuous"; "prismatic"] ->
  d <> [] ->
  allowed_keys d = true ->
  dict_get d "function" = None \/ dict_get d "coefficients" = None ->
  let r := setJointConstraints t lo up spring damping (Some d) spd s in
  fst r = Raise (KeyError match dict_get d "function" with
                          | Some _ => "coefficients"
                          | None => "function"
                          end)
  /\ props (link (snd r)) !! "joint/maxeffort_approximation"
     = match dict_get d "function" with
       | Some f => Some f
       | None => props (link s) !! "joint/maxeffort_approximation"
       end
  /\ (forall k, In k ("joint/maxeffort_coefficients" :: approximation_keys_of "maxspeed") ->
      props (link (snd r)) !! k = props (link s) !! k)
  /\ props (link (snd r)) !! "joint/type" = Some (PyStr t)
  /\ custom_shape (link (snd r)) = custom_shape (link s).
Proof.
  intros Hp Ht Hne Hall Hmiss r. subst r.
  rewrite setJointConstraints_link_general by exact Hp.
  destruct (finish_joint_after_effort t (name (link s)) (Some d) spd
              (typed_scene t lo up spring damping s) (in_three t Ht)) as [_ Hraise].
  cbv zeta in Hraise.
  assert (Hd : dict_truthy (Some d) = true) by (by destruct d).
  destruct (typed_scene_link t lo up spring damping s) as (Hl & _ & Hty). cbv zeta in Hl, Hty.
  rewrite store_approximation_run, Hd in Hraise. change (default [] (Some d)) with d in Hraise.
  unfold allowed_keys in Hall. rewrite Hall in Hraise.
  destruct (dict_get d "function") as [f|] eqn:Hf.
  - destruct Hmiss as [Hmiss|Hc]; [discriminate Hmiss|]. rewrite Hc in Hraise.
    cbv zeta in Hraise. rewrite (Hraise _ eq_refl). cbn [fst snd put_props link].
    split; [reflexivity|]. split; [cbn; by rewrite lookup_insert_eq|]. split.
    + intros k Hk. cbn [props with_props].
      rewrite lookup_insert_ne
        by (intros <-; cbn in Hk; repeat (destruct Hk as [Hk|Hk]; [discriminate Hk|]); exact Hk).
      apply effort_props_before. cbn in Hk |- *. tauto.
    + split; [cbn [props with_props]; by rewrite lookup_insert_ne by discriminate|].
      cbn [custom_shape with_props]. congruence.
  - rewrite (Hraise _ eq_refl). cbn [fst snd].
    split; [reflexivity|]. split; [apply effort_props_before; cbn; auto|]. split.
    + intros k Hk. apply effort_props_before. cbn in Hk |- *. tauto.
    + split; [exact Hty|congruence].
Qed.

Lemma incomplete_effort_raises_witness :
  phobostype (link (scene_of sample_link)) = "link"
  /\ In "prismatic" ["revolute"; "continuous"; "prismatic"]
  /\ poly_without_coefficients <> []
  /\ allowed_keys poly_without_coefficients = true
  /\ (dict_get poly_without_coefficients "function" = None
      \/ dict_get poly_without_coefficients "coefficients" = None)
  /\ fst (@setJointConstraints reference_host "prismatic" 0%float 1%float 0%float 0%float
       (Some poly_without_coefficients) (Some complete_approximation)
       (scene_of sample_link))
     = Raise (KeyError match dict_get poly_without_coefficients "function" with
                       | Some _ => "coefficients"
                       | None => "function"
                       end)
     /\ props (link (snd (@setJointConstraints reference_host "prismatic" 0%float 1%float
          0%float 0%float (Some poly_without_coefficients) (Some complete_approximation)
          (scene_of sample_link)))) !! "joint/maxeffort_approximation"
        = match dict_get poly_without_coefficients "function" with
          | Some f => Some f
          | None => props (link (scene_of sample_link)) !! "joint/maxeffort_approximation"
          end
     /\ (forall k,
           In k ("joint/maxeffort_coefficients" :: approximation_keys_of "maxspeed") ->
           props (link (snd (@setJointConstraints reference_host "prismatic" 0%float 1%float
             0%float 0%float (Some poly_without_coefficients) (Some complete_approximation)
             (scene_of sample_link)))) !! k
           = props (link (scene_of sample_link)) !! k)
     /\ props (link (snd (@setJointConstraints reference_host "prismatic" 0%float 1%float
          0%float 0%float (Some poly_without_coefficients) (Some complete_approximation)
          (scene_of sample_link)))) !! "joint/type" = Some (PyStr "prismatic")
     /\ custom_shape (link (snd (@setJointConstraints reference_host "prismatic"
          0%float 1%float 0%float 0%float (Some poly_without_coefficients)
          (Some complete_approximation) (scene_of sample_link))))
        = custom_shape (link (scene_of sample_link)).
Proof.
  assert (H1 : phobostype (link (scene_of sample_link)) = "link") by reflexivity.
  assert (H2 : In "prismatic" ["revolute"; "continuous"; "prismatic"]) by (cbn; auto).
  assert (H3 : poly_without_coefficients <> []) by discriminate.
  assert (H4 : allowed_keys poly_without_coefficients = true) by reflexivity.
  assert (H5 : dict_get poly_without_coefficients "function" = None
               \/ dict_get poly_without_coefficients "coefficients" = None)
    by (right; reflexivity).
  split; [exact H1|]. split; [exact H2|]. split; [exact H3|].
  split; [exact H4|]. split; [exact H5|].
  exact (@incomplete_effort_raises reference_host "prismatic" 0%float 1%float
           0%float 0%float _ (Some complete_approximation)
           (scene_of sample_link) H1 H2 H3 H4 H5).
Defined.

(** X14. When the maximum effort and the maximum speed both come with
    exactly the entries 'function' and 'coefficients', the call returns
    normally and the speed entries are stored under
    joint/maxspeed_approximation and joint/maxspeed_coefficients. *)
Theorem complete_approximations_stored `{Host} (t : string) (lo up spring damping : float)
    (de ds : PyDict) (fe ce fs cs : PyVal) (s : Scene) :
  phobostype (link s) = "link" ->
  In t ["revolute"; "continuous"; "prismatic"] ->
  allowed_keys de = true ->
  dict_get de "function" = Some fe ->
  dict_get de "coefficients" = Some ce ->
  allowed_keys ds = true ->
  dict_get ds "function" = Some fs ->
  dict_get ds "coefficients" = Some cs ->
  let r := setJointConstraints t lo up spring damping (Some de) (Some ds) s in
  fst r = Return tt
  /\ props (link (snd r)) !! "joint/maxspeed_approximation" = Some fs
  /\ props (link (snd r)) !! "joint/maxspeed_coefficients" = Some cs.
Proof.
  intros Hp Ht Hae Hfe Hce Has Hfs Hcs r. subst r.
  rewrite setJointConstraints_link_general by exact Hp.
  unfold finish_joint. rewrite (in_three t Ht).
  unfold allowed_keys in Hae, Has.
  rewrite bind_assoc, bind_snd, store_approximation_run, (dict_get_truthy _ _ _ Hfe).
  change (default [] (Some de)) with de. rewrite Hae, Hfe, Hce. cbv zeta. cbn [fst snd].
  rewrite bind_snd, store_approximation_run, (dict_get_truthy _ _ _ Hfs).
  change (default [] (Some ds)) with ds. rewrite Has, Hfs, Hcs. cbv zeta. cbn [fst snd].
  destruct (getResource t) as [res|]; cbn [obj_truthy].
  - rewrite (bind_run _ _ _ _ _ (log_run _ _ _)), modify_link_run.
    cbn. split; [reflexivity|].
    split; [by rewrite lookup_insert_ne, lookup_insert_eq by discriminate|
            by rewrite lookup_insert_eq].
  - rewrite mret_run. cbn. split; [reflexivity|].
    split; [by rewrite lookup_insert_ne, lookup_insert_eq by discriminate|
            by rewrite lookup_insert_eq].
Qed.

Lemma complete_approximations_stored_witness :
  phobostype (link (scene_of sample_link)) = "link"
  /\ In "continuous" ["revolute"; "continuous"; "prismatic"]
  /\ allowed_keys complete_approximation = true
  /\ dict_get complete_approximation "function" = Some (PyStr "poly")
  /\ dict_get complete_approximation "coefficients" = Some (PyList [1; 2]%float)
  /\ fst (@setJointConstraints reference_host "continuous" 0%float 1%float 0%float 0%float
       (Some complete_approximation) (Some complete_approximation) (scene_of sample_link))
     = Return tt
     /\ props (link (snd (@setJointConstraints reference_host "continuous" 0%float 1%float
          0%float 0%float (Some complete_approximation) (Some complete_approximation)
          (scene_of sample_link)))) !! "joint/maxspeed_approximation" = Some (PyStr "poly")
     /\ props (link (snd (@setJointConstraints reference_host "continuous" 0%float 1%float
          0%float 0%float (Some complete_approximation) (Some complete_approximation)
          (scene_of sample_link)))) !! "joint/maxspeed_coefficients"
        = Some (PyList [1; 2]%float).
Proof.
  assert (H1 : phobostype (link (scene_of sample_link)) = "link") by reflexivity.
  assert (H2 : In "continuous" ["revolute"; "continuous"; "prismatic"]) by (cbn; auto).
  assert (H3 : allowed_keys complete_approximation = true) by reflexivity.
  assert (H4 : dict_get complete_approximation "function" = Some (PyStr "poly"))
    by reflexivity.
  assert (H5 : dict_get complete_approximation "coefficients" = Some (PyList [1; 2]%float))
    by reflexivity.
  split; [exact H1|]. split; [exact H2|]. split; [exact H3|].
  split; [exact H4|]. split; [exact H5|].
  exact (@complete_approximations_stored reference_host "continuous" 0%float 1%float
           0%float 0%float _ _ _ _ _ _ (scene_of sample_link) H1 H2 H3 H4 H5 H3 H4 H5).
Defined.

(** * Further properties of getJointConstraint, getJointType and
    getJointConstraints *)

(** X15. [getJointConstraint] returns the last constraint of the asked
    type on the bone: the position it gives holds a constraint of that
    type and no later one has the type; it gives [None] exactly when no
    constraint of the type is there. *)
Theorem getJointConstraint_is_last (joint : Object) (t : string) :
  match getJointConstraint joint t with
  | Some i =>
      exists c, constraints joint !! i = Some c /\ ctype c = t
        /\ forall j c', i < j -> constraints joint !! j = Some c' -> ctype c' <> t
  | None => forall c, In c (constraints joint) -> ctype c <> t
  end.
Proof. apply last_of_type_spec. Qed.

(** X16. [getJointType] looks at the constraints [getJointConstraint]
    returns for 'LIMIT_LOCATION' and 'LIMIT_ROTATION' and at nothing
    else: links that agree on these two are classified alike, whatever
    else is on their bones. *)
Theorem classification_reads_last_pair (joint joint' : Object) :
  last_constraint joint "LIMIT_LOCATION" = last_constraint joint' "LIMIT_LOCATION" ->
  last_constraint joint "LIMIT_ROTATION" = last_constraint joint' "LIMIT_ROTATION" ->
  getJointType joint = getJointType joint'.
Proof. intros Hl Hr. by rewrite !getJointType_last, Hl, Hr. Qed.

Lemma classification_reads_last_pair_witness :
  last_constraint shadowed_link "LIMIT_LOCATION"
  = last_constraint revolute_link "LIMIT_LOCATION"
  /\ last_constraint shadowed_link "LIMIT_ROTATION"
     = last_constraint revolute_link "LIMIT_ROTATION"
  /\ getJointType shadowed_link = getJointType revolute_link.
Proof.
  assert (H1 : last_constraint shadowed_link "LIMIT_LOCATION"
               = last_constraint revolute_link "LIMIT_LOCATION") by reflexivity.
  assert (H2 : last_constraint shadowed_link "LIMIT_ROTATION"
               = last_constraint revolute_link "LIMIT_ROTATION") by reflexivity.
  split; [exact H1|]. split; [exact H2|].
  exact (classification_reads_last_pair shadowed_link revolute_link H1 H2).
Defined.

Lemma last_constraint_absent joint t :
  (forall c, In c (constraints joint) -> ctype c <> t) -> last_constraint joint t = None.
Proof.
  intros Hno. unfold last_constraint.
  pose proof (last_of_type_spec (constraints joint) t) as Hspec.
  unfold getJointConstraint. destruct (last_of_type (constraints joint) t) as [i|]; [|done].
  destruct Hspec as (c & Hc & Ht & _). exfalso. apply (Hno c); [|exact Ht].
  apply list_elem_of_In. by eapply list_elem_of_lookup_2.
Qed.

(** X17. A link without a LIMIT_LOCATION constraint is classified
    floating, whatever rotation constraints it has, and
    [getJointConstraints] gives it neither axis nor limits. *)
Theorem no_location_constraint_is_floating `{Host} (joint : Object) :
  (forall c, In c (constraints joint) -> ctype c <> "LIMIT_LOCATION") ->
  fst (getJointType joint) = "floating"
  /\ getJointConstraints joint = Return (None, None).
Proof.
  intros Hno. apply last_constraint_absent in Hno.
  assert (Hty : fst (getJointType joint) = "floating")
    by (rewrite getJointType_last, Hno; reflexivity).
  split; [exact Hty|].
  unfold getJointConstraints, deriveJointType.
  destruct (getJointType joint) as [jt crot]. cbn in Hty. by subst jt.
Qed.

Lemma no_location_constraint_is_floating_witness :
  (forall c, In c (constraints rotation_only_link) -> ctype c <> "LIMIT_LOCATION")
  /\ fst (getJointType rotation_only_link) = "floating"
  /\ @getJointConstraints reference_host rotation_only_link = Return (None, None).
Proof.
  assert (H1 : forall c, In c (constraints rotation_only_link) ->
                         ctype c <> "LIMIT_LOCATION").
  { intros c Hc. cbn in Hc. destruct Hc as [<-|[]]. discriminate. }
  split; [exact H1|].
  exact (@no_location_constraint_is_floating reference_host rotation_only_link H1).
Defined.

(** X18. [getJointConstraints] raises nothing but its under-defined
    error, and only for a link classified prismatic whose location
    constraint does not have exactly two axes with both enable flags set
    and equal bounds, or classified planar without exactly one such
    axis. *)
Theorem getJointConstraints_raises_only_underdefined `{Host} (joint : Object)
    (e : Exception) :
  getJointConstraints joint = Raise e ->
  e = JointTypeError (name joint)
  /\ exists c,
       last_constraint joint "LIMIT_LOCATION" = Some c
       /\ ((fst (getJointType joint) = "prismatic" /\ py_sum (strict_flags c) <> 2)
           \/ (fst (getJointType joint) = "planar" /\ py_sum (strict_flags c) <> 1)).
Proof. apply getJointConstraints_raises. Qed.

Lemma getJointConstraints_raises_only_underdefined_witness :
  @getJointConstraints reference_host half_enabled_link = Raise (JointTypeError "arm")
  /\ JointTypeError "arm" = JointTypeError (name half_enabled_link)
  /\ exists c,
       last_constraint half_enabled_link "LIMIT_LOCATION" = Some c
       /\ ((fst (getJointType half_enabled_link) = "prismatic"
            /\ py_sum (strict_flags c) <> 2)
           \/ (fst (getJointType half_enabled_link) = "planar"
               /\ py_sum (strict_flags c) <> 1)).
Proof.
  assert (H1 : @getJointConstraints reference_host half_enabled_link
               = Raise (JointTypeError "arm")) by reflexivity.
  split; [exact H1|].
  exact (@getJointConstraints_raises_only_underdefined reference_host
           half_enabled_link _ H1).
Defined.

(** * Further properties of createJoint *)


Lemma named_mode_props `{Host} j s :
  mode (named j s) = mode s
  /\ forall k, k <> "joint/name" -> props (link (named j s)) !! k = props (link s) !! k.
Proof.
  unfold named, put_props. destruct (negb _); cbn; split; try reflexivity.
  intros k Hk. by apply lookup_insert_ne.
Qed.

Lemma limited_props `{Host} j s k :
  k <> "joint/maxEffort" -> k <> "joint/maxSpeed" ->
  props (link (limited j s)) !! k = props (link s) !! k.
Proof.
  intros H1 H2. unfold limited, limit_stored, put_props, put_logged.
  repeat case_match; cbn;
    rewrite ?lookup_insert_ne by (intros <-; first [by apply H1 | by apply H2]);
    reflexivity.
Qed.

Lemma created_phobostype `{Host} j s :
  phobostype (link (limited j (oriented j (named j s)))) = phobostype (link s).
Proof. pose proof (prepared_frame j s) as Hf. cbv zeta in Hf. congruence. Qed.


(** X20. On an object that is not a link [createJoint] writes no
    constraint and no joint/type: both are as before, and the refusal
    of [setJointConstraints] is in the log. *)
Theorem createJoint_on_non_link `{Host} (j : JointDef) (s : Scene) :
  phobostype (link s) <> "link" ->
  let s' := snd (createJoint j s) in
  constraints (link s') = constraints (link s)
  /\ props (link s') !! "joint/type" = props (link s) !! "joint/type"
  /\ exists o,
       name o = name (link s)
       /\ In ("Cannot set joint constraints. Not a link: " +:+ Object_format o, "ERROR")
            (logged s').
Proof.
  intros Hp s'. subst s'. rewrite createJoint_run. cbn [snd].
  apply String.eqb_neq in Hp. split; [by rewrite created_constraints, Hp|].
  unfold created. cbn [put_logged put_props link logged with_props props].
  rewrite (extras_props_frame _ _ "type" eq_refl).
  unfold constrained. rewrite created_phobostype, Hp. cbn [put_logged link logged]. split.
  - change ("joint/" +:+ "type") with "joint/type".
    rewrite limited_props by discriminate.
    pose proof (oriented_link_frame j (named j s)) as Ho. cbv zeta in Ho.
    injection Ho as _ _ _ _ ->. by apply named_mode_props.
  - exists (link (limited j (oriented j (named j s)))). split.
    + pose proof (prepared_frame j s) as Hf. cbv zeta in Hf. congruence.
    + rewrite !in_app_iff. cbn [In]. auto.
Qed.

Lemma createJoint_on_non_link_witness :
  phobostype (link (scene_of sample_visual)) <> "link"
  /\ constraints (link (snd (@createJoint reference_host revolute_with_effort
       (scene_of sample_visual))))
     = constraints (link (scene_of sample_visual))
     /\ props (link (snd (@createJoint reference_host revolute_with_effort
          (scene_of sample_visual)))) !! "joint/type"
        = props (link (scene_of sample_visual)) !! "joint/type"
     /\ exists o,
          name o = name (link (scene_of sample_visual))
          /\ In ("Cannot set joint constraints. Not a link: "
                   +:+ @Object_format reference_host o, "ERROR")
               (logged (snd (@createJoint reference_host revolute_with_effort
                  (scene_of sample_visual)))).
Proof.
  assert (H1 : phobostype (link (scene_of sample_visual)) <> "link") by discriminate.
  split; [exact H1|].
  exact (@createJoint_on_non_link reference_host revolute_with_effort
           (scene_of sample_visual) H1).
Defined.

(** X21. [createJoint] stores the joint's name under joint/name exactly
    when it differs from the name of the link object; otherwise the
    property is left as it was. *)
Theorem joint_name_kept `{Host} (j : JointDef) (s : Scene) :
  props (link (snd (createJoint j s))) !! "joint/name"
  = if String.eqb (jname j) (name (link s))
    then props (link s) !! "joint/name"
    else Some (PyStr (jname j)).
Proof.
  rewrite createJoint_run. cbn [snd].
  rewrite (created_props j s "name" eq_refl) by discriminate.
  change ("joint/" +:+ "name") with "joint/name".
  rewrite limited_props by discriminate.
  pose proof (oriented_link_frame j (named j s)) as Ho. cbv zeta in Ho.
  injection Ho as _ _ _ _ ->.
  unfold named, put_props. destruct (String.eqb (jname j) (name (link s))); cbn [negb].
  - reflexivity.
  - cbn. apply lookup_insert_eq.
Qed.

Lemma constrained_bone_head `{Host} t lo up s :
  bone_head (link (constrained t lo up s)) = bone_head (link s).
Proof.
  unfold constrained, built_scene.
  destruct (String.eqb _ _); [|reflexivity]. by destruct (getResource t).
Qed.

(** X22. [createJoint] never moves the head of the bone, and moves its
    tail only for an axis of nonzero length: then the tail is the head
    plus the normalized axis scaled to the length the bone had. *)
Theorem createJoint_bone `{Host} (j : JointDef) (s : Scene) :
  let o := link s in
  let o' := link (snd (createJoint j s)) in
  bone_head o' = bone_head o
  /\ bone_tail o'
     = match axis j with
       | Some a =>
           if py_eq (Vector_length a) 0%float then bone_tail o
           else Vector_add (bone_head o)
                  (Vector_mul (Vector_normalized a)
                     (Vector_length (Vector_sub (bone_tail o) (bone_head o))))
       | None => bone_tail o
       end.
Proof.
  intros o o'. subst o o'. rewrite createJoint_run. cbn [snd].
  unfold created. cbn [put_logged put_props link with_props bone_head bone_tail].
  rewrite constrained_bone_head, constrained_bone.
  pose proof (limited_link_frame j (oriented j (named j s))) as Hl. cbv zeta in Hl.
  injection Hl as _ _ _ -> ->.
  pose proof (named_link_frame j s) as [Hn _]. cbv zeta in Hn.
  injection Hn as _ _ _ Hh Ht.
  unfold oriented. destruct (axis j) as [a|]; [|by split].
  destruct (py_eq (Vector_length a) 0); cbn; rewrite ?Hh, ?Ht; by split.
Qed.

(** ** Generic properties *)

Lemma extras_props_filter ex m :
  extras_props (List.filter (fun e => starts_with_dollar (fst e)) ex) m = extras_props ex m.
Proof.
  revert m. induction ex as [|[prop d] ex IH]; intros m; [reflexivity|].
  cbn [List.filter fst]. destruct (starts_with_dollar prop) eqn:Hd.
  - cbn [extras_props]. apply IH.
  - cbn [extras_props]. rewrite IH. f_equal.
    destruct prop as [|a rest]; [reflexivity|].
    destruct a as [[] [] [] [] [] [] [] []]; first [discriminate Hd | reflexivity].
Qed.

Lemma put_props_ext (f g : gmap string PyVal -> gmap string PyVal) s :
  (forall m, f m = g m) -> put_props f s = put_props g s.
Proof. intros Hfg. unfold put_props, with_props. by rewrite Hfg. Qed.

(** X23. Entries of the joint definition whose key does not start with '$'
    play no part in the loop over the generic properties: dropping them
    changes nothing of what [createJoint] does. *)
Theorem generic_entries_need_dollar `{Host} (j : JointDef) (s : Scene) :
  createJoint j s
  = createJoint
      (with_extras (List.filter (fun e => starts_with_dollar (fst e)) (extras j)) j) s.
Proof.
  rewrite !createJoint_run. f_equal.
  set (j' := with_extras (List.filter (fun e => starts_with_dollar (fst e)) (extras j)) j).
  assert (E1 : limited j' (oriented j' (named j' s)) = limited j (oriented j (named j s)))
    by reflexivity.
  assert (E2 : chosen_limits j' = chosen_limits j) by reflexivity.
  assert (E3 : jtype j' = jtype j) by reflexivity.
  unfold created. rewrite E1, E2, E3.
  rewrite (put_props_ext (extras_props (extras j')) (extras_props (extras j)));
    [reflexivity|].
  intros m. apply extras_props_filter.
Qed.

Lemma append_inj_r a b c : a +:+ b = a +:+ c -> b = c.
Proof.
  induction a as [|x a IH]; [by rewrite !append_nil|].
  rewrite !append_cons. intros [= Heq]. by apply IH.
Qed.

Lemma tags_props_other rest d m tag :
  ~ In tag (map fst d) ->
  tags_props rest d m !! ("joint/" +:+ rest +:+ "/" +:+ tag)
  = m !! ("joint/" +:+ rest +:+ "/" +:+ tag).
Proof.
  revert m. induction d as [|[tag' v'] d IH]; intros m Hno; [reflexivity|].
  cbn [tags_props]. cbn [map fst In] in Hno. rewrite IH by tauto.
  apply lookup_insert_ne. intros Heq.
  do 3 apply append_inj_r in Heq. tauto.
Qed.

Lemma tags_props_stored rest d m tag v :
  NoDup (map fst d) -> In (tag, v) d ->
  tags_props rest d m !! ("joint/" +:+ rest +:+ "/" +:+ tag) = Some v.
Proof.
  revert m. induction d as [|[tag' v'] d IH]; intros m Hnd Hin; [destruct Hin|].
  cbn [map fst] in Hnd. apply NoDup_cons in Hnd as [Hfresh Hnd].
  cbn [tags_props]. destruct Hin as [[= -> ->]|Hin].
  - rewrite tags_props_other by (by rewrite <- list_elem_of_In).
    apply lookup_insert_eq.
  - by apply IH.
Qed.

Lemma extras_props_app ex ex' m :
  extras_props (ex ++ ex') m = extras_props ex' (extras_props ex m).
Proof.
  revert m. induction ex as [|[prop d] ex IH]; intros m; [reflexivity|].
  cbn [app extras_props]. apply IH.
Qed.

(** X24. For the last generic entry '$rest' of a joint definition, each
    tag of its dictionary is stored under joint/rest/tag. *)
Theorem generic_property_stored `{Host} (j : JointDef) (ex : list (string * PyDict))
    (rest : string) (d : PyDict) (tag : string) (v : PyVal) (s : Scene) :
  extras j = ex ++ [(String "$"%char rest, d)] ->
  NoDup (map fst d) ->
  In (tag, v) d ->
  props (link (snd (createJoint j s))) !! ("joint/" +:+ rest +:+ "/" +:+ tag) = Some v.
Proof.
  intros Hex Hnd Hin. rewrite createJoint_run. cbn [snd].
  unfold created. cbn [put_logged put_props link with_props props].
  rewrite Hex, extras_props_app. cbn [extras_props].
  by apply tags_props_stored.
Qed.

Lemma generic_property_stored_witness :
  extras revolute_with_effort = [] ++ [(String "$"%char "motor", [("type", PyStr "DC")])]
  /\ NoDup (map fst [("type", PyStr "DC")])
  /\ In ("type", PyStr "DC") [("type", PyStr "DC")]
  /\ props (link (snd (@createJoint reference_host revolute_with_effort
       (scene_of sample_link)))) !! ("joint/" +:+ "motor" +:+ "/" +:+ "type")
     = Some (PyStr "DC").
Proof.
  assert (H1 : extras revolute_with_effort
               = [] ++ [(String "$"%char "motor", [("type", PyStr "DC")])]) by reflexivity.
  assert (H2 : NoDup (map fst [("type", PyStr "DC")])).
  { cbn. apply NoDup_cons. split; [apply not_elem_of_nil|apply NoDup_nil_2]. }
  assert (H3 : In ("type", PyStr "DC") [("type", PyStr "DC")]) by (cbn; auto).
  split; [exact H1|]. split; [exact H2|]. split; [exact H3|].
  exact (@generic_property_stored reference_host revolute_with_effort [] "motor"
           [("type", PyStr "DC")] "type" (PyStr "DC") (scene_of sample_link) H1 H2 H3).
Defined.

(** * The CSV animation script: getJointsFromHeaders *)

Lemma joints_from_found objects headers dict :
  (forall name, In name headers -> name <> "time" -> is_Some (objects !! name)) ->
  exists dict',
    joints_from objects headers dict = Return dict'
    /\ forall name,
         dict' !! name
         = if str_in name headers && negb (String.eqb name "time")
           then objects !! name else dict !! name.
Proof.
  revert dict. induction headers as [|h headers IH]; intros dict Hall.
  - exists dict. by split.
  - cbn [joints_from]. destruct (String.eqb_spec h "time") as [->|Hh].
    + destruct (IH dict) as (dict' & Hrun & Hlk); [intros; apply Hall; cbn; auto|].
      exists dict'. split; [exact Hrun|]. intros name. rewrite Hlk.
      unfold str_in. cbn [existsb].
      by destruct (String.eqb name "time"), (existsb (String.eqb name) headers).
    + destruct (Hall h) as [o Ho]; [cbn; auto|exact Hh|]. rewrite Ho.
      destruct (IH (<[h := o]> dict)) as (dict' & Hrun & Hlk); [intros; apply Hall; cbn; auto|].
      exists dict'. split; [exact Hrun|]. intros name. rewrite Hlk.
      unfold str_in. cbn [existsb].
      destruct (String.eqb_spec name h) as [->|Hne].
      * rewrite lookup_insert_eq, Ho. apply String.eqb_neq in Hh. rewrite Hh. cbn.
        by destruct (existsb (String.eqb h) headers).
      * by rewrite lookup_insert_ne.
Qed.

Lemma joints_from_missing objects pre name post dict :
  (forall n, In n pre -> n <> "time" -> is_Some (objects !! n)) ->
  name <> "time" -> objects !! name = None ->
  joints_from objects (pre ++ name :: post) dict = Raise (KeyError name).
Proof.
  revert dict. induction pre as [|h pre IH]; intros dict Hall Hne Hno.
  - cbn. apply String.eqb_neq in Hne. by rewrite Hne, Hno.
  - cbn [app joints_from]. destruct (String.eqb_spec h "time") as [->|Hh].
    + apply IH; [intros; apply Hall; cbn; auto|done|done].
    + destruct (Hall h) as [o Ho]; [cbn; auto|exact Hh|]. rewrite Ho.
      apply IH; [intros; apply Hall; cbn; auto|done|done].
Qed.

(** X25. When every header other than 'time' names an object of the
    scene, [getJointsFromHeaders] returns a dictionary that maps exactly
    these headers to their objects; 'time' is never a key. *)
Theorem headers_to_joints (objects : gmap string Object) (headers : list string) :
  (forall name, In name headers -> name <> "time" -> is_Some (objects !! name)) ->
  exists dict,
    getJointsFromHeaders objects headers = Return dict
    /\ dict !! "time" = None
    /\ forall name,
         dict !! name
         = if str_in name headers && negb (String.eqb name "time")
           then objects !! name else None.
Proof.
  intros Hall. destruct (joints_from_found objects headers ∅ Hall) as (dict & Hrun & Hlk).
  exists dict. split; [exact Hrun|]. split.
  - rewrite Hlk. cbn. by rewrite andb_false_r.
  - intros name. rewrite Hlk. by destruct (_ && _).
Qed.

Lemma headers_to_joints_witness :
  (forall name, In name ["time"; "j0"; "j1"] -> name <> "time" ->
     is_Some (two_joints !! name))
  /\ exists dict,
       getJointsFromHeaders two_joints ["time"; "j0"; "j1"] = Return dict
       /\ dict !! "time" = None
       /\ forall name,
            dict !! name
            = if str_in name ["time"; "j0"; "j1"] && negb (String.eqb name "time")
              then two_joints !! name else None.
Proof.
  assert (H1 : forall name, In name ["time"; "j0"; "j1"] -> name <> "time" ->
                 is_Some (two_joints !! name)).
  { intros name Hin Hne. cbn in Hin. destruct Hin as [<-|[<-|[<-|[]]]]; [done| |]; by eexists. }
  split; [exact H1|].
  exact (headers_to_joints two_joints ["time"; "j0"; "j1"] H1).
Defined.

(** X26. [getJointsFromHeaders] raises [KeyError] for the first header
    other than 'time' that names no object of the scene. *)
Theorem first_unknown_header_raises (objects : gmap string Object)
    (pre : list string) (name : string) (post : list string) :
  (forall n, In n pre -> n <> "time" -> is_Some (objects !! n)) ->
  name <> "time" ->
  objects !! name = None ->
  getJointsFromHeaders objects (pre ++ name :: post) = Raise (KeyError name).
Proof. intros Hall Hne Hno. by apply joints_from_missing. Qed.

Lemma first_unknown_header_raises_witness :
  (forall n, In n ["time"; "j0"] -> n <> "time" -> is_Some (two_joints !! n))
  /\ "j7" <> "time"
  /\ two_joints !! "j7" = None
  /\ getJointsFromHeaders two_joints (["time"; "j0"] ++ "j7" :: ["j1"; "j9"])
     = Raise (KeyError "j7").
Proof.
  assert (H1 : forall n, In n ["time"; "j0"] -> n <> "time" -> is_Some (two_joints !! n)).
  { intros n Hin Hne. cbn in Hin. destruct Hin as [<-|[<-|[]]]; [done|]; by eexists. }
  assert (H2 : "j7" <> "time") by discriminate.
  assert (H3 : two_joints !! "j7" = None) by reflexivity.
  split; [exact H1|]. split; [exact H2|]. split; [exact H3|].
  exact (first_unknown_header_raises two_joints ["time"; "j0"] "j7" ["j1"; "j9"] H1 H2 H3).
Defined.


(** * Further properties of the builders *)

(** X27. In pose mode each of the five builders returns normally and
    changes the scene in one way only: it puts a LIMIT_LOCATION
    constraint and then a LIMIT_ROTATION constraint on top of the bone's
    stack, both in local space, the rotation constraint locking X and Z
    at zero.  In any other mode each of them raises [RuntimeError] at its
    first statement and leaves the scene as it was. *)
Theorem builders_append_pair (lower upper : float) (s : Scene) :
  Forall
    (fun r : Outcome unit * Scene =>
       if String.eqb (mode s) "POSE" then
         exists loc rot,
           r = (Return tt, put_constraints (constraints (link s) ++ [loc; rot]) s)
           /\ (ctype loc, owner_space loc) = ("LIMIT_LOCATION", "LOCAL")
           /\ (ctype rot, owner_space rot) = ("LIMIT_ROTATION", "LOCAL")
           /\ (use_limit_x rot, min_x rot, max_x rot) = (true, 0%float, 0%float)
           /\ (use_limit_z rot, min_z rot, max_z rot) = (true, 0%float, 0%float)
       else r = (Raise (RuntimeError "pose.constraint_add"), s))
    [set_revolute lower upper s; set_continuous s; set_prismatic lower upper s;
     set_fixed s; set_planar s].
Proof.
  destruct (String.eqb_spec (mode s) "POSE") as [Hm|Hm].
  - rewrite set_revolute_run, set_continuous_run, set_prismatic_run, set_fixed_run,
      set_planar_run by exact Hm.
    unfold built_constraints. cbn [String.eqb Ascii.eqb Bool.eqb].
    repeat (apply Forall_cons; split); [..|apply Forall_nil_2];
      do 2 eexists; (split; [reflexivity|]); destruct (py_eq lower upper); repeat split.
  - unfold set_revolute, set_continuous, set_prismatic, set_fixed, set_planar.
    rewrite !builder_refused by exact Hm.
    repeat (apply Forall_cons; split); [..|apply Forall_nil_2]; reflexivity.
Qed.

(** * Exceptions of setJointConstraints *)

Lemma store_approximation_raises kind label n d s e :
  fst (store_approximation kind label n d s) = Raise e ->
  e = KeyError "function" \/ e = KeyError "coefficients".
Proof.
  rewrite store_approximation_run.
  repeat case_match; cbn [fst]; intros [= <-]; auto.
Qed.

Lemma finish_joint_raises `{Host} t n eff spd s e :
  fst (finish_joint t n eff spd s) = Raise e ->
  (e = KeyError "function" \/ e = KeyError "coefficients")
  /\ str_in t ["revolute"; "continuous"; "prismatic"] = true.
Proof.
  assert (Hres : forall s0 : Scene,
    fst ((let resource_obj := getResource t in
          if obj_truthy resource_obj then
            log ("Assigned resource to " +:+ n +:+ ".") "DEBUG";;
            modify_link (with_custom_shape resource_obj)
          else mret tt) s0) <> Raise e).
  { intros s0. cbv zeta. by destruct (getResource t). }
  unfold finish_joint.
  destruct (str_in t ["revolute"; "continuous"; "prismatic"]) eqn:Ht.
  - rewrite bind_assoc, bind_snd.
    destruct (fst (store_approximation "maxeffort" "max effort" n eff s)) as [[]|e1] eqn:H1.
    + rewrite bind_snd.
      destruct (fst (store_approximation "maxspeed" "max speed" n spd _)) as [[]|e2] eqn:H2.
      * intros Hr. by destruct (Hres _ Hr).
      * cbn [fst]. intros [= <-]. split; [|reflexivity].
        by eapply store_approximation_raises.
    + cbn [fst]. intros [= <-]. split; [|reflexivity].
      by eapply store_approximation_raises.
  - rewrite bind_snd. cbn [fst snd mret Py_ret].
    intros Hr. by destruct (Hres _ Hr).
Qed.

(** X28. [setJointConstraints] can be called in any mode: it sets pose
    mode before a builder runs, so the constraint operator is never
    refused.  The only exception the function raises is the [KeyError]
    for a missing 'function' or 'coefficients' entry, on a link, for one
    of the three joint types with approximations, and then the mode has
    already been set back to 'OBJECT' and the constraints are in
    place. *)
Theorem setJointConstraints_raises_only_KeyError `{Host} (t : string)
    (lo up spring damping : float) (eff spd : option PyDict) (s : Scene) (e : Exception) :
  let r := setJointConstraints t lo up spring damping eff spd s in
  fst r = Raise e ->
  (e = KeyError "function" \/ e = KeyError "coefficients")
  /\ phobostype (link s) = "link"
  /\ str_in t ["revolute"; "continuous"; "prismatic"] = true
  /\ mode (snd r) = "OBJECT"
  /\ constraints (link (snd r))
     = remove_each (constraints (link s)) ++ built_constraints t lo up.
Proof.
  intros r Hr. subst r.
  destruct (String.eqb_spec (phobostype (link s)) "link") as [Hp|Hp];
    [|by rewrite setJointConstraints_not_link_run in Hr].
  pose proof (setJointConstraints_link_frame t lo up spring damping eff spd s Hp)
    as (Hm & _).
  rewrite (setJointConstraints_link_general _ _ _ _ _ _ _ _ Hp) in Hr.
  destruct (finish_joint_raises _ _ _ _ _ _ Hr) as [He Ht].
  split; [exact He|]. split; [exact Hp|]. split; [exact Ht|].
  split; [exact Hm|]. by apply built_stack.
Qed.

(** X28 at a revolute joint with an approximation that lacks
    'coefficients', called in edit mode. *)
Lemma setJointConstraints_raises_only_KeyError_witness :
  fst (@setJointConstraints reference_host "revolute" (-1.5)%float 1.5%float 0%float 0%float
         (Some poly_without_coefficients) None
         (mkScene sample_link "EDIT" [] false))
  = Raise (KeyError "coefficients")
  /\ (KeyError "coefficients" = KeyError "function"
      \/ KeyError "coefficients" = KeyError "coefficients")
  /\ phobostype sample_link = "link"
  /\ str_in "revolute" ["revolute"; "continuous"; "prismatic"] = true
  /\ mode (snd (@setJointConstraints reference_host "revolute" (-1.5)%float 1.5%float
                  0%float 0%float (Some poly_without_coefficients) None
                  (mkScene sample_link "EDIT" [] false))) = "OBJECT"
  /\ constraints
       (link (snd (@setJointConstraints reference_host "revolute" (-1.5)%float 1.5%float
                     0%float 0%float (Some poly_without_coefficients) None
                     (mkScene sample_link "EDIT" [] false))))
     = [] ++ [loc_constraint true true true 0%float 0%float;
              rot_constraint true true true (-1.5)%float 1.5%float].
Proof.
  assert (H1 : fst (@setJointConstraints reference_host "revolute" (-1.5)%float 1.5%float
                      0%float 0%float (Some poly_without_coefficients) None
                      (mkScene sample_link "EDIT" [] false))
               = Raise (KeyError "coefficients")) by (vm_compute; reflexivity).
  split; [exact H1|].
  exact (@setJointConstraints_raises_only_KeyError reference_host "revolute"
           (-1.5)%float 1.5%float 0%float 0%float (Some poly_without_coefficients) None
           (mkScene sample_link "EDIT" [] false) _ H1).
Defined.
